(** * Billing enablement scripts (day one / day two): model and properties

    Shallow embedding of [dayone/billing-enablement.py] and
    [daytwo/billing-enablement.py].

    Modelling conventions.
    - Python [str] values are Rocq [string]s; the text handled by the scripts
      (display names, error messages, the project id, console input) is taken
      over the ASCII alphabet, so [str.lower], [str.strip], the regular
      expression class [\d] and [int(...)] are the ASCII restrictions of the
      Python functions.
    - Python [int] is [Z]; the day-one back-off delay, which becomes a [float]
      after [wait_seconds *= 1.5], is a rational [Q] (every value it takes is a
      dyadic rational with a numerator below 2^53, so the floating-point
      product is exact).
    - The billing service, [gcloud], the clock and the project-id file are an
      environment [Env] of oracles.  A service oracle answers from the history
      of calls issued so far, so it may answer differently from one attempt to
      the next (propagation delays, transient failures).
    - A function with effects is a computation [M A]: it takes the environment
      and the current [World] (calls issued, console output, pending console
      input) and yields an outcome (a value, a raised exception, or a
      [sys.exit]) together with the new world.
    - Console output is recorded for the messages that the properties below
      refer to; the remaining [print] calls do not influence control flow and
      are left out.  The [ImportError] bootstrap that installs the client
      library is outside the model. *)

From Stdlib Require Import String Ascii List ZArith QArith Bool Arith Lia.
From Stdlib Require Import DecimalString OrderedTypeEx.
Import ListNotations.

Set Warnings "-abstract-large-number".

Local Open Scope string_scope.
Local Open Scope Z_scope.

(* ------------------------------------------------------------------------- *)
(** ** Strings *)

Module Str.

(** [c.lower()] on one ASCII character. *)
Definition lower_ascii (c : ascii) : ascii :=
  let n := nat_of_ascii c in
  if ((65 <=? n) && (n <=? 90))%nat then ascii_of_nat (n + 32) else c.

(** [s.lower()]. *)
Fixpoint lower (s : string) : string :=
  match s with
  | EmptyString => EmptyString
  | String c t => String (lower_ascii c) (lower t)
  end.

(** [needle in haystack]. *)
Fixpoint contains (needle haystack : string) : bool :=
  String.prefix needle haystack
  || match haystack with
     | EmptyString => false
     | String _ t => contains needle t
     end.

(** The class [\d]. *)
Definition is_digit (c : ascii) : bool :=
  let n := nat_of_ascii c in ((48 <=? n) && (n <=? 57))%nat.

(** Characters removed by [str.strip()]. *)
Definition is_space (c : ascii) : bool :=
  let n := nat_of_ascii c in
  ((9 <=? n) && (n <=? 13) || (28 <=? n) && (n <=? 32))%nat.

Fixpoint lstrip (s : string) : string :=
  match s with
  | EmptyString => EmptyString
  | String c t => if is_space c then lstrip t else s
  end.

Fixpoint rstrip (s : string) : string :=
  match s with
  | EmptyString => EmptyString
  | String c t =>
      match rstrip t with
      | EmptyString => if is_space c then EmptyString else String c EmptyString
      | t' => String c t'
      end
  end.

(** [s.strip()]. *)
Definition strip (s : string) : string := rstrip (lstrip s).

(** Python string comparison [a < b]: lexicographic on code points. *)
Definition ltb (a b : string) : bool := String.ltb a b.

(** Truthiness of a string: [if s] / [not s]. *)
Definition truthy (s : string) : bool :=
  match s with EmptyString => false | _ => true end.

(** *** [int(s)] for a stripped string: an optional sign, then decimal
    digits, where single underscores may separate digits; at most 4300
    digits. *)

Definition digit_value (c : ascii) : Z := Z.of_nat (nat_of_ascii c) - 48.

(** [digits_from acc after_digit s]: reads the digits of [s] into [acc];
    [after_digit] tells whether an underscore may come next. *)
Fixpoint digits_from (acc : Z) (after_digit : bool) (s : string) : option Z :=
  match s with
  | EmptyString => if after_digit then Some acc else None
  | String c t =>
      if is_digit c then digits_from (10 * acc + digit_value c) true t
      else if (Ascii.eqb c "_" && after_digit)%bool then digits_from acc false t
      else None
  end.

(** The number of decimal digits in [s]; the sign and the underscores do
    not count. *)
Fixpoint count_digits (s : string) : Z :=
  match s with
  | EmptyString => 0
  | String c t => (if is_digit c then 1 else 0) + count_digits t
  end.

(** [sys.get_int_max_str_digits()]: [int] refuses a string with more
    digits with [ValueError]. *)
Definition int_max_str_digits : Z := 4300.

Definition int (s : string) : option Z :=
  if int_max_str_digits <? count_digits s then None
  else
    match s with
    | String "-" t => option_map Z.opp (digits_from 0 false t)
    | String "+" t => digits_from 0 false t
    | _ => digits_from 0 false s
    end.

(** *** Decimal fields of [strftime] *)

Definition decimal (n : N) : string :=
  NilEmpty.string_of_uint (N.to_uint n).

Fixpoint zeros (k : nat) : string :=
  match k with
  | O => EmptyString
  | S k' => String "0" (zeros k')
  end.

(** A field printed with at least [width] digits, as [%02d]. *)
Definition zero_pad (width : nat) (n : N) : string :=
  let d := decimal n in zeros (width - String.length d) ++ d.

End Str.

(* ------------------------------------------------------------------------- *)
(** ** The suffix pattern [SUFFIX_PATTERN = re.compile(r"-\d{12}$")] *)

Module Suffix.

(** [\d{n}] at the head of [s]: the digits matched and the rest. *)
Fixpoint digits (n : nat) (s : string) : option (string * string) :=
  match n with
  | O => Some (EmptyString, s)
  | S n' =>
      match s with
      | String c t =>
          if Str.is_digit c then
            match digits n' t with
            | Some (ds, rest) => Some (String c ds, rest)
            | None => None
            end
          else None
      | EmptyString => None
      end
  end.

(** [$] without [re.MULTILINE]: the end of the string, or just before a
    newline that is the last character. *)
Definition at_end (rest : string) : bool :=
  match rest with
  | EmptyString => true
  | String c EmptyString => Ascii.eqb c "010"
  | _ => false
  end.

(** The pattern tried at the head of [s]; the result is [match.group()]. *)
Definition match_here (s : string) : option string :=
  match s with
  | String c t =>
      if Ascii.eqb c "-" then
        match digits 12 t with
        | Some (ds, rest) => if at_end rest then Some (String c ds) else None
        | None => None
        end
      else None
  | EmptyString => None
  end.

(** [SUFFIX_PATTERN.search(s)]: the leftmost position where the pattern
    matches. *)
Fixpoint search (s : string) : option string :=
  match match_here s with
  | Some m => Some m
  | None =>
      match s with
      | EmptyString => None
      | String _ t => search t
      end
  end.

(** Truthiness of the match object. *)
Definition matches (s : string) : bool :=
  match search s with Some _ => true | None => false end.

(** What the specification calls "ends with the 12-digit suffix": the
    string is some prefix followed by a dash and exactly twelve digits. *)
Definition all_digits (ds : string) : bool :=
  forallb Str.is_digit (list_ascii_of_string ds).

Definition is_suffix_tag (t : string) : Prop :=
  exists ds, t = String "-" ds /\ String.length ds = 12%nat /\ all_digits ds = true.

Definition ends_with_tag (s : string) : Prop :=
  exists p t, s = p ++ t /\ is_suffix_tag t.

End Suffix.

(* ------------------------------------------------------------------------- *)
(** ** Data model *)

(** [billing_v1.BillingAccount], the fields the scripts read. *)
Record BillingAccount := {
  name : string;
  display_name : string;
  open : bool
}.

(** [billing_v1.ProjectBillingInfo], the fields the scripts read. *)
Record ProjectBillingInfo := {
  billing_account_name : string;
  billing_enabled : bool
}.

(** [datetime.now()], the fields printed by ["-%Y%m%d%H%M"]. *)
Record datetime := {
  year : N; month : N; day : N; hour : N; minute : N
}.

(** The invariant of Python's [datetime] type. *)
Definition valid_datetime (d : datetime) : Prop :=
  (1 <= year d <= 9999 /\ 1 <= month d <= 12 /\ 1 <= day d <= 31
   /\ hour d <= 23 /\ minute d <= 59)%N.

(** [d.strftime("-%Y%m%d%H%M")]: the C library prints [%Y] without
    padding, so a year below 1000 gives fewer than four digits; the other
    fields are padded to two digits. *)
Definition strftime_suffix (d : datetime) : string :=
  "-" ++ Str.decimal (year d) ++ Str.zero_pad 2 (month d)
      ++ Str.zero_pad 2 (day d) ++ Str.zero_pad 2 (hour d)
      ++ Str.zero_pad 2 (minute d).

(** Subclasses of [Exception] that the scripts can meet. *)
Inductive exception :=
| PermissionDenied (message : string)   (* google.api_core.exceptions *)
| NotFound (message : string)           (* google.api_core.exceptions *)
| FileNotFoundError
| CalledProcessError (stderr : string)  (* subprocess *)
| TimeoutExpired                        (* subprocess *)
| ValueError
| EOFError
| IndexError
| OtherException (message : string).

(** The answer of an external call: a value or a raised exception. *)
Inductive response (A : Type) :=
| Ok (a : A)
| Err (e : exception).
Arguments Ok {A} a.
Arguments Err {A} e.

(** A paged result of the client library: iterating it yields items and may
    raise while fetching a further page. *)
Inductive pager (A : Type) :=
| PEnd
| PItem (a : A) (rest : pager A)
| PRaise (e : exception).
Arguments PEnd {A}.
Arguments PItem {A} a rest.
Arguments PRaise {A} e.

Fixpoint pager_of_list {A} (l : list A) : pager A :=
  match l with
  | [] => PEnd
  | a :: t => PItem a (pager_of_list t)
  end.

(** [list(p)]. *)
Fixpoint list_of_pager {A} (p : pager A) : response (list A) :=
  match p with
  | PEnd => Ok []
  | PRaise e => Err e
  | PItem a rest =>
      match list_of_pager rest with
      | Ok l => Ok (a :: l)
      | Err e => Err e
      end
  end.

(** Calls issued to the outside world, in the order they are made. *)
Inductive call :=
| ListBillingAccounts
| ListProjectBillingInfo (account : string)
| GetProjectBillingInfo (project : string)
| UpdateProjectBillingInfo (project account : string)
| UpdateBillingAccount (account new_display_name : string)
| GcloudServicesEnable (project : string)
| Sleep (seconds : Q).

(** Console messages that are recorded. *)
Inductive message :=
| MsgNoProjectId              (* "critical error: Could not determine Project ID" *)
| MsgEmptyProjectId           (* "The provided Project ID is empty" *)
| MsgAlreadyLinked            (* "Success: Project is already linked ..." *)
| MsgLinkRequestSent          (* "Successfully sent link request." *)
| MsgLinkPermissionDenied     (* "Error: Permission Denied ..." on update *)
| MsgLinkFailed               (* other error on update *)
| MsgLinkVerified             (* "Billing link ... is confirmed active" *)
| MsgVerifyWarning            (* "Warning: Could not verify billing link ..." *)
| MsgBillingAlreadyEnabled    (* "Billing already enabled" *)
| MsgBillingConfigured        (* "Billing configured successfully" *)
| MsgNoAccountsFound          (* the "no billing account" banner *)
| MsgNoneOpen                 (* "none are currently open" *)
| MsgApiNotActive             (* the API did not become active *)
| MsgPermissionDenied         (* no permission to view billing accounts *)
| MsgUnexpectedError          (* "unrecoverable error" / "unexpected error" *)
| MsgTagged (new_display_name : string)
| MsgCouldNotTag.

(** The project-id file [~/project_id.txt]. *)
Inductive project_file_state :=
| FileMissing                      (* [os.path.exists] is false *)
| FileUnreadable (e : exception)   (* [open] / [read] raises *)
| FileContent (text : string).

(** What an oracle sees: the calls so far, oldest first, each with whether
    it returned ([true]) or raised ([false]). *)
Definition history := list (call * bool).

(** The environment of a run. *)
Record Env := {
  project_file : project_file_state;
  list_billing_accounts : history -> response (pager BillingAccount);
  list_project_billing_info :
    history -> string -> response (pager ProjectBillingInfo);
  get_project_billing_info : history -> string -> response ProjectBillingInfo;
  update_project_billing_info : history -> string -> string -> response unit;
  update_billing_account : history -> string -> string -> response unit;
  gcloud_services_enable : history -> string -> response unit;
  now : history -> datetime
}.

(** The state threaded through a run. *)
Record World := {
  calls : history;          (* external calls so far *)
  stdout : list message;    (* recorded console output, oldest first *)
  stdin : list string       (* console lines not read yet *)
}.

(* ------------------------------------------------------------------------- *)
(** ** Computations *)

(** How a computation ends: a value, an exception that propagates, or
    [sys.exit(code)] ([SystemExit] is not an [Exception], so no
    [except Exception] clause stops it). *)
Inductive outcome (A : Type) :=
| Return (a : A)
| Raised (e : exception)
| Exited (code : Z).
Arguments Return {A} a.
Arguments Raised {A} e.
Arguments Exited {A} code.

Definition M (A : Type) : Type := Env -> World -> outcome A * World.

Definition ret {A} (a : A) : M A := fun _ w => (Return a, w).

Definition bind {A B} (m : M A) (k : A -> M B) : M B :=
  fun env w =>
    match m env w with
    | (Return a, w') => k a env w'
    | (Raised e, w') => (Raised e, w')
    | (Exited c, w') => (Exited c, w')
    end.

Declare Scope prog_scope.
Delimit Scope prog_scope with prog.
Notation "x <- m ;; k" := (bind m (fun x => k))
  (at level 61, m at next level, right associativity) : prog_scope.
Notation "' pat <- m ;; k" := (bind m (fun x => match x with pat => k end))
  (at level 61, pat pattern, m at next level, right associativity) : prog_scope.
Notation "m ;; k" := (bind m (fun _ => k))
  (at level 61, right associativity) : prog_scope.
Local Open Scope prog_scope.

Definition raise {A} (e : exception) : M A := fun _ w => (Raised e, w).

Definition sys_exit {A} (code : Z) : M A := fun _ w => (Exited code, w).

(** [try: m  except ...: handler].  [handler e] is [None] when no clause
    matches [e], which then propagates. *)
Definition try_except {A} (m : M A) (handler : exception -> option (M A)) : M A :=
  fun env w =>
    match m env w with
    | (Raised e, w') =>
        match handler e with
        | Some h => h env w'
        | None => (Raised e, w')
        end
    | r => r
    end.

(** An external call: the oracle answers from the history, and the call is
    appended to it. *)
Definition external {A} (c : call) (oracle : Env -> history -> response A) : M A :=
  fun env w =>
    let record ok :=
      {| calls := (calls w ++ [(c, ok)])%list; stdout := stdout w; stdin := stdin w |} in
    match oracle env (calls w) with
    | Ok a => (Return a, record true)
    | Err e => (Raised e, record false)
    end.

(** A value computed from an answer already received (iterating a pager). *)
Definition of_response {A} (r : response A) : M A :=
  match r with
  | Ok a => ret a
  | Err e => raise e
  end.

Definition print (m : message) : M unit :=
  fun _ w =>
    (Return tt, {| calls := calls w; stdout := (stdout w ++ [m])%list; stdin := stdin w |}).

(** [time.sleep(seconds)]. *)
Definition sleep (seconds : Q) : M unit :=
  external (Sleep seconds) (fun _ _ => Ok tt).

(** [datetime.now()]. *)
Definition datetime_now : M datetime :=
  fun env w => (Return (now env (calls w)), w).

(** [input(...)]: the next console line, [EOFError] when there is none. *)
Definition input : M string :=
  fun _ w =>
    match stdin w with
    | line :: rest =>
        (Return line, {| calls := calls w; stdout := stdout w; stdin := rest |})
    | [] => (Raised EOFError, w)
    end.

(** [l[0]]. *)
Definition item0 {A} (l : list A) : M A :=
  match l with
  | a :: _ => ret a
  | [] => raise IndexError
  end.

(** [for i in range(n)] with loop-carried variables [s]; the body either goes
    on to the next index or leaves the loop ([break], or a [return] that the
    caller completes). *)
Inductive loop_step (S : Type) :=
| Continue (s : S)
| Break (s : S).
Arguments Continue {S} s.
Arguments Break {S} s.

Fixpoint for_range_from {S} (i : Z) (n : nat) (s : S)
    (body : Z -> S -> M (loop_step S)) : M (loop_step S) :=
  match n with
  | O => ret (Continue s)
  | Datatypes.S n' =>
      r <- body i s;;
      match r with
      | Continue s' => for_range_from (i + 1) n' s' body
      | Break s' => ret (Break s')
      end
  end.

Definition for_range {S} (n : nat) (s : S) (body : Z -> S -> M (loop_step S))
    : M (loop_step S) :=
  for_range_from 0 n s body.

(** [list.sort(key=key, reverse=True)]: a stable sort into descending key
    order; elements with equal keys keep their relative order.  The result
    of a stable sort is determined by the input, so insertion sort computes
    the same list as Python's merge sort. *)
Section Sort.
Context {A K : Type} (lt : K -> K -> bool) (key : A -> K).

Fixpoint insert_desc (x : A) (l : list A) : list A :=
  match l with
  | [] => [x]
  | y :: t => if lt (key x) (key y) then y :: insert_desc x t else x :: l
  end.

Fixpoint sort_desc (l : list A) : list A :=
  match l with
  | [] => []
  | x :: t => insert_desc x (sort_desc t)
  end.
End Sort.

(** [False < True]. *)
Definition bool_lt (a b : bool) : bool := negb a && b.

(* ------------------------------------------------------------------------- *)
(** ** Functions that have the same text in both scripts *)

(** The body of [for _ in projects: count += 1; if count > 0: break]. *)
Fixpoint count_projects (projects : pager ProjectBillingInfo) (count : Z)
    : response Z :=
  match projects with
  | PEnd => Ok count
  | PRaise e => Err e
  | PItem _ rest =>
      let count := count + 1 in
      if count >? 0 then Ok count else count_projects rest count
  end.

Definition get_linked_project_count (billing_account : BillingAccount) : M Z :=
  try_except
    (projects <- external (ListProjectBillingInfo (name billing_account))
                   (fun env h => list_project_billing_info env h (name billing_account));;
     of_response (count_projects projects 0))
    (fun _ => Some (ret (-1))).

(** The sort key of priority 1:
    ["trial billing account" in a.display_name.lower()]. *)
Definition is_trial (a : BillingAccount) : bool :=
  Str.contains "trial billing account" (Str.lower (display_name a)).

(** The first loop of [find_best_billing_account]. *)
Fixpoint collect_unlinked (unlinked_accounts open_accounts : list BillingAccount)
    : M (list BillingAccount) :=
  match open_accounts with
  | [] => ret unlinked_accounts
  | account :: rest =>
      linked_count <- get_linked_project_count account;;
      if linked_count =? 0
      then collect_unlinked (unlinked_accounts ++ [account])%list rest
      else collect_unlinked unlinked_accounts rest
  end.

(** The second loop of [find_best_billing_account]. *)
Fixpoint collect_tagged (tagged_accounts : list (BillingAccount * string))
    (open_accounts : list BillingAccount) : list (BillingAccount * string) :=
  match open_accounts with
  | [] => tagged_accounts
  | account :: rest =>
      match Suffix.search (display_name account) with
      | Some group => collect_tagged (tagged_accounts ++ [(account, group)])%list rest
      | None => collect_tagged tagged_accounts rest
      end
  end.

Definition is_empty {A} (l : list A) : bool :=
  match l with [] => true | _ => false end.

Definition find_best_billing_account (open_accounts : list BillingAccount)
    : M BillingAccount :=
  (* Priority 1: account with no linked projects *)
  unlinked_accounts <- collect_unlinked [] open_accounts;;
  if negb (is_empty unlinked_accounts) then
    item0 (sort_desc bool_lt is_trial unlinked_accounts)
  else
    (* Priority 2: among tagged accounts, the newest suffix *)
    let tagged_accounts := collect_tagged [] open_accounts in
    if negb (is_empty tagged_accounts) then
      x <- item0 (sort_desc Str.ltb snd tagged_accounts);;
      ret (fst x)
    else
      (* Priority 3: first account *)
      item0 open_accounts.

Definition tag_billing_account (account : BillingAccount) : M unit :=
  if Suffix.matches (display_name account) then ret tt
  else
    d <- datetime_now;;
    let suffix := strftime_suffix d in
    let new_name := display_name account ++ suffix in
    try_except
      (external (UpdateBillingAccount (name account) new_name)
         (fun env h => update_billing_account env h (name account) new_name);;
       print (MsgTagged new_name))
      (fun e =>
         match e with
         | PermissionDenied _ => Some (print MsgCouldNotTag)
         | _ => Some (print MsgCouldNotTag)
         end).

(** The value of [accounts_result]: a list of accounts or a sentinel string. *)
Inductive listing_result :=
| Accounts (l : list BillingAccount)
| Sentinel (s : string).

(** [accounts_result == s] for a string [s]. *)
Definition result_is (r : listing_result) (s : string) : bool :=
  match r with
  | Sentinel s' => String.eqb s' s
  | Accounts _ => false
  end.

(** [isinstance(accounts_result, list) and not accounts_result]. *)
Definition is_empty_list (r : listing_result) : bool :=
  match r with
  | Accounts l => is_empty l
  | Sentinel _ => false
  end.

(** [isinstance(accounts_result, list) and accounts_result]. *)
Definition is_nonempty_list (r : listing_result) : bool :=
  match r with
  | Accounts l => negb (is_empty l)
  | Sentinel _ => false
  end.

(** [f"projects/{project_id}"]. *)
Definition project_name_of (project_id : string) : string :=
  "projects/" ++ project_id.

(** The exit status of the interpreter: 0 when the script runs to its end,
    1 after an uncaught exception, the argument of [sys.exit] otherwise. *)
Definition exit_status {A} (o : outcome A) : Z :=
  match o with
  | Return _ => 0
  | Raised _ => 1
  | Exited code => code
  end.

(** [os.path.exists(project_file)]. *)
Definition path_exists : M bool :=
  fun env w =>
    (Return (match project_file env with FileMissing => false | _ => true end), w).

(** [with open(project_file, "r") as f: f.read()]. *)
Definition read_file : M string :=
  fun env w =>
    match project_file env with
    | FileContent text => (Return text, w)
    | FileUnreadable e => (Raised e, w)
    | FileMissing => (Raised FileNotFoundError, w)
    end.

(** [int(choice)]. *)
Definition int_of_string (choice : string) : M Z :=
  match Str.int choice with
  | Some n => ret n
  | None => raise ValueError
  end.

(** [l[idx]] for an index already checked to be in range. *)
Definition item_at {A} (l : list A) (idx : Z) : M A :=
  match nth_error l (Z.to_nat idx) with
  | Some a => ret a
  | None => raise IndexError
  end.

(** [len(l)]. *)
Definition len {A} (l : list A) : Z := Z.of_nat (List.length l).

(** [info.billing_account_name == billing_account_name and info.billing_enabled]. *)
Definition link_is_active (info : ProjectBillingInfo) (account_name : string)
    : bool :=
  String.eqb (billing_account_name info) account_name
  && billing_enabled info.

(* ------------------------------------------------------------------------- *)
(** ** [dayone/billing-enablement.py] *)

Module DayOne.

Definition get_project_id_from_file : M (option string) :=
  exists_ <- path_exists;;
  if negb exists_ then ret None
  else
    try_except
      (text <- read_file;;
       let project_id := Str.strip text in
       if negb (Str.truthy project_id) then ret None
       else ret (Some project_id))
      (fun _ => Some (ret None)).

Definition enable_billing_api (project_id : string) : M bool :=
  try_except
    (external (GcloudServicesEnable project_id)
       (fun env h => gcloud_services_enable env h project_id);;
     ret true)
    (fun e =>
       match e with
       | FileNotFoundError => Some (ret false)
       | CalledProcessError _ => Some (ret false)
       | _ => None
       end).

Definition get_linked_project_count := get_linked_project_count.
Definition find_best_billing_account := find_best_billing_account.
Definition tag_billing_account := tag_billing_account.

Definition get_billing_accounts : M listing_result :=
  try_except
    (accounts <- external ListBillingAccounts list_billing_accounts;;
     l <- of_response (list_of_pager accounts);;
     ret (Accounts l))
    (fun e =>
       match e with
       | PermissionDenied message =>
           let error_message := Str.lower message in
           if Str.contains "api has not been used" error_message
              || Str.contains "service is disabled" error_message
           then Some (ret (Sentinel "API_DISABLED_OR_NO_PERMISSION"))
           else Some (ret (Sentinel "PERMISSION_DENIED"))
       | _ => Some (ret (Sentinel "UNEXPECTED_ERROR"))
       end).

Definition max_retries : nat := 6.
Definition wait_seconds : Q := 10 # 1.

(** One pass of the verification loop; [true] stands for the [return]
    taken when the link is confirmed. *)
Definition verify_once (project_name account_name : string) : M bool :=
  try_except
    (verified_info <- external (GetProjectBillingInfo project_name)
                        (fun env h => get_project_billing_info env h project_name);;
     if link_is_active verified_info account_name
     then print MsgLinkVerified;; ret true
     else ret false)
    (fun _ => Some (ret false)).

Definition link_project_to_billing (target_project_id : string)
    (billing_account_info : BillingAccount) : M unit :=
  if negb (Str.truthy target_project_id) then print MsgEmptyProjectId
  else
    let project_name := project_name_of target_project_id in
    let account_name := name billing_account_info in
    already_linked <-
      try_except
        (current_billing_info <-
           external (GetProjectBillingInfo project_name)
             (fun env h => get_project_billing_info env h project_name);;
         if String.eqb (billing_account_name current_billing_info)
              account_name
         then print MsgAlreadyLinked;; ret true
         else ret false)
        (fun e =>
           match e with
           | NotFound _ => Some (ret false)
           | _ => None
           end);;
    if already_linked then ret tt
    else
      sent <-
        try_except
          (external (UpdateProjectBillingInfo project_name account_name)
             (fun env h =>
                update_project_billing_info env h project_name account_name);;
           print MsgLinkRequestSent;;
           ret true)
          (fun e =>
             match e with
             | PermissionDenied _ => Some (print MsgLinkPermissionDenied;; ret false)
             | _ => Some (print MsgLinkFailed;; ret false)
             end);;
      if negb sent then ret tt
      else
        r <- for_range max_retries tt
               (fun i _ =>
                  confirmed <- verify_once project_name account_name;;
                  if confirmed then ret (Break tt)
                  else sleep wait_seconds;; ret (Continue tt));;
        match r with
        | Break _ => ret tt
        | Continue _ => print MsgVerifyWarning
        end.

(** The retry loop after the API was enabled; the loop variables are
    [accounts_result] and [wait_seconds]. *)
Definition retry_listing (accounts_result : listing_result)
    : M (loop_step (listing_result * Q)) :=
  for_range 5 (accounts_result, 15 # 1)
    (fun i '(_, wait_seconds) =>
       sleep wait_seconds;;
       accounts_result <- get_billing_accounts;;
       if negb (result_is accounts_result "API_DISABLED_OR_NO_PERMISSION")
       then ret (Break (accounts_result, wait_seconds))
       else ret (Continue (accounts_result, wait_seconds * (3 # 2))%Q)).

(** The polling loop for an empty listing. *)
Definition await_accounts (accounts_result : listing_result)
    : M (loop_step listing_result) :=
  for_range 6 accounts_result
    (fun i _ =>
       sleep (20 # 1);;
       accounts_result <- get_billing_accounts;;
       if is_nonempty_list accounts_result
       then ret (Break accounts_result)
       else ret (Continue accounts_result)).

Definition loop_state {S} (r : loop_step S) : S :=
  match r with Continue s => s | Break s => s end.

(** The manual selection offered after the automatic choice. *)
Definition manual_fallback (project_id : string)
    (open_accounts : list BillingAccount) : M unit :=
  try_except
    (line <- input;;
     let choice := Str.strip line in
     if Str.truthy choice then
       n <- int_of_string choice;;
       let idx := n - 1 in
       if (0 <=? idx) && (idx <? len open_accounts) then
         target_account <- item_at open_accounts idx;;
         link_project_to_billing project_id target_account;;
         tag_billing_account target_account
       else ret tt
     else ret tt)
    (fun e =>
       match e with
       | ValueError => Some (ret tt)
       | EOFError => Some (ret tt)
       | _ => None
       end).

(** The final [if isinstance(accounts_result, list): ... elif ... else]. *)
Definition handle_result (project_id : string) (accounts_result : listing_result)
    : M unit :=
  match accounts_result with
  | Accounts l =>
      if is_empty l then print MsgNoAccountsFound
      else
        let open_accounts := filter open l in
        if is_empty open_accounts then print MsgNoneOpen
        else if len open_accounts =? 1 then
          target_account <- item0 open_accounts;;
          link_project_to_billing project_id target_account;;
          tag_billing_account target_account
        else
          target_account <- find_best_billing_account open_accounts;;
          link_project_to_billing project_id target_account;;
          tag_billing_account target_account;;
          manual_fallback project_id open_accounts
  | Sentinel s =>
      if String.eqb s "API_DISABLED_OR_NO_PERMISSION"
      then print MsgApiNotActive
      else print MsgUnexpectedError
  end.

(** The block from "No billing accounts found immediately" on. *)
Definition after_listing (project_id : string) (accounts_result : listing_result)
    : M unit :=
  accounts_result <-
    (if is_empty_list accounts_result then
       r <- await_accounts accounts_result;;
       ret (loop_state r)
     else ret accounts_result);;
  handle_result project_id accounts_result.

(** The branch taken when the API is not ready: enable it and, when that
    worked, retry the listing with back-off. *)
Definition enable_and_retry (project_id : string) (accounts_result : listing_result)
    : M listing_result :=
  enabled <- enable_billing_api project_id;;
  if enabled then
    r <- retry_listing accounts_result;;
    ret (fst (loop_state r))
  else ret accounts_result.

(** The [if __name__ == "__main__":] block. *)
Definition main : M unit :=
  project_id <- get_project_id_from_file;;
  match project_id with
  | None => print MsgNoProjectId
  | Some project_id =>
    if negb (Str.truthy project_id) then print MsgNoProjectId
    else
      accounts_result <- get_billing_accounts;;
      accounts_result <-
        (if result_is accounts_result "API_DISABLED_OR_NO_PERMISSION"
         then enable_and_retry project_id accounts_result
         else ret accounts_result);;
      after_listing project_id accounts_result
  end.

End DayOne.

(* ------------------------------------------------------------------------- *)
(** ** [daytwo/billing-enablement.py] *)

Module DayTwo.

Definition get_project_id : M string :=
  exists_ <- path_exists;;
  if negb exists_ then sys_exit 1
  else
    try_except
      (text <- read_file;;
       let project_id := Str.strip text in
       if negb (Str.truthy project_id) then sys_exit 1
       else ret project_id)
      (fun _ => Some (sys_exit 1)).

Definition enable_billing_api (project_id : string) : M bool :=
  try_except
    (external (GcloudServicesEnable project_id)
       (fun env h => gcloud_services_enable env h project_id);;
     ret true)
    (fun e =>
       match e with
       | FileNotFoundError => Some (ret false)
       | CalledProcessError _ => Some (ret false)
       | TimeoutExpired => Some (ret false)
       | _ => None
       end).

Definition get_billing_accounts : M listing_result :=
  try_except
    (accounts <- external ListBillingAccounts list_billing_accounts;;
     l <- of_response (list_of_pager accounts);;
     ret (Accounts l))
    (fun e =>
       match e with
       | PermissionDenied message =>
           let error_message := Str.lower message in
           if Str.contains "api has not been used" error_message
              || Str.contains "service is disabled" error_message
           then Some (ret (Sentinel "API_DISABLED_OR_PROPAGATING"))
           else Some (ret (Sentinel "PERMISSION_DENIED"))
       | _ => Some (ret (Sentinel "UNEXPECTED_ERROR"))
       end).

(** Returns [(is_enabled, account_name)]. *)
Definition check_current_billing (project_id : string)
    : M (bool * option string) :=
  let project_name := project_name_of project_id in
  try_except
    (info <- external (GetProjectBillingInfo project_name)
               (fun env h => get_project_billing_info env h project_name);;
     if billing_enabled info then ret (true, Some (billing_account_name info))
     else ret (false, None))
    (fun e =>
       match e with
       | NotFound _ => Some (ret (false, None))
       | _ => Some (ret (false, None))
       end).

Definition get_linked_project_count := get_linked_project_count.
Definition find_best_billing_account := find_best_billing_account.
Definition tag_billing_account := tag_billing_account.

Definition max_retries : nat := 6.
Definition wait_seconds : Q := 10 # 1.

(** One pass of the verification loop; [true] stands for the
    [return True] taken when the link is confirmed. *)
Definition verify_once (project_name account_name : string) : M bool :=
  try_except
    (info <- external (GetProjectBillingInfo project_name)
               (fun env h => get_project_billing_info env h project_name);;
     ret (link_is_active info account_name))
    (fun _ => Some (ret false)).

Definition link_billing_account (project_id : string)
    (billing_account : BillingAccount) : M bool :=
  let project_name := project_name_of project_id in
  let account_name := name billing_account in
  sent <-
    try_except
      (external (UpdateProjectBillingInfo project_name account_name)
         (fun env h => update_project_billing_info env h project_name account_name);;
       ret true)
      (fun e =>
         match e with
         | PermissionDenied _ => Some (print MsgLinkPermissionDenied;; ret false)
         | _ => Some (print MsgLinkFailed;; ret false)
         end);;
  if negb sent then ret false
  else
    r <- for_range max_retries tt
           (fun i _ =>
              confirmed <- verify_once project_name account_name;;
              if confirmed then print MsgLinkVerified;; ret (Break tt)
              else
                (if i <? Z.of_nat max_retries - 1 then sleep wait_seconds
                 else ret tt);;
                ret (Continue tt));;
    match r with
    | Break _ => ret true
    | Continue _ => print MsgVerifyWarning;; ret true  (* optimistically continue *)
    end.

(** The retry loop after the API was enabled; the loop variables are
    [accounts_result] and the integer [wait_seconds]. *)
Definition int_of_float (x : Q) : Z := Z.quot (Qnum x) (Zpos (Qden x)).

Definition retry_listing (accounts_result : listing_result)
    : M (loop_step (listing_result * Z)) :=
  for_range 5 (accounts_result, 15)
    (fun i '(_, wait_seconds) =>
       sleep (inject_Z wait_seconds);;
       accounts_result <- get_billing_accounts;;
       if negb (result_is accounts_result "API_DISABLED_OR_PROPAGATING")
       then ret (Break (accounts_result, wait_seconds))
       else ret (Continue (accounts_result,
                           int_of_float (inject_Z wait_seconds * (3 # 2))%Q))).

(** The polling loop for an empty listing. *)
Definition await_accounts (accounts_result : listing_result)
    : M (loop_step listing_result) :=
  for_range 6 accounts_result
    (fun i _ =>
       sleep (20 # 1);;
       accounts_result <- get_billing_accounts;;
       if is_nonempty_list accounts_result
       then ret (Break accounts_result)
       else ret (Continue accounts_result)).

Definition loop_state {S} (r : loop_step S) : S :=
  match r with Continue s => s | Break s => s end.

(** The [while True:] prompt: lines are read until one holds a number in
    range; a blank or non-numeric line ([ValueError]) or a number out of
    range asks again, and [input] raises [EOFError] when the console is
    exhausted.  The loop only reads the console, so it is written over the
    pending lines. *)
Fixpoint select_index (n_accounts : Z) (lines : list string)
    : outcome Z * list string :=
  match lines with
  | [] => (Raised EOFError, [])
  | line :: rest =>
      let choice := Str.strip line in
      if negb (Str.truthy choice) then select_index n_accounts rest
      else
        match Str.int choice with
        | None => select_index n_accounts rest
        | Some n =>
            let index := n - 1 in
            if (0 <=? index) && (index <? n_accounts) then (Return index, rest)
            else select_index n_accounts rest
        end
  end.

Definition manual_select (open_accounts : list BillingAccount) : M Z :=
  fun _ w =>
    let '(r, rest) := select_index (len open_accounts) (stdin w) in
    (r, {| calls := calls w; stdout := stdout w; stdin := rest |}).

(** [if link_billing_account(...): tag; print; return 0]; the result is
    [None] when the link failed and [main] goes on. *)
Definition link_and_tag (project_id : string) (account : BillingAccount)
    : M (option Z) :=
  linked <- link_billing_account project_id account;;
  if linked then
    tag_billing_account account;;
    print MsgBillingConfigured;;
    ret (Some 0)
  else ret None.

(** [main] from "Handle final result" on. *)
Definition handle_result (project_id : string) (accounts_result : listing_result)
    : M Z :=
  match accounts_result with
  | Accounts l =>
      if is_empty l then print MsgNoAccountsFound;; ret 1
      else
        let open_accounts := filter open l in
        if is_empty open_accounts then print MsgNoneOpen;; ret 1
        else if len open_accounts =? 1 then
          account <- item0 open_accounts;;
          r <- link_and_tag project_id account;;
          match r with Some code => ret code | None => ret 1 end
        else
          account <- find_best_billing_account open_accounts;;
          r <- link_and_tag project_id account;;
          match r with
          | Some code => ret code
          | None =>
              index <- manual_select open_accounts;;
              account <- item_at open_accounts index;;
              r <- link_and_tag project_id account;;
              match r with Some code => ret code | None => ret 1 end
          end
  | Sentinel s =>
      if String.eqb s "API_DISABLED_OR_PROPAGATING"
      then print MsgApiNotActive;; ret 1
      else if String.eqb s "PERMISSION_DENIED"
      then print MsgPermissionDenied;; ret 1
      else print MsgUnexpectedError;; ret 1
  end.

(** [main] from "If still no accounts" on. *)
Definition after_listing (project_id : string) (accounts_result : listing_result)
    : M Z :=
  accounts_result <-
    (if is_empty_list accounts_result then
       r <- await_accounts accounts_result;;
       ret (loop_state r)
     else ret accounts_result);;
  handle_result project_id accounts_result.

(** The branch of [main] taken when the API is not ready: enable it and
    retry the listing with back-off. *)
Definition enable_and_retry (project_id : string) (accounts_result : listing_result)
    : M Z :=
  enabled <- enable_billing_api project_id;;
  if negb enabled then ret 1
  else
    r <- retry_listing accounts_result;;
    after_listing project_id (fst (loop_state r)).

(** [main] after the check of the current billing state. *)
Definition search_and_link (project_id : string) : M Z :=
  accounts_result <- get_billing_accounts;;
  if result_is accounts_result "API_DISABLED_OR_PROPAGATING"
  then enable_and_retry project_id accounts_result
  else after_listing project_id accounts_result.

Definition main : M Z :=
  project_id <- get_project_id;;
  '(is_enabled, current_account) <- check_current_billing project_id;;
  if is_enabled : bool then print MsgBillingAlreadyEnabled;; ret 0
  else search_and_link project_id.

(** [sys.exit(main())]. *)
Definition script : M unit :=
  code <- main;;
  sys_exit code.

End DayTwo.

(* ------------------------------------------------------------------------- *)
(** ** Concrete environments, used to run the scripts on examples *)

Module Scenario.

Definition account (n d : string) : BillingAccount :=
  {| name := n; display_name := d; open := true |}.

Definition fresh_world : World := {| calls := []; stdout := []; stdin := [] |}.

Definition clock : datetime :=
  {| year := 2026%N; month := 2%N; day := 18%N; hour := 15%N; minute := 30%N |}.

Definition linked_to (account_name : string) : ProjectBillingInfo :=
  {| billing_account_name := account_name; billing_enabled := true |}.

(** Three open accounts: "A" has a linked project, "B" and "C" have none. *)
Definition three_accounts : list BillingAccount :=
  [account "billingAccounts/A" "Main";
   account "billingAccounts/B" "Free trial billing account";
   account "billingAccounts/C" "Other"].

(** A service that answers every call, for a project without billing. *)
Definition calm : Env := {|
  project_file := FileContent "workshop-project";
  list_billing_accounts := fun _ => Ok (pager_of_list three_accounts);
  list_project_billing_info := fun _ account_name =>
    if String.eqb account_name "billingAccounts/A"
    then Ok (pager_of_list [linked_to "billingAccounts/A"; linked_to "billingAccounts/A"])
    else Ok PEnd;
  get_project_billing_info := fun _ _ => Err (NotFound "no billing info");
  update_project_billing_info := fun _ _ _ => Ok tt;
  update_billing_account := fun _ _ _ => Ok tt;
  gcloud_services_enable := fun _ _ => Ok tt;
  now := fun _ => clock
|}.

(** [calm] with another project file. *)
Definition with_file (f : project_file_state) (env : Env) : Env := {|
  project_file := f;
  list_billing_accounts := list_billing_accounts env;
  list_project_billing_info := list_project_billing_info env;
  get_project_billing_info := get_project_billing_info env;
  update_project_billing_info := update_project_billing_info env;
  update_billing_account := update_billing_account env;
  gcloud_services_enable := gcloud_services_enable env;
  now := now env
|}.

(** [env] with another answer to [list_billing_accounts]. *)
Definition with_listing (f : history -> response (pager BillingAccount))
    (env : Env) : Env := {|
  project_file := project_file env;
  list_billing_accounts := f;
  list_project_billing_info := list_project_billing_info env;
  get_project_billing_info := get_project_billing_info env;
  update_project_billing_info := update_project_billing_info env;
  update_billing_account := update_billing_account env;
  gcloud_services_enable := gcloud_services_enable env;
  now := now env
|}.

(** [env] with another answer to [list_project_billing_info]. *)
Definition with_projects
    (f : history -> string -> response (pager ProjectBillingInfo))
    (env : Env) : Env := {|
  project_file := project_file env;
  list_billing_accounts := list_billing_accounts env;
  list_project_billing_info := f;
  get_project_billing_info := get_project_billing_info env;
  update_project_billing_info := update_project_billing_info env;
  update_billing_account := update_billing_account env;
  gcloud_services_enable := gcloud_services_enable env;
  now := now env
|}.

(** [env] with another answer to [get_project_billing_info]. *)
Definition with_billing_info
    (f : history -> string -> response ProjectBillingInfo) (env : Env) : Env := {|
  project_file := project_file env;
  list_billing_accounts := list_billing_accounts env;
  list_project_billing_info := list_project_billing_info env;
  get_project_billing_info := f;
  update_project_billing_info := update_project_billing_info env;
  update_billing_account := update_billing_account env;
  gcloud_services_enable := gcloud_services_enable env;
  now := now env
|}.

(** [env] with another answer to [update_project_billing_info]. *)
Definition with_update (f : history -> string -> string -> response unit)
    (env : Env) : Env := {|
  project_file := project_file env;
  list_billing_accounts := list_billing_accounts env;
  list_project_billing_info := list_project_billing_info env;
  get_project_billing_info := get_project_billing_info env;
  update_project_billing_info := f;
  update_billing_account := update_billing_account env;
  gcloud_services_enable := gcloud_services_enable env;
  now := now env
|}.

(** [env] with another answer to [gcloud services enable]. *)
Definition with_gcloud (f : history -> string -> response unit) (env : Env) : Env := {|
  project_file := project_file env;
  list_billing_accounts := list_billing_accounts env;
  list_project_billing_info := list_project_billing_info env;
  get_project_billing_info := get_project_billing_info env;
  update_project_billing_info := update_project_billing_info env;
  update_billing_account := update_billing_account env;
  gcloud_services_enable := f;
  now := now env
|}.

(** [gcloud] is not installed. *)
Definition without_gcloud (env : Env) : Env :=
  with_gcloud (fun _ _ => Err FileNotFoundError) env.

(** The project is already linked to account "B", with billing enabled. *)
Definition already_linked : Env :=
  with_billing_info (fun _ _ => Ok (linked_to "billingAccounts/B")) calm.

(** As [already_linked], and the caller may not change the link. *)
Definition already_linked_read_only : Env :=
  with_update
    (fun _ _ _ => Err (PermissionDenied "billing.resourceAssociations.create"))
    already_linked.

(** The first renaming of an account is refused, later ones are accepted. *)
Definition renamed_before (h : history) : bool :=
  existsb (fun c => match fst c with UpdateBillingAccount _ _ => true | _ => false end) h.

Definition rename_refused_once : Env := {|
  project_file := project_file calm;
  list_billing_accounts := list_billing_accounts calm;
  list_project_billing_info := list_project_billing_info calm;
  get_project_billing_info := get_project_billing_info calm;
  update_project_billing_info := update_project_billing_info calm;
  update_billing_account := fun h _ _ =>
    if renamed_before h then Ok tt
    else Err (PermissionDenied "billing.accounts.update");
  gcloud_services_enable := gcloud_services_enable calm;
  now := now calm
|}.

(** The number of lookups of a project's billing info in a history. *)
Definition lookups_made (h : history) : nat :=
  List.length
    (filter (fun c => match fst c with GetProjectBillingInfo _ => true | _ => false end)
       h).

(** The link shows up late: the project's billing info reports the account
    "B" as linked, with billing enabled, only from the eighth lookup on. *)
Definition slow_propagation : Env :=
  with_billing_info
    (fun h _ =>
       if (7 <=? lookups_made h)%nat then Ok (linked_to "billingAccounts/B")
       else Err (NotFound "no billing info"))
    calm.

(** The link shows as soon as an update was accepted: from then on the
    lookups report the project as linked to "B", with billing enabled. *)
Definition update_seen (h : history) : bool :=
  existsb (fun c => match c with
                    | (UpdateProjectBillingInfo _ _, true) => true
                    | _ => false
                    end) h.

Definition links_on_update : Env :=
  with_billing_info
    (fun h _ =>
       if update_seen h then Ok (linked_to "billingAccounts/B")
       else Err (NotFound "no billing info"))
    calm.

(** The listing keeps failing because the API is disabled. *)
Definition api_disabled : Env :=
  with_listing
    (fun _ => Err (PermissionDenied
       "Cloud Billing API has not been used in project 1 before or it is disabled."))
    calm.

(** The listing is refused for lack of permission. *)
Definition no_permission : Env :=
  with_listing (fun _ => Err (PermissionDenied "The caller does not have permission"))
    calm.

(** The listing fails for another reason. *)
Definition broken : Env :=
  with_listing (fun _ => Err (OtherException "connection reset")) calm.

(** The user has no billing account. *)
Definition no_accounts : Env := with_listing (fun _ => Ok PEnd) calm.

(** The user's only billing account is closed. *)
Definition closed_account : Env :=
  with_listing
    (fun _ => Ok (pager_of_list
       [{| name := "billingAccounts/Z"; display_name := "Old"; open := false |}]))
    calm.

(** Two accounts that both have linked projects and carry a suffix. *)
Definition tagged_accounts : list BillingAccount :=
  [account "billingAccounts/X1" "X-202501010000";
   account "billingAccounts/X2" "X-202602020000"].

Definition all_linked : Env :=
  with_projects (fun _ n => Ok (pager_of_list [linked_to n])) calm.

End Scenario.

(* ------------------------------------------------------------------------- *)
(** ** Vocabulary of the properties *)

(** The world after the external calls [l] were added to [w]. *)
Definition logged (w : World) (l : history) : World :=
  {| calls := (calls w ++ l)%list; stdout := stdout w; stdin := stdin w |}.

(** The world after the messages [ms] were printed. *)
Definition printed (w : World) (ms : list message) : World :=
  {| calls := calls w; stdout := (stdout w ++ ms)%list; stdin := stdin w |}.

(** The calls issued between [w] and a later world [w']. *)
Definition new_calls (w w' : World) : history :=
  skipn (List.length (calls w)) (calls w').

(** The messages printed between [w] and a later world [w']. *)
Definition new_output (w w' : World) : list message :=
  skipn (List.length (stdout w)) (stdout w').

(** The delays slept through in a history, in order. *)
Fixpoint sleeps (h : history) : list Q :=
  match h with
  | [] => []
  | (Sleep seconds, _) :: t => seconds :: sleeps t
  | _ :: t => sleeps t
  end.

(** The number of listing attempts in a history. *)
Fixpoint listings (h : history) : nat :=
  match h with
  | [] => O
  | (ListBillingAccounts, _) :: t => S (listings t)
  | _ :: t => listings t
  end.

(** The listing of billing accounts fails with [e]: the call raises it, or
    copying the pager into a list does. *)
Definition listing_fails (env : Env) (h : history) (e : exception) : Prop :=
  list_billing_accounts env h = Err e
  \/ exists p, list_billing_accounts env h = Ok p /\ list_of_pager p = Err e.

(** The test made on a [PermissionDenied] message. *)
Definition looks_disabled (message : string) : bool :=
  Str.contains "api has not been used" (Str.lower message)
  || Str.contains "service is disabled" (Str.lower message).

(** The linked-project counts that [find_best_billing_account] observes, in
    the order of the accounts. *)
Fixpoint observe_counts (open_accounts : list BillingAccount) : M (list Z) :=
  match open_accounts with
  | [] => ret []
  | account :: rest =>
      c <- get_linked_project_count account;;
      cs <- observe_counts rest;;
      ret (c :: cs)
  end.

(** The accounts observed with count zero, in order. *)
Fixpoint zero_linked (open_accounts : list BillingAccount) (counts : list Z)
    : list BillingAccount :=
  match open_accounts, counts with
  | account :: rest, c :: cs =>
      if c =? 0 then account :: zero_linked rest cs else zero_linked rest cs
  | _, _ => []
  end.

(** The display name the service holds for the account [account_name]
    after the calls [h], when it was [current] before them: an accepted
    update request sets it, a refused one leaves it as it was. *)
Fixpoint final_display_name (account_name current : string) (h : history)
    : string :=
  match h with
  | [] => current
  | (UpdateBillingAccount acc new_name, ok) :: t =>
      final_display_name account_name
        (if ok && String.eqb acc account_name then new_name else current) t
  | _ :: t => final_display_name account_name current t
  end.

(** The display name of [a] at the service after the calls made between
    [w] and [w']. *)
Definition display_name_after (a : BillingAccount) (w w' : World) : string :=
  final_display_name (name a) (display_name a) (new_calls w w').

(** The account [a] read again once its display name is [dn]. *)
Definition with_display_name (a : BillingAccount) (dn : string) : BillingAccount :=
  {| name := name a; display_name := dn; open := open a |}.

(** A verification attempt does not confirm the link to [account_name]: the
    lookup raises, or reports another account or billing not enabled. *)
Definition not_confirmed (r : response ProjectBillingInfo) (account_name : string)
    : Prop :=
  match r with
  | Ok info => link_is_active info account_name = false
  | Err _ => True
  end.

(** Whether an answer is a value. *)
Definition is_ok {A} (r : response A) : bool :=
  match r with Ok _ => true | Err _ => false end.

(** The calls of the day-one verification loop when no attempt confirms the
    link: [n] times a lookup and a sleep of 10. *)
Fixpoint dayone_verification (project_name : string) (n : nat) : list call :=
  match n with
  | O => []
  | S n' =>
      GetProjectBillingInfo project_name :: Sleep (10 # 1)
        :: dayone_verification project_name n'
  end.

(** The calls of the day-two verification loop from index [i] when no
    attempt confirms the link: a lookup, then a sleep of 10 except after the
    last attempt. *)
Fixpoint daytwo_verification (project_name : string) (i : Z) (n : nat) : list call :=
  match n with
  | O => []
  | S n' =>
      (GetProjectBillingInfo project_name
         :: (if i <? 5 then [Sleep (10 # 1)] else []))
      ++ daytwo_verification project_name (i + 1) n'
  end%list.

(** The first lookup of day one's [link_project_to_billing] lets the link
    attempt go on: it reports another account, or raises [NotFound]. *)
Definition lets_link_go_on (first : response ProjectBillingInfo)
    (account_name : string) : Prop :=
  match first with
  | Ok info => String.eqb (billing_account_name info) account_name = false
  | Err (NotFound _) => True
  | Err _ => False
  end.

(** None of the [n] verification attempts of day one, made from the
    history [h] on, confirms the link.  Each lookup is judged at the history
    at which the loop makes it: after the earlier lookups and the sleeps of
    10 that follow them. *)
Fixpoint dayone_attempts_unconfirmed (env : Env) (pn acct : string) (h : history)
    (n : nat) : Prop :=
  match n with
  | O => True
  | S n' =>
      let answer := get_project_billing_info env h pn in
      not_confirmed answer acct
      /\ dayone_attempts_unconfirmed env pn acct
           (h ++ [(GetProjectBillingInfo pn, is_ok answer); (Sleep (10 # 1), true)])%list
           n'
  end.

(** The same for day two, whose loop, at index [i], sleeps after every
    attempt but the last. *)
Fixpoint daytwo_attempts_unconfirmed (env : Env) (pn acct : string) (h : history)
    (i : Z) (n : nat) : Prop :=
  match n with
  | O => True
  | S n' =>
      let answer := get_project_billing_info env h pn in
      not_confirmed answer acct
      /\ daytwo_attempts_unconfirmed env pn acct
           (h ++ (GetProjectBillingInfo pn, is_ok answer)
              :: (if i <? 5 then [(Sleep (10 # 1), true)] else []))%list
           (i + 1) n'
  end.

(** The delays of day one's retry loop, starting from [wait_seconds]:
    each is the previous one times 1.5. *)
Fixpoint dayone_backoff (wait_seconds : Q) (n : nat) : list Q :=
  match n with
  | O => []
  | S n' => wait_seconds :: dayone_backoff (wait_seconds * (3 # 2))%Q n'
  end.

(** The delays of day two's retry loop, starting from [wait_seconds]:
    each is the integer part of the previous one times 1.5. *)
Fixpoint daytwo_backoff (wait_seconds : Z) (n : nat) : list Q :=
  match n with
  | O => []
  | S n' =>
      inject_Z wait_seconds
        :: daytwo_backoff
             (DayTwo.int_of_float (inject_Z wait_seconds * (3 # 2))%Q) n'
  end.

(** The world in which exactly the calls [h] were made. *)
Definition world_after (h : history) : World :=
  {| calls := h; stdout := []; stdin := [] |}.

(** What [get_billing_accounts] returns when it is called after the
    history [h]. *)
Definition dayone_listing_at (env : Env) (h : history) : listing_result :=
  match fst (DayOne.get_billing_accounts env (world_after h)) with
  | Return r => r
  | _ => Sentinel "UNEXPECTED_ERROR"
  end.

Definition daytwo_listing_at (env : Env) (h : history) : listing_result :=
  match fst (DayTwo.get_billing_accounts env (world_after h)) with
  | Return r => r
  | _ => Sentinel "UNEXPECTED_ERROR"
  end.

(** The answers to the listings of billing accounts among the calls [h],
    which follow the history [before], oldest first: each listing is
    answered at the history at which it is made. *)
Fixpoint listing_answers (answer_at : history -> listing_result)
    (before h : history) : list listing_result :=
  match h with
  | [] => []
  | (c, ok) :: t =>
      match c with
      | ListBillingAccounts =>
          answer_at before :: listing_answers answer_at (before ++ [(c, ok)])%list t
      | _ => listing_answers answer_at (before ++ [(c, ok)])%list t
      end
  end.

(** [always env m Q]: in the environment [env], from every world, the
    outcome of [m] satisfies [Q]. *)
Definition always {A} (env : Env) (m : M A) (Q : outcome A -> Prop) : Prop :=
  forall w, Q (fst (m env w)).

(** What a pass of a loop must establish: the invariant when it goes on,
    the goal [Q] when it leaves the loop, raises or exits. *)
Definition pass_post {S} (Inv : S -> Prop) (Q : outcome (loop_step S) -> Prop)
    (o : outcome (loop_step S)) : Prop :=
  match o with
  | Return (Continue s) => Inv s
  | other => Q other
  end.

(** *** Conditions on the environment of a run *)

(** The project id cannot be determined: the file is missing, unreadable,
    or blank. *)
Definition no_project_id (env : Env) : Prop :=
  match project_file env with
  | FileMissing => True
  | FileUnreadable _ => True
  | FileContent text => Str.truthy (Str.strip text) = false
  end.

Definition has_project_id (env : Env) (project_id : string) : Prop :=
  exists text,
    project_file env = FileContent text
    /\ Str.strip text = project_id
    /\ Str.truthy project_id = true.

(** Every update of a project's billing account is accepted. *)
Definition update_always_accepted (env : Env) : Prop :=
  forall h project account, update_project_billing_info env h project account = Ok tt.

(** The outcome is a returned value that satisfies [P]. *)
Definition returns {A} (P : A -> Prop) (o : outcome A) : Prop :=
  exists a, o = Return a /\ P a.

(** The outcome is not a [sys.exit]. *)
Definition does_not_exit {A} (o : outcome A) : Prop :=
  match o with Exited _ => False | _ => True end.

(** The exit status of [sys.exit(main())] for an outcome of [main]. *)
Definition script_status (o : outcome Z) : Z :=
  match o with
  | Return code => code
  | Raised _ => 1
  | Exited code => code
  end.

(** [main] returns 0 or 1, or ends with an uncaught exception. *)
Definition code_0_or_1 (o : outcome Z) : Prop :=
  match o with
  | Return code => code = 0 \/ code = 1
  | Raised _ => True
  | Exited _ => False
  end.

(** The numbers [start], [start + 1], ... ([count] of them). *)
Fixpoint count_up (count : nat) (start : N) : list N :=
  match count with
  | O => []
  | S count' => start :: count_up count' (N.succ start)
  end.

(* ------------------------------------------------------------------------- *)
(** ** Vocabulary of the further properties *)

(** The calls of a history, without their results. *)
Definition issued (h : history) : list call := map fst h.

(** One lookup of linked projects per account, in the order of the list. *)
Definition project_lookups (accounts : list BillingAccount) : list call :=
  map (fun a => ListProjectBillingInfo (name a)) accounts.

(** [a] is a prefix of [b]. *)
Definition is_prefix {A} (a b : list A) : Prop := exists rest, b = (a ++ rest)%list.

(** A console line that the manual prompts accept for [n_accounts]
    accounts: after [strip], a number between 1 and [n_accounts]. *)
Definition chosen_index (n_accounts : Z) (line : string) : option Z :=
  let choice := Str.strip line in
  if Str.truthy choice then
    match Str.int choice with
    | Some n =>
        if (0 <=? n - 1) && (n - 1 <? n_accounts) then Some (n - 1) else None
    | None => None
    end
  else None.

(** The calls of [k] polls for billing accounts: each is a sleep of 20
    followed by a listing. *)
Fixpoint empty_listing_polls (k : nat) : list call :=
  match k with
  | O => []
  | S k' => Sleep (20 # 1) :: ListBillingAccounts :: empty_listing_polls k'
  end.

(** The calls of retries of the listing with the given delays: each is a
    sleep followed by a listing. *)
Fixpoint listing_retries (delays : list Q) : list call :=
  match delays with
  | [] => []
  | d :: rest => Sleep d :: ListBillingAccounts :: listing_retries rest
  end.

(** The string consists of characters that [strip] removes. *)
Fixpoint all_space (s : string) : bool :=
  match s with
  | EmptyString => true
  | String c t => Str.is_space c && all_space t
  end.

(** The string begins with a character that [strip] removes. *)
Definition first_is_space (s : string) : bool :=
  match s with
  | EmptyString => false
  | String c _ => Str.is_space c
  end.

(** The string ends with a character that [strip] removes. *)
Fixpoint last_is_space (s : string) : bool :=
  match s with
  | EmptyString => false
  | String c EmptyString => Str.is_space c
  | String _ t => last_is_space t
  end.

(** *** Which calls a run may make *)

(** The account [a] was in the answer to a listing of the billing accounts
    that is part of the history [h]. *)
Definition listed (env : Env) (h : history) (a : BillingAccount) : Prop :=
  exists before after p l,
    h = (before ++ (ListBillingAccounts, true) :: after)%list
    /\ list_billing_accounts env before = Ok p
    /\ list_of_pager p = Ok l
    /\ In a l.

(** [a] was listed, as an open account. *)
Definition usable (env : Env) (a : BillingAccount) (h : history) : Prop :=
  listed env h a /\ open a = true.

Definition all_usable (env : Env) (l : list BillingAccount) (h : history) : Prop :=
  forall a, In a l -> usable env a h.

(** The accounts of a listing result were listed. *)
Definition from_listing (env : Env) (r : listing_result) (h : history) : Prop :=
  match r with
  | Accounts l => forall a, In a l -> listed env h a
  | Sentinel _ => True
  end.

(** What the call [c] may be after the history [h], for the project
    [project_id]: listings and sleeps are free; a call about a project
    names [project_id]; a call about a billing account names an open
    account that was listed; a renaming appends a date suffix to the listed
    display name of an account whose name does not end with one. *)
Definition safe_call (env : Env) (project_id : string) (h : history) (c : call)
    : Prop :=
  match c with
  | ListBillingAccounts => True
  | Sleep _ => True
  | GcloudServicesEnable project => project = project_id
  | GetProjectBillingInfo project => project = project_name_of project_id
  | ListProjectBillingInfo account => exists a, usable env a h /\ name a = account
  | UpdateProjectBillingInfo project account =>
      project = project_name_of project_id
      /\ exists a, usable env a h /\ name a = account
  | UpdateBillingAccount account new_display_name =>
      exists a,
        usable env a h /\ name a = account
        /\ Suffix.matches (display_name a) = false
        /\ exists d, new_display_name = display_name a ++ strftime_suffix d
  end.

(** Every call of the history was safe when it was made. *)
Definition safe_history (env : Env) (project_id : string) (h : history) : Prop :=
  forall before c ok after,
    h = (before ++ (c, ok) :: after)%list -> safe_call env project_id before c.

(** A fact about the history that later calls do not undo. *)
Definition stable (F : history -> Prop) : Prop :=
  forall h h', F h -> F (h ++ h')%list.

(** From a safe history in which [F] holds, the computation [m] only adds
    safe calls, and [Q] holds of a returned value and the history then. *)
Definition keeps {A} (env : Env) (project_id : string) (F : history -> Prop)
    (m : M A) (Q : A -> history -> Prop) : Prop :=
  forall w,
    safe_history env project_id (calls w) ->
    F (calls w) ->
    exists h,
      calls (snd (m env w)) = (calls w ++ h)%list
      /\ safe_history env project_id (calls w ++ h)%list
      /\ forall a, fst (m env w) = Return a -> Q a (calls w ++ h)%list.

(** *** What a run did *)

(** An update of a project's billing info was accepted among the calls [h]. *)
Fixpoint update_accepted (h : history) : bool :=
  match h with
  | [] => false
  | (UpdateProjectBillingInfo _ _, true) :: _ => true
  | _ :: t => update_accepted t
  end.

(** The lookup of the project's billing info, made after the history [h],
    reports billing as enabled. *)
Definition reported_enabled (env : Env) (h : history) (project_id : string) : bool :=
  match get_project_billing_info env h (project_name_of project_id) with
  | Ok info => billing_enabled info
  | Err _ => false
  end.

(** A listing result with which the scripts cannot go on: a list without
    an open account (no account at all, or none open), or a sentinel (the
    API did not become active, permission was denied, an unexpected error
    occurred). *)
Definition no_open_account (r : listing_result) : Prop :=
  match r with
  | Accounts l => filter open l = []
  | Sentinel _ => True
  end.

(** A call that is not a listing of the billing accounts. *)
Definition not_a_listing (c : call) : bool :=
  match c with
  | ListBillingAccounts => false
  | _ => true
  end.

(** A call that is neither a listing of the billing accounts nor an update
    of a project's billing info. *)
Definition quiet_call (c : call) : bool :=
  match c with
  | ListBillingAccounts => false
  | UpdateProjectBillingInfo _ _ => false
  | _ => true
  end.

(** Whatever the world it starts from, the computation [m] only adds calls
    to the history, and [R] relates the history before, the outcome and the
    calls added. *)
Definition traces {A} (env : Env) (m : M A)
    (R : history -> outcome A -> history -> Prop) : Prop :=
  forall w,
    exists h,
      calls (snd (m env w)) = (calls w ++ h)%list
      /\ R (calls w) (fst (m env w)) h.

(** The computation only makes calls that satisfy [allowed]. *)
Definition only_calls {A} (env : Env) (allowed : call -> bool) (m : M A) : Prop :=
  traces env m (fun _ _ h => forallb allowed (issued h) = true).

(** How a part of day two's [main] ends, given the calls [h] it made after
    the history [before] and the listing result [r] it started with: it
    returns 0 exactly when an update of the project's billing info was
    accepted, its status is 1 otherwise, and it is 1 whenever the last
    listing so far (the last one of [h], or the one that gave [r]) left no
    open account to go on with. *)
Definition daytwo_verdict (env : Env) (r : listing_result) (before : history)
    (o : outcome Z) (h : history) : Prop :=
  ((o = Return 0 /\ update_accepted h = true)
   \/ (script_status o = 1 /\ update_accepted h = false))
  /\ (no_open_account (last (listing_answers (daytwo_listing_at env) before h) r) ->
      script_status o = 1).

(** The enabling of the API raised an exception that day one does not
    catch: the outcome is that exception, and the failed request is the
    last call. *)
Definition enabling_raised (env : Env) (before : history) (o : outcome unit)
    (h : history) : Prop :=
  exists e project_id earlier,
    o = Raised e
    /\ h = (earlier ++ [(GcloudServicesEnable project_id, false)])%list
    /\ gcloud_services_enable env (before ++ earlier)%list project_id = Err e.

(** How a part of day one's main block ends, given the calls [h] it made
    after the history [before] and the listing result [r] it started with:
    whenever the last listing so far left no open account to go on with, it
    ends normally, unless the enabling of the API raised. *)
Definition dayone_verdict (env : Env) (r : listing_result) (before : history)
    (o : outcome unit) (h : history) : Prop :=
  no_open_account (last (listing_answers (dayone_listing_at env) before h) r) ->
  o = Return tt \/ enabling_raised env before o h.

(* ------------------------------------------------------------------------- *)
(** * Properties *)

(** ** The examples of the specification, and some whole runs *)

Example selector_prefers_trial_name :
  fst (find_best_billing_account Scenario.three_accounts Scenario.calm
         Scenario.fresh_world)
  = Return (Scenario.account "billingAccounts/B" "Free trial billing account").
Proof. reflexivity. Qed.

Example selector_takes_newest_suffix :
  fst (find_best_billing_account Scenario.tagged_accounts Scenario.all_linked
         Scenario.fresh_world)
  = Return (Scenario.account "billingAccounts/X2" "X-202602020000").
Proof. reflexivity. Qed.

Example service_is_disabled_is_propagating :
  fst (DayTwo.get_billing_accounts
         (Scenario.with_listing
            (fun _ => Err (PermissionDenied
               "Billing service is disabled for project 42"))
            Scenario.calm)
         Scenario.fresh_world)
  = Return (Sentinel "API_DISABLED_OR_PROPAGATING").
Proof. reflexivity. Qed.

Example suffix_pattern_examples :
  Suffix.search "X-202501010000" = Some "-202501010000"
  /\ Suffix.search "X-20250101000" = None
  /\ Suffix.search "X-2025010100001" = None
  /\ Suffix.search "-202501010000-202602020000" = Some "-202602020000".
Proof. repeat split; reflexivity. Qed.

Example daytwo_exit_statuses :
  exit_status (fst (DayTwo.script Scenario.calm Scenario.fresh_world)) = 0
  /\ exit_status (fst (DayTwo.script Scenario.already_linked Scenario.fresh_world)) = 0
  /\ exit_status (fst (DayTwo.script Scenario.no_accounts Scenario.fresh_world)) = 1
  /\ exit_status (fst (DayTwo.script Scenario.closed_account Scenario.fresh_world)) = 1
  /\ exit_status (fst (DayTwo.script Scenario.broken Scenario.fresh_world)) = 1
  /\ exit_status (fst (DayTwo.script Scenario.api_disabled Scenario.fresh_world)) = 1
  /\ exit_status (fst (DayTwo.script (Scenario.without_gcloud Scenario.api_disabled)
                         Scenario.fresh_world)) = 1.
Proof. repeat split; reflexivity. Qed.

Example dayone_exit_statuses :
  exit_status (fst (DayOne.main Scenario.calm Scenario.fresh_world)) = 0
  /\ exit_status (fst (DayOne.main Scenario.no_accounts Scenario.fresh_world)) = 0
  /\ exit_status (fst (DayOne.main Scenario.closed_account Scenario.fresh_world)) = 0
  /\ exit_status (fst (DayOne.main Scenario.broken Scenario.fresh_world)) = 0
  /\ exit_status (fst (DayOne.main Scenario.api_disabled Scenario.fresh_world)) = 0.
Proof. repeat split; reflexivity. Qed.

(** ** Linked-project count *)

Lemma count_projects_from_zero (projects : pager ProjectBillingInfo) :
  count_projects projects 0 =
  match projects with
  | PEnd => Ok 0
  | PRaise e => Err e
  | PItem _ _ => Ok 1
  end.
Proof. destruct projects; reflexivity. Qed.

Lemma get_linked_project_count_run env w a :
  get_linked_project_count a env w =
  (Return match list_project_billing_info env (calls w) (name a) with
          | Ok PEnd => 0
          | Ok (PItem _ _) => 1
          | Ok (PRaise _) | Err _ => -1
          end,
   logged w [(ListProjectBillingInfo (name a),
              match list_project_billing_info env (calls w) (name a) with
              | Ok _ => true
              | Err _ => false
              end)]).
Proof.
  unfold get_linked_project_count, try_except, bind, external, logged.
  destruct (list_project_billing_info env (calls w) (name a)) as [p | e]; cbn.
  - rewrite count_projects_from_zero. destruct p; reflexivity.
  - reflexivity.
Qed.

(** C9. [get_linked_project_count] always returns, and its value is -1
    (the lookup failed), 0 (no linked project) or 1 (at least one): the loop
    leaves at the first project, so for an account with two or more linked
    projects the value is 1 and differs from the number of linked projects. *)
Theorem get_linked_project_count_values env w a :
  exists c ok,
    get_linked_project_count a env w
      = (Return c, logged w [(ListProjectBillingInfo (name a), ok)])
    /\ (c = -1 \/ c = 0 \/ c = 1)
    /\ (forall e, list_project_billing_info env (calls w) (name a) = Err e -> c = -1)
    /\ (forall l,
          list_project_billing_info env (calls w) (name a) = Ok (pager_of_list l) ->
          (l = [] -> c = 0) /\ (l <> [] -> c = 1)
          /\ ((2 <= List.length l)%nat -> c <> len l)).
Proof.
  rewrite get_linked_project_count_run.
  do 2 eexists. split; [reflexivity|].
  destruct (list_project_billing_info env (calls w) (name a)) as [p | e].
  - split; [destruct p; auto|].
    split; [discriminate|].
    intros l [= ->].
    destruct l as [| x [| y l]]; cbn; repeat split; try congruence; try lia.
  - split; [auto|]. split; [reflexivity|]. discriminate.
Qed.

Lemma get_linked_project_count_values_witness :
  exists c ok,
    get_linked_project_count (Scenario.account "billingAccounts/A" "Main")
        Scenario.calm Scenario.fresh_world
      = (Return c, logged Scenario.fresh_world
                     [(ListProjectBillingInfo "billingAccounts/A", ok)])
    /\ c = 1 /\ c <> 2.
Proof.
  destruct (get_linked_project_count_values Scenario.calm Scenario.fresh_world
              (Scenario.account "billingAccounts/A" "Main"))
    as (c & ok & Hrun & _ & _ & Hlist).
  exists c, ok. split; [exact Hrun|].
  destruct (Hlist [Scenario.linked_to "billingAccounts/A";
                   Scenario.linked_to "billingAccounts/A"] eq_refl)
    as (_ & Hone & Htwo).
  split.
  - apply Hone. discriminate.
  - apply Htwo. cbn. lia.
Defined.

(** ** Classification of a failed listing *)

Lemma dayone_get_billing_accounts_run env w :
  DayOne.get_billing_accounts env w =
  match list_billing_accounts env (calls w) with
  | Ok p =>
      (Return match list_of_pager p with
              | Ok l => Accounts l
              | Err (PermissionDenied m) =>
                  if looks_disabled m then Sentinel "API_DISABLED_OR_NO_PERMISSION"
                  else Sentinel "PERMISSION_DENIED"
              | Err _ => Sentinel "UNEXPECTED_ERROR"
              end,
       logged w [(ListBillingAccounts, true)])
  | Err e =>
      (Return match e with
              | PermissionDenied m =>
                  if looks_disabled m then Sentinel "API_DISABLED_OR_NO_PERMISSION"
                  else Sentinel "PERMISSION_DENIED"
              | _ => Sentinel "UNEXPECTED_ERROR"
              end,
       logged w [(ListBillingAccounts, false)])
  end.
Proof.
  unfold DayOne.get_billing_accounts, try_except, bind, external, logged,
    looks_disabled.
  destruct (list_billing_accounts env (calls w)) as [p | e]; cbn.
  - destruct (list_of_pager p) as [l | e]; cbn; [reflexivity|].
    destruct e; cbn; try reflexivity.
    match goal with |- context [if ?b then _ else _] => destruct b end; reflexivity.
  - destruct e; cbn; try reflexivity.
    match goal with |- context [if ?b then _ else _] => destruct b end; reflexivity.
Qed.

Lemma daytwo_get_billing_accounts_run env w :
  DayTwo.get_billing_accounts env w =
  match list_billing_accounts env (calls w) with
  | Ok p =>
      (Return match list_of_pager p with
              | Ok l => Accounts l
              | Err (PermissionDenied m) =>
                  if looks_disabled m then Sentinel "API_DISABLED_OR_PROPAGATING"
                  else Sentinel "PERMISSION_DENIED"
              | Err _ => Sentinel "UNEXPECTED_ERROR"
              end,
       logged w [(ListBillingAccounts, true)])
  | Err e =>
      (Return match e with
              | PermissionDenied m =>
                  if looks_disabled m then Sentinel "API_DISABLED_OR_PROPAGATING"
                  else Sentinel "PERMISSION_DENIED"
              | _ => Sentinel "UNEXPECTED_ERROR"
              end,
       logged w [(ListBillingAccounts, false)])
  end.
Proof.
  unfold DayTwo.get_billing_accounts, try_except, bind, external, logged,
    looks_disabled.
  destruct (list_billing_accounts env (calls w)) as [p | e]; cbn.
  - destruct (list_of_pager p) as [l | e]; cbn; [reflexivity|].
    destruct e; cbn; try reflexivity.
    match goal with |- context [if ?b then _ else _] => destruct b end; reflexivity.
  - destruct e; cbn; try reflexivity.
    match goal with |- context [if ?b then _ else _] => destruct b end; reflexivity.
Qed.

(** Both versions of [get_billing_accounts] always return, after exactly one
    listing call. *)
Lemma dayone_get_billing_accounts_total env w :
  exists r ok,
    DayOne.get_billing_accounts env w = (Return r, logged w [(ListBillingAccounts, ok)]).
Proof.
  rewrite dayone_get_billing_accounts_run.
  destruct (list_billing_accounts env (calls w)); eauto.
Qed.

Lemma daytwo_get_billing_accounts_total env w :
  exists r ok,
    DayTwo.get_billing_accounts env w = (Return r, logged w [(ListBillingAccounts, ok)]).
Proof.
  rewrite daytwo_get_billing_accounts_run.
  destruct (list_billing_accounts env (calls w)); eauto.
Qed.

Lemma get_project_id_from_file_content env w text :
  project_file env = FileContent text ->
  Str.truthy (Str.strip text) = true ->
  DayOne.get_project_id_from_file env w = (Return (Some (Str.strip text)), w).
Proof.
  intros Hfile Hid.
  unfold DayOne.get_project_id_from_file, try_except, bind, path_exists, read_file.
  rewrite Hfile. cbn -[Str.strip Str.truthy].
  rewrite ?Hfile. cbn -[Str.strip Str.truthy]. rewrite Hid. reflexivity.
Qed.

Lemma get_project_id_content env w text :
  project_file env = FileContent text ->
  Str.truthy (Str.strip text) = true ->
  DayTwo.get_project_id env w = (Return (Str.strip text), w).
Proof.
  intros Hfile Hid.
  unfold DayTwo.get_project_id, try_except, bind, path_exists, read_file.
  rewrite Hfile. cbn -[Str.strip Str.truthy].
  rewrite ?Hfile. cbn -[Str.strip Str.truthy]. rewrite Hid. reflexivity.
Qed.

(** C5. When the listing of billing accounts fails with [e], both versions of
    [get_billing_accounts] return a sentinel chosen from [e]: for a
    [PermissionDenied] whose lower-cased message contains "api has not been
    used" or "service is disabled", the propagating-API sentinel, and the
    caller then runs the enable-and-retry path; for any other
    [PermissionDenied], "PERMISSION_DENIED"; for any other exception,
    "UNEXPECTED_ERROR". *)
Theorem get_billing_accounts_classifies env w e :
  listing_fails env (calls w) e ->
  exists r1 r2 ok,
    let w' := logged w [(ListBillingAccounts, ok)] in
    DayOne.get_billing_accounts env w = (Return (Sentinel r1), w')
    /\ DayTwo.get_billing_accounts env w = (Return (Sentinel r2), w')
    /\ (forall m, e = PermissionDenied m -> looks_disabled m = true ->
          r1 = "API_DISABLED_OR_NO_PERMISSION" /\ r2 = "API_DISABLED_OR_PROPAGATING"
          /\ (forall project_id,
                DayTwo.search_and_link project_id env w
                = DayTwo.enable_and_retry project_id (Sentinel r2) env w')
          /\ (forall text,
                project_file env = FileContent text ->
                Str.truthy (Str.strip text) = true ->
                DayOne.main env w
                = (accounts_result <-
                     DayOne.enable_and_retry (Str.strip text) (Sentinel r1);;
                   DayOne.after_listing (Str.strip text) accounts_result) env w'))
    /\ (forall m, e = PermissionDenied m -> looks_disabled m = false ->
          r1 = "PERMISSION_DENIED" /\ r2 = "PERMISSION_DENIED")
    /\ ((forall m, e <> PermissionDenied m) ->
          r1 = "UNEXPECTED_ERROR" /\ r2 = "UNEXPECTED_ERROR").
Proof.
  intros Hfail.
  assert (Hrun : exists ok,
    DayOne.get_billing_accounts env w =
      (Return match e with
              | PermissionDenied m =>
                  if looks_disabled m then Sentinel "API_DISABLED_OR_NO_PERMISSION"
                  else Sentinel "PERMISSION_DENIED"
              | _ => Sentinel "UNEXPECTED_ERROR"
              end, logged w [(ListBillingAccounts, ok)])
    /\ DayTwo.get_billing_accounts env w =
      (Return match e with
              | PermissionDenied m =>
                  if looks_disabled m then Sentinel "API_DISABLED_OR_PROPAGATING"
                  else Sentinel "PERMISSION_DENIED"
              | _ => Sentinel "UNEXPECTED_ERROR"
              end, logged w [(ListBillingAccounts, ok)])).
  { rewrite dayone_get_billing_accounts_run, daytwo_get_billing_accounts_run.
    destruct Hfail as [He | (p & Hp & He)].
    - rewrite He. eauto.
    - rewrite Hp, He. eauto. }
  destruct Hrun as (ok & H1 & H2).
  destruct e as [m | | | | | | | | ];
    try (do 3 eexists; cbn zeta;
         split; [exact H1|]; split; [exact H2|];
         repeat split; try discriminate;
         match goal with H : forall m, _ <> _ |- _ => idtac end; fail).
  all: try (do 3 eexists; cbn zeta;
            split; [exact H1|]; split; [exact H2|];
            split; [discriminate|]; split; [discriminate|]; auto).
  destruct (looks_disabled m) eqn:Hm.
  - do 3 eexists. cbn zeta.
    split; [exact H1|]. split; [exact H2|].
    split; [| split].
    + intros m' [= <-] _.
      split; [reflexivity|]. split; [reflexivity|]. split.
      * intros project_id. unfold DayTwo.search_and_link, bind at 1.
        rewrite H2. reflexivity.
      * intros text Hfile Hid. unfold DayOne.main, bind at 1.
        rewrite (get_project_id_from_file_content _ _ _ Hfile Hid).
        cbn beta iota. rewrite Hid. cbn [negb].
        unfold bind at 1. rewrite H1. reflexivity.
    + intros m' [= <-]. congruence.
    + intros Hne. exfalso. exact (Hne m eq_refl).
  - do 3 eexists. cbn zeta.
    split; [exact H1|]. split; [exact H2|].
    split; [| split].
    + intros m' [= <-]. congruence.
    + intros m' [= <-] _. auto.
    + intros Hne. exfalso. exact (Hne m eq_refl).
Qed.

Lemma get_billing_accounts_classifies_witness :
  listing_fails Scenario.api_disabled (calls Scenario.fresh_world)
    (PermissionDenied
       "Cloud Billing API has not been used in project 1 before or it is disabled.")
  /\ fst (DayOne.get_billing_accounts Scenario.api_disabled Scenario.fresh_world)
     = Return (Sentinel "API_DISABLED_OR_NO_PERMISSION")
  /\ fst (DayTwo.get_billing_accounts Scenario.api_disabled Scenario.fresh_world)
     = Return (Sentinel "API_DISABLED_OR_PROPAGATING").
Proof.
  assert (Hfail : listing_fails Scenario.api_disabled (calls Scenario.fresh_world)
    (PermissionDenied
       "Cloud Billing API has not been used in project 1 before or it is disabled."))
    by (left; reflexivity).
  split; [exact Hfail|].
  destruct (get_billing_accounts_classifies _ _ _ Hfail)
    as (r1 & r2 & ok & H1 & H2 & Hprop & _).
  destruct (Hprop _ eq_refl eq_refl) as (E1 & E2 & _).
  rewrite H1, H2, E1, E2. split; reflexivity.
Defined.

(** ** The check of the current billing state (day two) *)

Lemma check_current_billing_run env w project_id :
  DayTwo.check_current_billing project_id env w =
  match get_project_billing_info env (calls w) (project_name_of project_id) with
  | Ok info =>
      (Return (if billing_enabled info
               then (true, Some (billing_account_name info))
               else (false, None)),
       logged w [(GetProjectBillingInfo (project_name_of project_id), true)])
  | Err _ =>
      (Return (false, None),
       logged w [(GetProjectBillingInfo (project_name_of project_id), false)])
  end.
Proof.
  unfold DayTwo.check_current_billing, try_except, bind, external, logged.
  destruct (get_project_billing_info env (calls w) (project_name_of project_id))
    as [info | e]; cbn.
  - destruct (billing_enabled info); reflexivity.
  - destruct e; reflexivity.
Qed.

(** C10. Day two: [check_current_billing] always returns a pair and never
    raises or exits; when the lookup raises ([NotFound] or anything else) the
    pair is [(False, None)], and [main] then goes on to search for billing
    accounts exactly as for a project whose billing is not enabled. *)
Theorem check_current_billing_total env w project_id :
  exists r ok,
    let w' := logged w [(GetProjectBillingInfo (project_name_of project_id), ok)] in
    DayTwo.check_current_billing project_id env w = (Return r, w')
    /\ (forall e,
          get_project_billing_info env (calls w) (project_name_of project_id) = Err e ->
          r = (false, None) /\ ok = false)
    /\ (forall text,
          project_file env = FileContent text ->
          Str.strip text = project_id ->
          Str.truthy project_id = true ->
          fst r = false ->
          DayTwo.main env w = DayTwo.search_and_link project_id env w').
Proof.
  pose proof (check_current_billing_run env w project_id) as Hrun.
  destruct (get_project_billing_info env (calls w) (project_name_of project_id))
    as [info | e] eqn:Hget.
  - do 2 eexists. cbn zeta. split; [exact Hrun|]. split; [discriminate|].
    intros text Hfile <- Hid Hr.
    unfold DayTwo.main, bind at 1.
    rewrite (get_project_id_content _ _ _ Hfile Hid).
    unfold bind at 1. rewrite Hrun.
    destruct (billing_enabled info); [discriminate Hr | reflexivity].
  - do 2 eexists. cbn zeta. split; [exact Hrun|]. split; [auto|].
    intros text Hfile <- Hid _.
    unfold DayTwo.main, bind at 1.
    rewrite (get_project_id_content _ _ _ Hfile Hid).
    unfold bind at 1. rewrite Hrun. reflexivity.
Qed.

Lemma check_current_billing_total_witness :
  get_project_billing_info Scenario.calm (calls Scenario.fresh_world)
    (project_name_of "workshop-project") = Err (NotFound "no billing info")
  /\ fst (DayTwo.check_current_billing "workshop-project" Scenario.calm
            Scenario.fresh_world) = Return (false, None)
  /\ DayTwo.main Scenario.calm Scenario.fresh_world
     = DayTwo.search_and_link "workshop-project" Scenario.calm
         (logged Scenario.fresh_world
            [(GetProjectBillingInfo (project_name_of "workshop-project"), false)]).
Proof.
  split; [reflexivity|].
  destruct (check_current_billing_total Scenario.calm Scenario.fresh_world
              "workshop-project") as (r & ok & Hrun & Herr & Hmain).
  destruct (Herr _ eq_refl) as [Hr Hok].
  split.
  - rewrite Hrun, Hr. reflexivity.
  - subst ok.
    apply (Hmain "workshop-project"); [reflexivity | reflexivity | reflexivity |].
    rewrite Hr. reflexivity.
Defined.

(** ** Order of strings and the head of a descending stable sort *)

Section StringOrder.

Lemma ltb_lt (a b : string) : Str.ltb a b = true <-> String_as_OT.lt a b.
Proof.
  unfold Str.ltb, String.ltb. rewrite <- String_as_OT.cmp_lt.
  unfold String_as_OT.cmp. destruct (String.compare a b); split; congruence.
Qed.

Lemma ltb_irrefl (a : string) : Str.ltb a a = false.
Proof.
  destruct (Str.ltb a a) eqn:H; [|reflexivity].
  apply ltb_lt in H. exfalso. exact (String_as_OT.lt_not_eq _ _ H eq_refl).
Qed.

Lemma ltb_asym (a b : string) : Str.ltb a b = true -> Str.ltb b a = false.
Proof.
  intros Hab. destruct (Str.ltb b a) eqn:Hba; [|reflexivity].
  apply ltb_lt in Hab, Hba.
  exfalso. exact (String_as_OT.lt_not_eq _ _ (String_as_OT.lt_trans _ _ _ Hab Hba) eq_refl).
Qed.

(** If [a] is not below [b] and [b] is not below [c], then [a] is not
    below [c]. *)
Lemma ltb_negative_trans (a b c : string) :
  Str.ltb a b = false -> Str.ltb b c = false -> Str.ltb a c = false.
Proof.
  intros Hab Hbc. destruct (Str.ltb a c) eqn:Hac; [|reflexivity].
  apply ltb_lt in Hac.
  destruct (String_as_OT.compare a b) as [Hlt | Heq | Hgt].
  - apply ltb_lt in Hlt. congruence.
  - unfold String_as_OT.eq in Heq. subst b. apply ltb_lt in Hac. congruence.
  - pose proof (String_as_OT.lt_trans _ _ _ Hgt Hac) as Hbc'.
    apply ltb_lt in Hbc'. congruence.
Qed.

Lemma ltb_false_leb (a b : string) : Str.ltb a b = false <-> String.leb b a = true.
Proof.
  unfold Str.ltb, String.ltb, String.leb. rewrite (String.compare_antisym b a).
  destruct (String.compare a b); cbn; split; congruence.
Qed.

End StringOrder.

Section SortHead.
Context {A K : Type} (lt : K -> K -> bool) (key : A -> K).

Lemma insert_desc_head (x : A) (l : list A) :
  hd_error (insert_desc lt key x l) =
  match l with
  | [] => Some x
  | y :: _ => if lt (key x) (key y) then Some y else Some x
  end.
Proof.
  destruct l as [| y t]; cbn; [reflexivity|].
  destruct (lt (key x) (key y)); reflexivity.
Qed.

Lemma sort_desc_nil (l : list A) : sort_desc lt key l = [] -> l = [].
Proof.
  destruct l as [| x t]; [reflexivity|]. cbn.
  destruct (sort_desc lt key t) as [| y s]; cbn; [discriminate|].
  destruct (lt (key x) (key y)); discriminate.
Qed.

Hypothesis lt_irrefl : forall a, lt a a = false.
Hypothesis lt_asym : forall a b, lt a b = true -> lt b a = false.
Hypothesis lt_negative_trans :
  forall a b c, lt a b = false -> lt b c = false -> lt a c = false.

(** The head of the sorted list is an element of the list that no element
    exceeds. *)
Lemma sort_desc_head_max (l : list A) (x : A) :
  hd_error (sort_desc lt key l) = Some x ->
  In x l /\ forall y, In y l -> lt (key x) (key y) = false.
Proof.
  revert x. induction l as [| a t IH]; intros x; cbn [sort_desc].
  - discriminate.
  - rewrite insert_desc_head.
    destruct (sort_desc lt key t) as [| y s] eqn:Hs.
    + apply sort_desc_nil in Hs. subst t. intros [= <-].
      split; [left; reflexivity|].
      intros y [<- | []]. apply lt_irrefl.
    + destruct (IH y eq_refl) as [Hy Hmax].
      destruct (lt (key a) (key y)) eqn:Hay; intros [= <-].
      * split; [right; exact Hy|].
        intros z [<- | Hz]; [apply lt_asym; exact Hay | apply Hmax; exact Hz].
      * split; [left; reflexivity|].
        intros z [<- | Hz]; [apply lt_irrefl|].
        apply (lt_negative_trans _ (key y)); [exact Hay | apply Hmax; exact Hz].
Qed.

End SortHead.

(** With a boolean key, the head of the sorted list is the first element
    whose key is true, or the first element when no key is true. *)
Lemma sort_desc_bool_head {A} (key : A -> bool) (l : list A) :
  hd_error (sort_desc bool_lt key l) =
  match find key l with
  | Some x => Some x
  | None => hd_error l
  end.
Proof.
  induction l as [| a t IH]; [reflexivity|].
  cbn [sort_desc find]. rewrite insert_desc_head.
  destruct (key a) eqn:Ha.
  - destruct (sort_desc bool_lt key t); reflexivity.
  - destruct (sort_desc bool_lt key t) as [| y s] eqn:Hs.
    + apply sort_desc_nil in Hs. subst t. reflexivity.
    + cbn [hd_error] in IH. unfold bool_lt. cbn [negb andb].
      destruct (find key t) as [z |] eqn:Hfind.
      * injection IH as ->. apply find_some in Hfind. destruct Hfind as [_ ->].
        reflexivity.
      * destruct t as [| b t']; [discriminate|]. cbn in IH. injection IH as ->.
        pose proof (find_none _ _ Hfind b (or_introl eq_refl)) as Hb.
        rewrite Hb. reflexivity.
Qed.

(** ** The suffix pattern *)

Section SuffixPattern.

Lemma string_length_app (a b : string) :
  String.length (a ++ b) = (String.length a + String.length b)%nat.
Proof. induction a as [| c a IH]; cbn; [reflexivity | rewrite IH; reflexivity]. Qed.

Lemma string_app_empty (a : string) : a ++ "" = a.
Proof. induction a as [| c a IH]; cbn; [reflexivity | rewrite IH; reflexivity]. Qed.

Lemma string_app_assoc (a b c : string) : (a ++ b) ++ c = a ++ (b ++ c).
Proof. induction a as [| x a IH]; cbn; [reflexivity | rewrite IH; reflexivity]. Qed.

Lemma all_digits_app (a b : string) :
  Suffix.all_digits (a ++ b) = Suffix.all_digits a && Suffix.all_digits b.
Proof.
  unfold Suffix.all_digits.
  induction a as [| c a IH]; cbn; [reflexivity|].
  rewrite IH. apply andb_assoc.
Qed.

Lemma digits_exact (n : nat) (ds rest : string) :
  String.length ds = n ->
  Suffix.all_digits ds = true ->
  Suffix.digits n (ds ++ rest) = Some (ds, rest).
Proof.
  revert ds. induction n as [| n IH]; intros [| c ds]; cbn; try discriminate.
  - reflexivity.
  - intros [= Hlen] Hd. unfold Suffix.all_digits in Hd. cbn in Hd.
    apply andb_prop in Hd. destruct Hd as [Hc Hds].
    rewrite Hc, (IH ds Hlen Hds). reflexivity.
Qed.

Lemma digits_length (n : nat) (s ds rest : string) :
  Suffix.digits n s = Some (ds, rest) ->
  String.length s = (n + String.length rest)%nat.
Proof.
  revert s ds. induction n as [| n IH]; intros s ds; cbn.
  - intros [= _ ->]. reflexivity.
  - destruct s as [| c s]; [discriminate|].
    destruct (Str.is_digit c); [|discriminate].
    destruct (Suffix.digits n s) as [[ds' rest']|] eqn:Hd; [|discriminate].
    intros [= _ ->]. cbn. rewrite (IH _ _ Hd). reflexivity.
Qed.

Lemma at_end_length (rest : string) :
  Suffix.at_end rest = true -> (String.length rest <= 1)%nat.
Proof.
  destruct rest as [| c [| c' rest]]; cbn; intros H; try lia; discriminate.
Qed.

Lemma match_here_tag (ds : string) :
  String.length ds = 12%nat ->
  Suffix.all_digits ds = true ->
  Suffix.match_here (String "-" ds) = Some (String "-" ds).
Proof.
  intros Hlen Hd. unfold Suffix.match_here. cbn [Ascii.eqb Bool.eqb].
  pose proof (digits_exact 12 ds "" Hlen Hd) as Hdigits.
  rewrite string_app_empty in Hdigits. rewrite Hdigits. reflexivity.
Qed.

(** No match starts before the tag that ends the string. *)
Lemma match_here_before_tag (c : ascii) (p ds : string) :
  String.length ds = 12%nat ->
  Suffix.match_here (String c (p ++ String "-" ds)) = None.
Proof.
  intros Hlen. unfold Suffix.match_here.
  destruct (Ascii.eqb c "-"); [|reflexivity].
  destruct (Suffix.digits 12 (p ++ String "-" ds)) as [[ds' rest]|] eqn:Hd;
    [|reflexivity].
  destruct (Suffix.at_end rest) eqn:Hend; [|reflexivity].
  exfalso.
  pose proof (digits_length _ _ _ _ Hd) as Hl.
  apply at_end_length in Hend.
  rewrite string_length_app in Hl. cbn [String.length] in Hl.
  destruct p as [| c' p].
  - cbn in Hd. discriminate.
  - cbn [String.length] in Hl. lia.
Qed.

(** A name that ends with a tag matches the pattern, and the match is
    that tag. *)
Lemma search_ends_with_tag (p ds : string) :
  String.length ds = 12%nat ->
  Suffix.all_digits ds = true ->
  Suffix.search (p ++ String "-" ds) = Some (String "-" ds).
Proof.
  intros Hlen Hd. induction p as [| c p IH].
  - cbn [append]. destruct ds as [| d ds]; [discriminate|].
    cbn [Suffix.search]. rewrite (match_here_tag _ Hlen Hd). reflexivity.
  - cbn [append Suffix.search].
    rewrite (match_here_before_tag c p ds Hlen). exact IH.
Qed.

Lemma ends_with_tag_matches (s : string) :
  Suffix.ends_with_tag s -> exists t, Suffix.search s = Some t /\ Suffix.is_suffix_tag t.
Proof.
  intros (p & t & -> & (ds & -> & Hlen & Hd)).
  exists (String "-" ds). split.
  - apply search_ends_with_tag; assumption.
  - exists ds. auto.
Qed.

End SuffixPattern.

(** ** The account selector *)

Section Selector.

Lemma observe_counts_total env w (l : list BillingAccount) :
  exists cs w',
    observe_counts l env w = (Return cs, w') /\ List.length cs = List.length l.
Proof.
  revert w. induction l as [| a t IH]; intros w; cbn [observe_counts].
  - exists [], w. split; reflexivity.
  - unfold bind at 1. rewrite get_linked_project_count_run.
    match goal with |- context [logged w ?l] => destruct (IH (logged w l))
      as (cs & w' & Hrun & Hlen) end.
    unfold bind at 1. rewrite Hrun.
    do 2 eexists. split; [reflexivity|]. cbn. rewrite Hlen. reflexivity.
Qed.

Lemma collect_unlinked_spec env (l : list BillingAccount) :
  forall acc w cs w',
    observe_counts l env w = (Return cs, w') ->
    collect_unlinked acc l env w = (Return (acc ++ zero_linked l cs)%list, w').
Proof.
  induction l as [| a t IH]; intros acc w cs w'; cbn [observe_counts collect_unlinked].
  - intros [= <- <-]. cbn. rewrite app_nil_r. reflexivity.
  - assert (Hc : exists c0 w1, get_linked_project_count a env w = (Return c0, w1))
      by (rewrite get_linked_project_count_run; eauto).
    destruct Hc as (c0 & w1 & Hc).
    unfold bind at 1 3. rewrite Hc. unfold bind at 1.
    destruct (observe_counts t env w1) as [[cs' | e | code] w2] eqn:Hrest;
      try discriminate.
    intros [= <- <-]. cbn [zero_linked].
    destruct (c0 =? 0).
    + rewrite (IH _ _ _ _ Hrest). rewrite <- app_assoc. reflexivity.
    + apply (IH _ _ _ _ Hrest).
Qed.

Lemma zero_linked_In (l : list BillingAccount) (cs : list Z) (a : BillingAccount) :
  In a (zero_linked l cs) -> In (a, 0) (combine l cs).
Proof.
  revert cs. induction l as [| b t IH]; intros [| c cs]; cbn; try tauto.
  destruct (c =? 0) eqn:Hc.
  - apply Z.eqb_eq in Hc. subst c. intros [<- | H]; [left; reflexivity|].
    right. apply IH. exact H.
  - intros H. right. apply IH. exact H.
Qed.

Lemma In_zero_linked (l : list BillingAccount) (cs : list Z) (a : BillingAccount) :
  In (a, 0) (combine l cs) -> In a (zero_linked l cs).
Proof.
  revert cs. induction l as [| b t IH]; intros [| c cs]; cbn; try tauto.
  intros [[= -> ->] | H].
  - cbn. left. reflexivity.
  - destruct (c =? 0); [right|]; apply IH; exact H.
Qed.

Lemma zero_linked_nonempty (l : list BillingAccount) (cs : list Z) :
  List.length cs = List.length l -> In 0 cs -> zero_linked l cs <> [].
Proof.
  revert cs. induction l as [| b t IH]; intros [| c cs]; cbn; try tauto;
    try discriminate.
  intros [= Hlen] [-> | Hin].
  - cbn. discriminate.
  - destruct (c =? 0); [discriminate|]. apply IH; assumption.
Qed.

Lemma zero_linked_empty (l : list BillingAccount) (cs : list Z) :
  ~ In 0 cs -> zero_linked l cs = [].
Proof.
  revert cs. induction l as [| b t IH]; intros [| c cs]; cbn; try tauto.
  intros Hno. destruct (c =? 0) eqn:Hc.
  - apply Z.eqb_eq in Hc. exfalso. apply Hno. left. exact Hc.
  - apply IH. tauto.
Qed.

Lemma collect_tagged_acc (l : list BillingAccount) :
  forall acc, collect_tagged acc l = (acc ++ collect_tagged [] l)%list.
Proof.
  induction l as [| a t IH]; intros acc; cbn [collect_tagged].
  - rewrite app_nil_r. reflexivity.
  - destruct (Suffix.search (display_name a)) as [g |].
    + rewrite (IH (acc ++ [(a, g)])%list), (IH ([] ++ [(a, g)])%list).
      rewrite <- app_assoc. reflexivity.
    + apply IH.
Qed.

Lemma collect_tagged_In (l : list BillingAccount) (b : BillingAccount) (t : string) :
  In (b, t) (collect_tagged [] l)
  <-> In b l /\ Suffix.search (display_name b) = Some t.
Proof.
  induction l as [| a r IH]; cbn [collect_tagged In].
  - tauto.
  - destruct (Suffix.search (display_name a)) as [g |] eqn:Hg.
    + rewrite collect_tagged_acc. cbn [app In]. rewrite IH. split.
      * intros [[= -> ->] | [H1 H2]]; auto.
      * intros [[-> | H1] H2]; [left; congruence | right; auto].
    + rewrite IH. split.
      * intros [H1 H2]; auto.
      * intros [[-> | H1] H2]; [congruence | auto].
Qed.

Lemma item0_hd_error {A} (l : list A) (x : A) env w :
  hd_error l = Some x -> item0 l env w = (Return x, w).
Proof. destruct l; cbn; [discriminate | intros [= ->]; reflexivity]. Qed.

End Selector.

(** C1. When at least one of the open accounts is observed with a linked
    project count of exactly zero, [find_best_billing_account] returns an
    account observed with count zero; the returned account is the first
    zero-linked account whose lower-cased display name contains "trial billing
    account", or the first zero-linked account when there is none; an
    account whose count is never observed as zero (linked, or unknown because
    the lookup failed) is not returned. *)
Theorem find_best_prefers_unlinked env w open_accounts cs w' :
  observe_counts open_accounts env w = (Return cs, w') ->
  In 0 cs ->
  exists account,
    find_best_billing_account open_accounts env w = (Return account, w')
    /\ In (account, 0) (combine open_accounts cs)
    /\ ((exists b, In (b, 0) (combine open_accounts cs) /\ is_trial b = true) ->
        is_trial account = true)
    /\ Some account =
       match find is_trial (zero_linked open_accounts cs) with
       | Some b => Some b
       | None => hd_error (zero_linked open_accounts cs)
       end
    /\ (forall b, (forall c, In (b, c) (combine open_accounts cs) -> c <> 0) ->
        account <> b).
Proof.
  intros Hobs Hzero.
  destruct (observe_counts_total env w open_accounts) as (cs0 & w0 & Hobs0 & Hlen).
  rewrite Hobs in Hobs0. injection Hobs0 as <- <-.
  pose proof (zero_linked_nonempty open_accounts cs Hlen Hzero) as Hne.
  pose proof (sort_desc_bool_head is_trial (zero_linked open_accounts cs)) as Hhead.
  assert (Hsel : exists account,
    hd_error (sort_desc bool_lt is_trial (zero_linked open_accounts cs)) = Some account).
  { rewrite Hhead. destruct (find is_trial (zero_linked open_accounts cs)); eauto.
    destruct (zero_linked open_accounts cs); [congruence | cbn; eauto]. }
  destruct Hsel as (account & Hsel).
  assert (Hin : In account (zero_linked open_accounts cs)).
  { rewrite Hhead in Hsel.
    destruct (find is_trial (zero_linked open_accounts cs)) eqn:Hf.
    - injection Hsel as ->. apply find_some in Hf. tauto.
    - destruct (zero_linked open_accounts cs); [discriminate|].
      injection Hsel as ->. left. reflexivity. }
  exists account. split; [| split; [| split; [| split]]].
  - unfold find_best_billing_account, bind at 1.
    rewrite (collect_unlinked_spec env open_accounts [] w cs w' Hobs). cbn [app].
    destruct (zero_linked open_accounts cs) eqn:Hz; [congruence|].
    cbn [is_empty negb]. apply item0_hd_error. exact Hsel.
  - apply zero_linked_In. exact Hin.
  - intros (b & Hb & Htrial). apply In_zero_linked in Hb.
    rewrite Hhead in Hsel.
    destruct (find is_trial (zero_linked open_accounts cs)) eqn:Hf.
    + injection Hsel as ->. apply find_some in Hf. tauto.
    + pose proof (find_none _ _ Hf b Hb). congruence.
  - rewrite <- Hhead. symmetry. exact Hsel.
  - intros b Hb ->. apply zero_linked_In in Hin. exact (Hb 0 Hin eq_refl).
Qed.

Lemma find_best_prefers_unlinked_witness :
  fst (observe_counts Scenario.three_accounts Scenario.calm Scenario.fresh_world)
  = Return [1; 0; 0]
  /\ fst (find_best_billing_account Scenario.three_accounts Scenario.calm
            Scenario.fresh_world)
     = Return (Scenario.account "billingAccounts/B" "Free trial billing account").
Proof.
  split; [reflexivity|].
  destruct (find_best_prefers_unlinked Scenario.calm Scenario.fresh_world
              Scenario.three_accounts [1; 0; 0]
              (snd (observe_counts Scenario.three_accounts Scenario.calm
                      Scenario.fresh_world)))
    as (account & Hrun & _ & _ & Hfirst & _).
  - reflexivity.
  - right. left. reflexivity.
  - rewrite Hrun. vm_compute in Hfirst. injection Hfirst as ->. reflexivity.
Defined.

(** C2. When no open account is observed with a linked project count of zero
    and at least one display name ends with the twelve-digit date suffix,
    [find_best_billing_account] returns an account whose display name matches
    the suffix pattern and whose matched suffix is maximal: the matched
    suffix of every open account is lexicographically below or equal to
    it. *)
Theorem find_best_newest_suffix env w open_accounts cs w' :
  observe_counts open_accounts env w = (Return cs, w') ->
  ~ In 0 cs ->
  (exists a, In a open_accounts /\ Suffix.ends_with_tag (display_name a)) ->
  exists account s,
    find_best_billing_account open_accounts env w = (Return account, w')
    /\ In account open_accounts
    /\ Suffix.search (display_name account) = Some s
    /\ (forall b t,
          In b open_accounts -> Suffix.search (display_name b) = Some t ->
          String.leb t s = true).
Proof.
  intros Hobs Hzero (a & Ha & Htag).
  destruct (ends_with_tag_matches _ Htag) as (ta & Hsearch & _).
  assert (Hin : In (a, ta) (collect_tagged [] open_accounts))
    by (apply collect_tagged_In; auto).
  destruct (sort_desc Str.ltb snd (collect_tagged [] open_accounts))
    as [| [account s] rest] eqn:Hsort.
  { apply sort_desc_nil in Hsort. rewrite Hsort in Hin. destruct Hin. }
  assert (Hhead : hd_error (sort_desc Str.ltb snd (collect_tagged [] open_accounts))
                  = Some (account, s)) by (rewrite Hsort; reflexivity).
  destruct (sort_desc_head_max Str.ltb snd ltb_irrefl ltb_asym ltb_negative_trans
              _ _ Hhead) as [Hmem Hmax].
  apply collect_tagged_In in Hmem. destruct Hmem as [Hacc Hs].
  exists account, s. split; [| split; [exact Hacc | split; [exact Hs|]]].
  - unfold find_best_billing_account, bind at 1.
    rewrite (collect_unlinked_spec env open_accounts [] w cs w' Hobs).
    rewrite (zero_linked_empty _ _ Hzero). cbn [app is_empty negb].
    destruct (collect_tagged [] open_accounts) eqn:Hc; [destruct Hin|].
    cbn [is_empty negb]. unfold bind.
    rewrite (item0_hd_error _ _ env w' Hhead). reflexivity.
  - intros b t Hb Ht. apply ltb_false_leb.
    apply (Hmax (b, t)). apply collect_tagged_In. auto.
Qed.

Lemma find_best_newest_suffix_witness :
  (exists a, In a Scenario.tagged_accounts /\ Suffix.ends_with_tag (display_name a))
  /\ fst (find_best_billing_account Scenario.tagged_accounts Scenario.all_linked
            Scenario.fresh_world)
     = Return (Scenario.account "billingAccounts/X2" "X-202602020000").
Proof.
  assert (Htag : exists a, In a Scenario.tagged_accounts
                           /\ Suffix.ends_with_tag (display_name a)).
  { exists (Scenario.account "billingAccounts/X1" "X-202501010000").
    split; [left; reflexivity|].
    exists "X", "-202501010000". split; [reflexivity|].
    exists "202501010000". repeat split; reflexivity. }
  split; [exact Htag|].
  destruct (find_best_newest_suffix Scenario.all_linked Scenario.fresh_world
              Scenario.tagged_accounts [1; 1]
              (snd (observe_counts Scenario.tagged_accounts Scenario.all_linked
                      Scenario.fresh_world)))
    as (account & s & Hrun & Hacc & Hs & Hmax).
  - reflexivity.
  - intros [H | [H | []]]; discriminate.
  - exact Htag.
  - rewrite Hrun. f_equal.
    destruct Hacc as [<- | [<- | []]]; [|reflexivity].
    exfalso. injection Hs as <-.
    specialize (Hmax (Scenario.account "billingAccounts/X2" "X-202602020000")
                  "-202602020000" (or_intror (or_introl eq_refl)) eq_refl).
    discriminate Hmax.
Defined.

(** ** The tagger *)

Section Tagger.

Lemma new_calls_logged (w : World) (l : history) : new_calls w (logged w l) = l.
Proof.
  unfold new_calls, logged. cbn [calls].
  rewrite skipn_app, skipn_all, Nat.sub_diag. reflexivity.
Qed.

Lemma new_calls_same (w : World) : new_calls w w = [].
Proof. unfold new_calls. apply skipn_all. Qed.

Lemma new_calls_printed (w w' : World) (ms : list message) :
  new_calls w (printed w' ms) = new_calls w w'.
Proof. reflexivity. Qed.

Lemma tag_billing_account_run env w a :
  tag_billing_account a env w =
  if Suffix.matches (display_name a) then (Return tt, w)
  else
    let new_name := display_name a ++ strftime_suffix (now env (calls w)) in
    match update_billing_account env (calls w) (name a) new_name with
    | Ok _ =>
        (Return tt,
         printed (logged w [(UpdateBillingAccount (name a) new_name, true)])
           [MsgTagged new_name])
    | Err _ =>
        (Return tt,
         printed (logged w [(UpdateBillingAccount (name a) new_name, false)])
           [MsgCouldNotTag])
    end.
Proof.
  unfold tag_billing_account.
  destruct (Suffix.matches (display_name a)); [reflexivity|].
  unfold bind at 1, datetime_now. cbn zeta.
  unfold try_except, bind, external, print, printed, logged.
  destruct (update_billing_account env (calls w) (name a)
              (display_name a ++ strftime_suffix (now env (calls w))))
    as [[] | e]; cbn; [reflexivity|].
  destruct e; reflexivity.
Qed.

Lemma count_up_In (count : nat) :
  forall start n, (start <= n < start + N.of_nat count)%N -> In n (count_up count start).
Proof.
  induction count as [| count IH]; intros start n Hn; cbn [count_up].
  - lia.
  - destruct (N.eq_dec n start) as [-> | Hne]; [left; reflexivity|].
    right. apply IH. lia.
Qed.

(** A year of four digits is printed with four digits. *)
Lemma decimal_year (n : N) :
  (1000 <= n <= 9999)%N ->
  String.length (Str.decimal n) = 4%nat
  /\ Suffix.all_digits (Str.decimal n) = true.
Proof.
  intros Hn.
  assert (Hall : forallb (fun n => (String.length (Str.decimal n) =? 4)%nat
                                    && Suffix.all_digits (Str.decimal n))
                   (count_up 9000 1000) = true) by (vm_compute; reflexivity).
  rewrite forallb_forall in Hall.
  assert (Hin : In n (count_up 9000 1000)).
  { apply count_up_In. split; [lia|].
    change (N.of_nat 9000) with 9000%N. lia. }
  specialize (Hall n Hin).
  apply andb_prop in Hall. destruct Hall as [H1 H2].
  apply Nat.eqb_eq in H1. auto.
Qed.

(** A field below 100 is printed with exactly two digits. *)
Lemma zero_pad_2 (n : N) :
  (n <= 99)%N ->
  String.length (Str.zero_pad 2 n) = 2%nat
  /\ Suffix.all_digits (Str.zero_pad 2 n) = true.
Proof.
  intros Hn.
  assert (Hall : forallb (fun n => (String.length (Str.zero_pad 2 n) =? 2)%nat
                                    && Suffix.all_digits (Str.zero_pad 2 n))
                   (count_up 100 0) = true) by (vm_compute; reflexivity).
  rewrite forallb_forall in Hall.
  assert (Hin : In n (count_up 100 0)) by (apply count_up_In; lia).
  specialize (Hall n Hin).
  apply andb_prop in Hall. destruct Hall as [H1 H2].
  apply Nat.eqb_eq in H1. auto.
Qed.

(** The suffix printed for a valid date with a year of four digits is a
    dash and twelve digits. *)
Lemma strftime_suffix_is_tag (d : datetime) :
  valid_datetime d -> (1000 <= year d)%N -> Suffix.is_suffix_tag (strftime_suffix d).
Proof.
  intros (Hy & Hm & Hd & Hh & Hmin) Hyear.
  destruct (decimal_year (year d)) as [Ly Dy]; [lia|].
  destruct (zero_pad_2 (month d)) as [Lm Dm]; [lia|].
  destruct (zero_pad_2 (day d)) as [Ld Dd]; [lia|].
  destruct (zero_pad_2 (hour d)) as [Lh Dh]; [lia|].
  destruct (zero_pad_2 (minute d)) as [Lmin Dmin]; [lia|].
  unfold strftime_suffix.
  eexists. split; [reflexivity|]. split.
  - rewrite !string_length_app, Ly, Lm, Ld, Lh, Lmin. reflexivity.
  - rewrite !all_digits_app, Dy, Dm, Dd, Dh, Dmin. reflexivity.
Qed.

Lemma tagged_name_matches (dn : string) (d : datetime) :
  valid_datetime d -> (1000 <= year d)%N ->
  Suffix.matches (dn ++ strftime_suffix d) = true.
Proof.
  intros Hd Hyear. unfold Suffix.matches.
  destruct (ends_with_tag_matches (dn ++ strftime_suffix d)) as (t & -> & _);
    [|reflexivity].
  exists dn, (strftime_suffix d). split; [reflexivity|].
  apply strftime_suffix_is_tag; assumption.
Qed.

Lemma string_eqb_refl (s : string) : String.eqb s s = true.
Proof. apply String.eqb_refl. Qed.

End Tagger.

(** C8, as the code has it.  Tagging is idempotent when the first
    application succeeds.  Let [tag_billing_account] run on an account [a]
    at a valid clock reading with a year of four digits, and let the second
    application see the display name the service holds after the first.
    When the name of [a] already ends with the suffix pattern the first
    application makes no call; when it does not and the update request is
    accepted, the service holds the old name followed by the date suffix.
    In both cases that name matches the pattern, so the second application,
    in whatever environment it runs, returns at once without any call, and
    the final display name is the one after the first application.  When
    the update request is refused, the failure is swallowed and the display
    name stays as it was; the second application then asks for the renaming
    again. *)
Theorem tag_billing_account_idempotent env w a env2 w2 :
  valid_datetime (now env (calls w)) ->
  (1000 <= year (now env (calls w)))%N ->
  let new_name := display_name a ++ strftime_suffix (now env (calls w)) in
  let answer := update_billing_account env (calls w) (name a) new_name in
  let w1 := snd (tag_billing_account a env w) in
  let final := display_name_after a w w1 in
  let a1 := with_display_name a final in
  let w3 := snd (tag_billing_account a1 env2 w2) in
  (Suffix.matches (display_name a) = true ->
   new_calls w w1 = [] /\ final = display_name a)
  /\ (Suffix.matches (display_name a) = false ->
      new_calls w w1 = [(UpdateBillingAccount (name a) new_name, is_ok answer)]
      /\ final = if is_ok answer then new_name else display_name a)
  /\ (Suffix.matches (display_name a) = true \/ is_ok answer = true ->
      Suffix.matches final = true
      /\ tag_billing_account a1 env2 w2 = (Return tt, w2)
      /\ display_name_after a1 w2 w3 = final)
  /\ (Suffix.matches (display_name a) = false -> is_ok answer = false ->
      final = display_name a
      /\ exists ok,
           new_calls w2 w3
           = [(UpdateBillingAccount (name a)
                 (display_name a ++ strftime_suffix (now env2 (calls w2))), ok)]).
Proof.
  intros Hclock Hyear new_name answer w1 final a1 w3.
  assert (Hearly : Suffix.matches (display_name a) = true ->
                   new_calls w w1 = [] /\ final = display_name a).
  { intros Ha. subst final w1. unfold display_name_after.
    rewrite tag_billing_account_run, Ha. cbn [snd]. rewrite new_calls_same.
    split; reflexivity. }
  assert (Hcall : Suffix.matches (display_name a) = false ->
                  new_calls w w1
                  = [(UpdateBillingAccount (name a) new_name, is_ok answer)]
                  /\ final = if is_ok answer then new_name else display_name a).
  { intros Ha. subst final w1. unfold display_name_after.
    rewrite tag_billing_account_run, Ha. cbn zeta. fold new_name. fold answer.
    destruct answer as [[] | e]; cbn [snd is_ok];
      rewrite new_calls_printed, new_calls_logged;
      cbn [final_display_name andb]; rewrite ?string_eqb_refl;
      split; reflexivity. }
  assert (Hnoop : Suffix.matches final = true ->
                  tag_billing_account a1 env2 w2 = (Return tt, w2)
                  /\ display_name_after a1 w2 w3 = final).
  { intros Hm.
    assert (Hrun : tag_billing_account a1 env2 w2 = (Return tt, w2)).
    { rewrite tag_billing_account_run. subst a1.
      cbn [display_name with_display_name]. rewrite Hm. reflexivity. }
    split; [exact Hrun|]. subst w3. rewrite Hrun. unfold display_name_after.
    cbn [snd]. rewrite new_calls_same. reflexivity. }
  split; [exact Hearly|]. split; [exact Hcall|]. split.
  - intros Hok.
    assert (Hm : Suffix.matches final = true).
    { destruct (Suffix.matches (display_name a)) eqn:Ha.
      - destruct (Hearly eq_refl) as [_ ->]. exact Ha.
      - destruct Hok as [Hok | Hok]; [discriminate Hok|].
        destruct (Hcall eq_refl) as [_ ->]. rewrite Hok.
        apply tagged_name_matches; assumption. }
    split; [exact Hm | apply Hnoop, Hm].
  - intros Ha Hrefused.
    destruct (Hcall Ha) as [_ Hfinal]. rewrite Hrefused in Hfinal.
    split; [exact Hfinal|].
    subst w3. rewrite tag_billing_account_run. subst a1.
    cbn [display_name with_display_name name]. rewrite Hfinal, Ha. cbn zeta.
    destruct (update_billing_account env2 (calls w2) (name a)
                (display_name a ++ strftime_suffix (now env2 (calls w2))));
      cbn [snd]; rewrite new_calls_printed, new_calls_logged;
      eexists; reflexivity.
Qed.

Lemma tag_billing_account_idempotent_witness :
  let a := Scenario.account "billingAccounts/C" "Other" in
  let w1 := snd (tag_billing_account a Scenario.calm Scenario.fresh_world) in
  valid_datetime (now Scenario.calm (calls Scenario.fresh_world))
  /\ (1000 <= year (now Scenario.calm (calls Scenario.fresh_world)))%N
  /\ display_name_after a Scenario.fresh_world w1 = "Other-202602181530"
  /\ tag_billing_account (Scenario.account "billingAccounts/C" "Other-202602181530")
       Scenario.no_permission Scenario.fresh_world
     = (Return tt, Scenario.fresh_world).
Proof.
  cbn zeta.
  assert (Hclock : valid_datetime (now Scenario.calm (calls Scenario.fresh_world)))
    by (repeat split; apply N.leb_le; reflexivity).
  assert (Hyear : (1000 <= year (now Scenario.calm (calls Scenario.fresh_world)))%N)
    by (apply N.leb_le; reflexivity).
  split; [exact Hclock|]. split; [exact Hyear|]. split; [reflexivity|].
  exact (proj1 (proj2 (proj1 (proj2 (proj2
           (tag_billing_account_idempotent Scenario.calm Scenario.fresh_world
              (Scenario.account "billingAccounts/C" "Other")
              Scenario.no_permission Scenario.fresh_world Hclock Hyear)))
           (or_intror eq_refl)))).
Defined.

(** C8 as stated fails when the first update request is refused.  The
    service refuses the first renaming and accepts the next one: after one
    application the display name is still "Other"; after a second
    application, which sees that name, it is "Other-202602181530". *)
Lemma tag_twice_after_refused_update :
  let a := Scenario.account "billingAccounts/C" "Other" in
  let env := Scenario.rename_refused_once in
  let w1 := snd (tag_billing_account a env Scenario.fresh_world) in
  let once := display_name_after a Scenario.fresh_world w1 in
  let w2 := snd (tag_billing_account (with_display_name a once) env w1) in
  let twice := display_name_after a Scenario.fresh_world w2 in
  new_calls Scenario.fresh_world w1
  = [(UpdateBillingAccount "billingAccounts/C" "Other-202602181530", false)]
  /\ once = "Other"
  /\ new_calls w1 w2
     = [(UpdateBillingAccount "billingAccounts/C" "Other-202602181530", true)]
  /\ twice = "Other-202602181530"
  /\ once <> twice.
Proof.
  cbn zeta. split; [reflexivity|]. split; [reflexivity|]. split; [reflexivity|].
  split; [reflexivity | discriminate].
Qed.

(** A clock reading with a year below 1000 gives a suffix of fewer than
    twelve digits, which the pattern does not match. *)
Example suffix_of_year_below_1000 :
  strftime_suffix {| year := 999; month := 2; day := 18; hour := 15; minute := 30 |}
  = "-99902181530"
  /\ Suffix.matches
       ("Other"
        ++ strftime_suffix
             {| year := 999; month := 2; day := 18; hour := 15; minute := 30 |})
     = false.
Proof. split; reflexivity. Qed.

(** ** The linker *)

Section Linker.

Lemma logged_logged (w : World) (l1 l2 : history) :
  logged (logged w l1) l2 = logged w (l1 ++ l2)%list.
Proof. unfold logged. cbn. rewrite app_assoc. reflexivity. Qed.

Lemma logged_nil (w : World) : logged w [] = w.
Proof. unfold logged. rewrite app_nil_r. destruct w; reflexivity. Qed.

Lemma new_output_printed (w : World) (l : history) (ms : list message) :
  new_output w (printed (logged w l) ms) = ms.
Proof.
  unfold new_output, printed, logged. cbn [stdout].
  rewrite skipn_app, skipn_all, Nat.sub_diag. reflexivity.
Qed.

Lemma new_calls_printed_logged (w : World) (l : history) (ms : list message) :
  new_calls w (printed (logged w l) ms) = l.
Proof. rewrite new_calls_printed. apply new_calls_logged. Qed.

Lemma external_run {A} (c : call) (oracle : Env -> history -> response A) env w :
  external c oracle env w =
  match oracle env (calls w) with
  | Ok a => (Return a, logged w [(c, true)])
  | Err e => (Raised e, logged w [(c, false)])
  end.
Proof. reflexivity. Qed.

Lemma dayone_verify_once_run env w pn acct :
  DayOne.verify_once pn acct env w =
  match get_project_billing_info env (calls w) pn with
  | Ok info =>
      if link_is_active info acct
      then (Return true, printed (logged w [(GetProjectBillingInfo pn, true)])
                           [MsgLinkVerified])
      else (Return false, logged w [(GetProjectBillingInfo pn, true)])
  | Err _ => (Return false, logged w [(GetProjectBillingInfo pn, false)])
  end.
Proof.
  unfold DayOne.verify_once, try_except, bind. rewrite external_run.
  destruct (get_project_billing_info env (calls w) pn) as [info | e].
  - destruct (link_is_active info acct); reflexivity.
  - reflexivity.
Qed.

Lemma daytwo_verify_once_run env w pn acct :
  DayTwo.verify_once pn acct env w =
  match get_project_billing_info env (calls w) pn with
  | Ok info => (Return (link_is_active info acct),
                logged w [(GetProjectBillingInfo pn, true)])
  | Err _ => (Return false, logged w [(GetProjectBillingInfo pn, false)])
  end.
Proof.
  unfold DayTwo.verify_once, try_except, bind. rewrite external_run.
  destruct (get_project_billing_info env (calls w) pn); reflexivity.
Qed.

Lemma sleep_run (seconds : Q) env w :
  sleep seconds env w = (Return tt, logged w [(Sleep seconds, true)]).
Proof. reflexivity. Qed.

Variables (env : Env) (pn acct : string).

(** The day-one loop runs through all its passes when none of its attempts
    confirms the link. *)
Lemma dayone_verification_exhausted (n : nat) :
  forall (i : Z) (w : World),
    dayone_attempts_unconfirmed env pn acct (calls w) n ->
    exists l',
      for_range_from i n tt
        (fun _ _ =>
           confirmed <- DayOne.verify_once pn acct;;
           if confirmed then ret (Break tt)
           else sleep DayOne.wait_seconds;; ret (Continue tt)) env w
      = (Return (Continue tt), logged w l')
      /\ map fst l' = dayone_verification pn n.
Proof.
  induction n as [| n IH]; intros i w Hnc; cbn [for_range_from].
  - exists []. rewrite logged_nil. split; reflexivity.
  - cbn [dayone_attempts_unconfirmed] in Hnc. destruct Hnc as [Hfirst Hrest].
    unfold bind at 1 2. rewrite dayone_verify_once_run.
    assert (Hv : match get_project_billing_info env (calls w) pn with
                 | Ok info =>
                     if link_is_active info acct
                     then (Return true,
                           printed (logged w [(GetProjectBillingInfo pn, true)])
                             [MsgLinkVerified])
                     else (Return false, logged w [(GetProjectBillingInfo pn, true)])
                 | Err _ => (Return false, logged w [(GetProjectBillingInfo pn, false)])
                 end
                 = (Return false,
                    logged w [(GetProjectBillingInfo pn,
                               is_ok (get_project_billing_info env (calls w) pn))])).
    { destruct (get_project_billing_info env (calls w) pn) as [info | e];
        cbn in Hfirst |- *; [rewrite Hfirst|]; reflexivity. }
    rewrite Hv. unfold bind at 1. rewrite sleep_run.
    cbn [ret]. rewrite logged_logged.
    match goal with |- context [logged w ?l1] =>
      destruct (IH (i + 1) (logged w l1)) as (l' & Hrun & Hmap)
    end.
    { exact Hrest. }
    rewrite Hrun, logged_logged. eexists. split; [reflexivity|].
    rewrite map_app, Hmap. reflexivity.
Qed.

(** The day-two loop runs through all its passes; it sleeps after every
    pass but the last. *)
Lemma daytwo_verification_exhausted (n : nat) :
  forall (i : Z) (w : World),
    daytwo_attempts_unconfirmed env pn acct (calls w) i n ->
    exists l',
      for_range_from i n tt
        (fun i _ =>
           confirmed <- DayTwo.verify_once pn acct;;
           if confirmed then print MsgLinkVerified;; ret (Break tt)
           else
             (if i <? Z.of_nat DayTwo.max_retries - 1
              then sleep DayTwo.wait_seconds else ret tt);;
             ret (Continue tt)) env w
      = (Return (Continue tt), logged w l')
      /\ map fst l' = daytwo_verification pn i n.
Proof.
  induction n as [| n IH]; intros i w Hnc; cbn [for_range_from].
  - exists []. rewrite logged_nil. split; reflexivity.
  - cbn [daytwo_attempts_unconfirmed] in Hnc. destruct Hnc as [Hfirst Hrest].
    unfold bind at 1 2. rewrite daytwo_verify_once_run.
    assert (Hv : match get_project_billing_info env (calls w) pn with
                 | Ok info => (Return (link_is_active info acct),
                               logged w [(GetProjectBillingInfo pn, true)])
                 | Err _ => (Return false, logged w [(GetProjectBillingInfo pn, false)])
                 end
                 = (Return false,
                    logged w [(GetProjectBillingInfo pn,
                               is_ok (get_project_billing_info env (calls w) pn))])).
    { destruct (get_project_billing_info env (calls w) pn) as [info | e];
        cbn in Hfirst |- *; [rewrite Hfirst|]; reflexivity. }
    rewrite Hv. unfold bind at 1.
    cbn [daytwo_verification].
    change (i <? 5) with (i <? Z.of_nat DayTwo.max_retries - 1) in Hrest |- *.
    destruct (i <? Z.of_nat DayTwo.max_retries - 1).
    + rewrite sleep_run. cbn [ret]. rewrite logged_logged.
      match goal with |- context [logged w ?l1] =>
        destruct (IH (i + 1) (logged w l1)) as (l' & Hrun & Hmap)
      end.
      { exact Hrest. }
      rewrite Hrun, logged_logged. eexists. split; [reflexivity|].
      rewrite map_app, Hmap. reflexivity.
    + cbn [ret].
      match goal with |- context [logged w ?l1] =>
        destruct (IH (i + 1) (logged w l1)) as (l' & Hrun & Hmap)
      end.
      { exact Hrest. }
      rewrite Hrun, logged_logged. eexists. split; [reflexivity|].
      rewrite map_app, Hmap. reflexivity.
Qed.

End Linker.

Section LinkerRuns.

Lemma printed_printed (w : World) (a b : list message) :
  printed (printed w a) b = printed w (a ++ b)%list.
Proof. unfold printed. cbn. rewrite app_assoc. reflexivity. Qed.

Lemma logged_printed (w : World) (ms : list message) (l : history) :
  logged (printed w ms) l = printed (logged w l) ms.
Proof. reflexivity. Qed.

Lemma print_run (m : message) env w : print m env w = (Return tt, printed w [m]).
Proof. reflexivity. Qed.

(** Day two: after an accepted update, a verification that never confirms
    the link ends in the warning and [True]. *)
Lemma daytwo_link_unverified env w project_id a :
  let pn := project_name_of project_id in
  let update := UpdateProjectBillingInfo pn (name a) in
  update_project_billing_info env (calls w) pn (name a) = Ok tt ->
  daytwo_attempts_unconfirmed env pn (name a) (calls w ++ [(update, true)])%list 0 6 ->
  exists l,
    DayTwo.link_billing_account project_id a env w
    = (Return true, printed (logged w l) [MsgVerifyWarning])
    /\ map fst l = update :: daytwo_verification pn 0 6.
Proof.
  intros pn update Hupd Hnc.
  unfold DayTwo.link_billing_account. fold pn.
  unfold bind at 1. unfold try_except, bind at 1. rewrite external_run.
  fold update. rewrite Hupd. cbn [ret negb].
  unfold bind at 1, for_range.
  destruct (daytwo_verification_exhausted env pn (name a)
              DayTwo.max_retries 0 (logged w [(update, true)]) Hnc)
    as (l' & Hrun & Hmap).
  rewrite Hrun.
  unfold bind. rewrite print_run, logged_logged. cbn [ret].
  eexists. split; [reflexivity|]. cbn [map fst app]. rewrite Hmap. reflexivity.
Qed.

(** Day one: the same situation ends in the warning and a normal return. *)
Lemma dayone_link_unverified env w project_id a :
  let pn := project_name_of project_id in
  let lookup := GetProjectBillingInfo pn in
  let update := UpdateProjectBillingInfo pn (name a) in
  let first := get_project_billing_info env (calls w) pn in
  Str.truthy project_id = true ->
  lets_link_go_on first (name a) ->
  update_project_billing_info env (calls w ++ [(lookup, is_ok first)])%list pn (name a)
    = Ok tt ->
  dayone_attempts_unconfirmed env pn (name a)
    (calls w ++ [(lookup, is_ok first); (update, true)])%list 6 ->
  exists l,
    DayOne.link_project_to_billing project_id a env w
    = (Return tt, printed (logged w l) [MsgLinkRequestSent; MsgVerifyWarning])
    /\ map fst l = lookup :: update :: dayone_verification pn 6.
Proof.
  intros pn lookup update first Hid Hfirst Hupd Hnc.
  unfold DayOne.link_project_to_billing. rewrite Hid. cbn [negb]. fold pn.
  set (w1 := logged w [(lookup, is_ok first)]).
  assert (Hpre :
    try_except
      (current_billing_info <-
         external (GetProjectBillingInfo pn)
           (fun env h => get_project_billing_info env h pn);;
       if String.eqb (billing_account_name current_billing_info) (name a)
       then print MsgAlreadyLinked;; ret true
       else ret false)
      (fun e => match e with NotFound _ => Some (ret false) | _ => None end)
      env w = (Return false, w1)).
  { unfold try_except, bind. rewrite external_run. subst w1. fold first.
    unfold lets_link_go_on in Hfirst.
    destruct first as [info | e]; cbn [is_ok].
    - rewrite Hfirst. reflexivity.
    - destruct e; try contradiction. reflexivity. }
  unfold bind at 1. rewrite Hpre.
  unfold bind at 1. unfold try_except, bind at 1. rewrite external_run.
  subst w1. cbn [logged calls]. fold lookup update. rewrite Hupd.
  unfold bind at 1. rewrite print_run. cbn [ret negb].
  unfold bind at 1, for_range.
  match goal with |- context [for_range_from 0 _ tt _ env ?w0] =>
    destruct (dayone_verification_exhausted env pn (name a) 6 0 w0)
      as (l' & Hrun & Hmap)
  end.
  { cbn [printed logged calls]. rewrite <- app_assoc. exact Hnc. }
  change DayOne.max_retries with 6%nat. rewrite Hrun.
  rewrite print_run.
  eexists ([(lookup, is_ok first); (update, true)] ++ l')%list. split.
  - unfold printed, logged. cbn [calls stdout stdin].
    rewrite <- !app_assoc. reflexivity.
  - cbn [map fst app]. rewrite Hmap. reflexivity.
Qed.

End LinkerRuns.

(** C4. When the update call is accepted and none of the six verification
    attempts confirms the link (each lookup judged at the moment the loop
    makes it; what the service would answer afterwards does not matter),
    day two's [link_billing_account] prints the warning and returns [True],
    and day one's [link_project_to_billing] prints the warning and returns
    normally, so that the statements after the call run: in neither script
    does the exhausted verification make the accepted update a failure. *)
Theorem verification_exhaustion_is_not_failure env w project_id a :
  let pn := project_name_of project_id in
  let lookup := GetProjectBillingInfo pn in
  let update := UpdateProjectBillingInfo pn (name a) in
  let nap := Sleep (10 # 1) in
  let first := get_project_billing_info env (calls w) pn in
  (update_project_billing_info env (calls w) pn (name a) = Ok tt ->
   daytwo_attempts_unconfirmed env pn (name a) (calls w ++ [(update, true)])%list 0 6 ->
   exists l,
     DayTwo.link_billing_account project_id a env w
     = (Return true, printed (logged w l) [MsgVerifyWarning])
     /\ map fst l = [update; lookup; nap; lookup; nap; lookup; nap;
                     lookup; nap; lookup; nap; lookup])
  /\ (Str.truthy project_id = true ->
      lets_link_go_on first (name a) ->
      update_project_billing_info env (calls w ++ [(lookup, is_ok first)])%list pn (name a)
        = Ok tt ->
      dayone_attempts_unconfirmed env pn (name a)
        (calls w ++ [(lookup, is_ok first); (update, true)])%list 6 ->
      exists l,
        let w' := printed (logged w l) [MsgLinkRequestSent; MsgVerifyWarning] in
        DayOne.link_project_to_billing project_id a env w = (Return tt, w')
        /\ map fst l = [lookup; update; lookup; nap; lookup; nap; lookup; nap;
                        lookup; nap; lookup; nap; lookup; nap]
        /\ forall (B : Type) (k : M B),
             (DayOne.link_project_to_billing project_id a;; k) env w = k env w').
Proof.
  intros pn lookup update nap first. split.
  - intros Hupd Hnc.
    destruct (daytwo_link_unverified env w project_id a Hupd Hnc) as (l & Hrun & Hmap).
    exists l. split; [exact Hrun | exact Hmap].
  - intros Hid Hfirst Hupd Hnc.
    destruct (dayone_link_unverified env w project_id a Hid Hfirst Hupd Hnc)
      as (l & Hrun & Hmap).
    exists l. cbn zeta. split; [exact Hrun|]. split; [exact Hmap|].
    intros B k. unfold bind. rewrite Hrun. reflexivity.
Qed.

(** With a service on which the link shows up only at the eighth lookup,
    after the budget of both loops: none of the attempts confirms it, day
    two returns [True] and day one returns normally after the warning. *)
Lemma verification_exhaustion_is_not_failure_witness :
  let a := Scenario.account "billingAccounts/B" "Free trial billing account" in
  let pn := project_name_of "workshop-project" in
  let lookup := GetProjectBillingInfo pn in
  let update := UpdateProjectBillingInfo pn (name a) in
  daytwo_attempts_unconfirmed Scenario.slow_propagation pn (name a)
    [(update, true)] 0 6
  /\ dayone_attempts_unconfirmed Scenario.slow_propagation pn (name a)
       [(lookup, false); (update, true)] 6
  /\ get_project_billing_info Scenario.slow_propagation
       (repeat (lookup, false) 7) pn
     = Ok (Scenario.linked_to "billingAccounts/B")
  /\ fst (DayTwo.link_billing_account "workshop-project" a
            Scenario.slow_propagation Scenario.fresh_world) = Return true
  /\ fst (DayOne.link_project_to_billing "workshop-project" a
            Scenario.slow_propagation Scenario.fresh_world) = Return tt
  /\ new_output Scenario.fresh_world
       (snd (DayOne.link_project_to_billing "workshop-project" a
               Scenario.slow_propagation Scenario.fresh_world))
     = [MsgLinkRequestSent; MsgVerifyWarning].
Proof.
  cbn zeta.
  assert (Htwo_unconfirmed :
    daytwo_attempts_unconfirmed Scenario.slow_propagation
      (project_name_of "workshop-project") "billingAccounts/B"
      [(UpdateProjectBillingInfo (project_name_of "workshop-project")
          "billingAccounts/B", true)] 0 6)
    by (cbn; repeat split).
  assert (Hone_unconfirmed :
    dayone_attempts_unconfirmed Scenario.slow_propagation
      (project_name_of "workshop-project") "billingAccounts/B"
      [(GetProjectBillingInfo (project_name_of "workshop-project"), false);
       (UpdateProjectBillingInfo (project_name_of "workshop-project")
          "billingAccounts/B", true)] 6)
    by (cbn; repeat split).
  split; [exact Htwo_unconfirmed|]. split; [exact Hone_unconfirmed|].
  split; [reflexivity|].
  destruct (verification_exhaustion_is_not_failure Scenario.slow_propagation
              Scenario.fresh_world "workshop-project"
              (Scenario.account "billingAccounts/B" "Free trial billing account"))
    as [Htwo Hone].
  destruct Htwo as (l2 & Hrun2 & _); [reflexivity | exact Htwo_unconfirmed |].
  destruct Hone as (l1 & Hrun1 & _);
    [reflexivity | exact I | reflexivity | exact Hone_unconfirmed |].
  cbn zeta in Hrun1. rewrite Hrun2, Hrun1. cbn [fst snd].
  rewrite new_output_printed. repeat split.
Defined.

(** ** A project that is already linked *)

Section AlreadyLinked.

Variables (env : Env) (project_id : string) (a : BillingAccount)
          (info : ProjectBillingInfo).

Let pn := project_name_of project_id.
Let lookup := GetProjectBillingInfo pn.
Let update := UpdateProjectBillingInfo pn (name a).

Hypothesis reports_info : forall h, get_project_billing_info env h pn = Ok info.
Hypothesis linked_to_target : billing_account_name info = name a.
Hypothesis enabled : billing_enabled info = true.

Lemma dayone_link_already_linked (w : World) :
  Str.truthy project_id = true ->
  DayOne.link_project_to_billing project_id a env w
  = (Return tt, printed (logged w [(lookup, true)]) [MsgAlreadyLinked]).
Proof.
  intros Hid. unfold DayOne.link_project_to_billing. rewrite Hid. cbn [negb].
  fold pn. unfold bind at 1. unfold try_except, bind at 1. rewrite external_run.
  rewrite reports_info, linked_to_target, String.eqb_refl.
  unfold bind. rewrite print_run. reflexivity.
Qed.

Lemma daytwo_link_already_linked (w : World) :
  DayTwo.link_billing_account project_id a env w
  = match update_project_billing_info env (calls w) pn (name a) with
    | Ok _ =>
        (Return true,
         printed (logged w [(update, true); (lookup, true)]) [MsgLinkVerified])
    | Err e =>
        (Return false,
         printed (logged w [(update, false)])
           [match e with
            | PermissionDenied _ => MsgLinkPermissionDenied
            | _ => MsgLinkFailed
            end])
    end.
Proof.
  unfold DayTwo.link_billing_account. fold pn.
  unfold bind at 1. unfold try_except, bind at 1. rewrite external_run.
  fold update.
  destruct (update_project_billing_info env (calls w) pn (name a)) as [[] | e].
  - cbn [ret negb]. unfold bind at 1, for_range.
    change DayTwo.max_retries with 6%nat. cbn [for_range_from].
    unfold bind at 1 2. rewrite daytwo_verify_once_run, reports_info.
    unfold link_is_active. rewrite linked_to_target, String.eqb_refl, enabled.
    cbn [andb]. unfold bind. rewrite print_run. cbn [ret].
    rewrite logged_logged. reflexivity.
  - destruct e; reflexivity.
Qed.

Lemma daytwo_main_already_enabled (w : World) (text : string) :
  project_file env = FileContent text ->
  Str.strip text = project_id ->
  Str.truthy project_id = true ->
  DayTwo.main env w
  = (Return 0, printed (logged w [(lookup, true)]) [MsgBillingAlreadyEnabled]).
Proof.
  intros Hfile Hstrip Hid. subst project_id.
  unfold DayTwo.main, bind at 1.
  rewrite (get_project_id_content _ _ _ Hfile Hid).
  unfold bind at 1. rewrite check_current_billing_run. fold pn.
  rewrite reports_info, enabled. unfold bind. rewrite print_run. reflexivity.
Qed.

End AlreadyLinked.

(** C3, as the code has it.  For a project whose billing info reports the
    target account as linked and billing enabled: day one's
    [link_project_to_billing] prints the success message and returns after
    the single lookup, without an update call.  Day two's
    [link_billing_account] makes no such check: its first call is the update,
    it returns [True] when the update is accepted (the first verification
    then confirms the link) and [False] when it is refused.  In day two the
    no-op is in [main], which returns 0 after the lookup of
    [check_current_billing], without listing accounts or linking. *)
Theorem link_when_already_linked env w project_id a info :
  let pn := project_name_of project_id in
  let lookup := GetProjectBillingInfo pn in
  let update := UpdateProjectBillingInfo pn (name a) in
  (forall h, get_project_billing_info env h pn = Ok info) ->
  billing_account_name info = name a ->
  billing_enabled info = true ->
  Str.truthy project_id = true ->
  DayOne.link_project_to_billing project_id a env w
  = (Return tt, printed (logged w [(lookup, true)]) [MsgAlreadyLinked])
  /\ DayTwo.link_billing_account project_id a env w
     = match update_project_billing_info env (calls w) pn (name a) with
       | Ok _ =>
           (Return true,
            printed (logged w [(update, true); (lookup, true)]) [MsgLinkVerified])
       | Err e =>
           (Return false,
            printed (logged w [(update, false)])
              [match e with
               | PermissionDenied _ => MsgLinkPermissionDenied
               | _ => MsgLinkFailed
               end])
       end
  /\ (forall text,
        project_file env = FileContent text ->
        Str.strip text = project_id ->
        DayTwo.main env w
        = (Return 0, printed (logged w [(lookup, true)]) [MsgBillingAlreadyEnabled])).
Proof.
  intros pn lookup update Hinfo Hname Henabled Hid.
  split; [| split].
  - eapply dayone_link_already_linked; eassumption.
  - eapply daytwo_link_already_linked; eassumption.
  - intros text Hfile Hstrip.
    eapply daytwo_main_already_enabled; eassumption.
Qed.

Lemma link_when_already_linked_witness :
  DayOne.link_project_to_billing "workshop-project"
    (Scenario.account "billingAccounts/B" "Free trial billing account")
    Scenario.already_linked Scenario.fresh_world
  = (Return tt,
     printed (logged Scenario.fresh_world
                [(GetProjectBillingInfo (project_name_of "workshop-project"), true)])
       [MsgAlreadyLinked])
  /\ fst (DayTwo.main Scenario.already_linked Scenario.fresh_world) = Return 0.
Proof.
  destruct (link_when_already_linked Scenario.already_linked Scenario.fresh_world
              "workshop-project"
              (Scenario.account "billingAccounts/B" "Free trial billing account")
              (Scenario.linked_to "billingAccounts/B"))
    as (Hone & _ & Hmain).
  - intros h. reflexivity.
  - reflexivity.
  - reflexivity.
  - reflexivity.
  - split; [exact Hone|].
    rewrite (Hmain "workshop-project" eq_refl eq_refl). reflexivity.
Defined.

(** C3 as stated fails for day two: for a project that is already linked to
    the target account with billing enabled, [link_billing_account] issues
    the update call, and when that call is refused it returns [False]. *)
Lemma daytwo_link_issues_update_call :
  (forall h,
     get_project_billing_info Scenario.already_linked h
       (project_name_of "workshop-project")
     = Ok (Scenario.linked_to "billingAccounts/B"))
  /\ new_calls Scenario.fresh_world
       (snd (DayTwo.link_billing_account "workshop-project"
               (Scenario.account "billingAccounts/B" "Free trial billing account")
               Scenario.already_linked Scenario.fresh_world))
     = [(UpdateProjectBillingInfo (project_name_of "workshop-project")
           "billingAccounts/B", true);
        (GetProjectBillingInfo (project_name_of "workshop-project"), true)]
  /\ DayTwo.link_billing_account "workshop-project"
       (Scenario.account "billingAccounts/B" "Free trial billing account")
       Scenario.already_linked_read_only Scenario.fresh_world
     = (Return false,
        printed (logged Scenario.fresh_world
                   [(UpdateProjectBillingInfo (project_name_of "workshop-project")
                       "billingAccounts/B", false)])
          [MsgLinkPermissionDenied]).
Proof.
  split; [intros h; reflexivity|]. split; reflexivity.
Qed.

(** ** The retry loop after the API was enabled *)

Section Backoff.

Lemma sleeps_app (a b : history) : sleeps (a ++ b)%list = (sleeps a ++ sleeps b)%list.
Proof.
  induction a as [| [c ok] a IH]; [reflexivity|].
  destruct c; cbn; rewrite IH; reflexivity.
Qed.

Lemma listings_app (a b : history) : listings (a ++ b)%list = (listings a + listings b)%nat.
Proof.
  induction a as [| [c ok] a IH]; [reflexivity|].
  destruct c; cbn; rewrite IH; reflexivity.
Qed.

Lemma issued_app (a b : history) : issued (a ++ b)%list = (issued a ++ issued b)%list.
Proof. apply map_app. Qed.

Lemma listing_answers_app (answer_at : history -> listing_result) (a b : history) :
  forall before,
    listing_answers answer_at before (a ++ b)%list
    = (listing_answers answer_at before a
       ++ listing_answers answer_at (before ++ a) b)%list.
Proof.
  induction a as [| [c ok] a IH]; intros before; cbn [app listing_answers].
  - rewrite app_nil_r. reflexivity.
  - rewrite IH, <- app_assoc. cbn [app]. destruct c; reflexivity.
Qed.

Variable env : Env.

Lemma dayone_listing_at_run w :
  DayOne.get_billing_accounts env w
  = (Return (dayone_listing_at env (calls w)),
     logged w [(ListBillingAccounts, is_ok (list_billing_accounts env (calls w)))]).
Proof.
  unfold dayone_listing_at. rewrite !dayone_get_billing_accounts_run.
  cbn [calls world_after].
  destruct (list_billing_accounts env (calls w)); reflexivity.
Qed.

Lemma daytwo_listing_at_run w :
  DayTwo.get_billing_accounts env w
  = (Return (daytwo_listing_at env (calls w)),
     logged w [(ListBillingAccounts, is_ok (list_billing_accounts env (calls w)))]).
Proof.
  unfold daytwo_listing_at. rewrite !daytwo_get_billing_accounts_run.
  cbn [calls world_after].
  destruct (list_billing_accounts env (calls w)); reflexivity.
Qed.

(** Day one's retry loop, for any number of passes: it sleeps and lists
    until a listing answers something else than the sentinel, and its
    result is the answer of its last listing. *)
Lemma dayone_retry_answers (n : nat) :
  forall (i : Z) (r : listing_result) (wait_seconds : Q) (w : World),
  exists k h step,
    (k <= n)%nat
    /\ for_range_from i n (r, wait_seconds)
         (fun i '(_, wait_seconds) =>
            sleep wait_seconds;;
            accounts_result <- DayOne.get_billing_accounts;;
            if negb (result_is accounts_result "API_DISABLED_OR_NO_PERMISSION")
            then ret (Break (accounts_result, wait_seconds))
            else ret (Continue (accounts_result, wait_seconds * (3 # 2))%Q))
         env w
       = (Return step, logged w h)
    /\ issued h = listing_retries (firstn k (dayone_backoff wait_seconds n))
    /\ ((k = 0 /\ n = 0 /\ h = [] /\ step = Continue (r, wait_seconds))%nat
        \/ exists earlier r',
             (0 < k)%nat
             /\ listing_answers (dayone_listing_at env) (calls w) h
                = (earlier ++ [r'])%list
             /\ Forall (fun x => result_is x "API_DISABLED_OR_NO_PERMISSION" = true)
                  earlier
             /\ fst (DayOne.loop_state step) = r'
             /\ match step with
                | Break _ => result_is r' "API_DISABLED_OR_NO_PERMISSION" = false
                | Continue _ =>
                    k = n /\ result_is r' "API_DISABLED_OR_NO_PERMISSION" = true
                end).
Proof.
  induction n as [| n IH]; intros i r wait_seconds w; cbn [for_range_from].
  - exists O, [], (Continue (r, wait_seconds)). rewrite logged_nil.
    split; [lia|]. split; [reflexivity|]. split; [reflexivity|]. left. auto.
  - unfold bind at 1 2. rewrite sleep_run. unfold bind at 1.
    rewrite dayone_listing_at_run, logged_logged.
    cbn [logged calls].
    set (r1 := dayone_listing_at env (calls w ++ [(Sleep wait_seconds, true)])%list).
    set (round := ([(Sleep wait_seconds, true)]
                   ++ [(ListBillingAccounts,
                        is_ok (list_billing_accounts env
                                 (calls w ++ [(Sleep wait_seconds, true)])%list))])%list).
    assert (Hround : listing_answers (dayone_listing_at env) (calls w) round = [r1])
      by reflexivity.
    destruct (result_is r1 "API_DISABLED_OR_NO_PERMISSION") eqn:Hr1; cbn [negb ret].
    + destruct (IH (i + 1) r1 (wait_seconds * (3 # 2))%Q (logged w round))
        as (k & h & step & Hk & Hrun & Hcalls & Hans).
      rewrite Hrun, logged_logged.
      exists (S k), (round ++ h)%list, step.
      split; [lia|]. split; [reflexivity|].
      split; [rewrite issued_app, Hcalls; reflexivity|].
      right. rewrite listing_answers_app, Hround.
      destruct Hans as [(-> & -> & -> & ->) | (earlier & r' & Hpos & Hl & Hall & Hst & Hend)].
      * exists [], r1. split; [lia|]. split; [reflexivity|]. split; [constructor|].
        split; [reflexivity|]. split; [reflexivity | exact Hr1].
      * exists (r1 :: earlier), r'. split; [lia|].
        cbn [logged calls] in Hl. rewrite Hl.
        split; [reflexivity|]. split; [constructor; assumption|].
        split; [exact Hst|].
        destruct step; [destruct Hend as [-> Hend]; split; [reflexivity | exact Hend]
                       | exact Hend].
    + exists 1%nat, round, (Break (r1, wait_seconds)).
      split; [lia|]. split; [reflexivity|]. split; [reflexivity|].
      right. exists [], r1. split; [lia|]. split; [exact Hround|].
      split; [constructor|]. split; [reflexivity | exact Hr1].
Qed.

(** Day two's retry loop. *)
Lemma daytwo_retry_answers (n : nat) :
  forall (i : Z) (r : listing_result) (wait_seconds : Z) (w : World),
  exists k h step,
    (k <= n)%nat
    /\ for_range_from i n (r, wait_seconds)
         (fun i '(_, wait_seconds) =>
            sleep (inject_Z wait_seconds);;
            accounts_result <- DayTwo.get_billing_accounts;;
            if negb (result_is accounts_result "API_DISABLED_OR_PROPAGATING")
            then ret (Break (accounts_result, wait_seconds))
            else ret (Continue
                        (accounts_result,
                         DayTwo.int_of_float (inject_Z wait_seconds * (3 # 2))%Q)))
         env w
       = (Return step, logged w h)
    /\ issued h = listing_retries (firstn k (daytwo_backoff wait_seconds n))
    /\ ((k = 0 /\ n = 0 /\ h = [] /\ step = Continue (r, wait_seconds))%nat
        \/ exists earlier r',
             (0 < k)%nat
             /\ listing_answers (daytwo_listing_at env) (calls w) h
                = (earlier ++ [r'])%list
             /\ Forall (fun x => result_is x "API_DISABLED_OR_PROPAGATING" = true)
                  earlier
             /\ fst (DayTwo.loop_state step) = r'
             /\ match step with
                | Break _ => result_is r' "API_DISABLED_OR_PROPAGATING" = false
                | Continue _ =>
                    k = n /\ result_is r' "API_DISABLED_OR_PROPAGATING" = true
                end).
Proof.
  induction n as [| n IH]; intros i r wait_seconds w; cbn [for_range_from].
  - exists O, [], (Continue (r, wait_seconds)). rewrite logged_nil.
    split; [lia|]. split; [reflexivity|]. split; [reflexivity|]. left. auto.
  - unfold bind at 1 2. rewrite sleep_run. unfold bind at 1.
    rewrite daytwo_listing_at_run, logged_logged.
    cbn [logged calls].
    set (nap := Sleep (inject_Z wait_seconds)).
    set (r1 := daytwo_listing_at env (calls w ++ [(nap, true)])%list).
    set (round := ([(nap, true)]
                   ++ [(ListBillingAccounts,
                        is_ok (list_billing_accounts env
                                 (calls w ++ [(nap, true)])%list))])%list).
    assert (Hround : listing_answers (daytwo_listing_at env) (calls w) round = [r1])
      by reflexivity.
    destruct (result_is r1 "API_DISABLED_OR_PROPAGATING") eqn:Hr1; cbn [negb ret].
    + destruct (IH (i + 1) r1
                  (DayTwo.int_of_float (inject_Z wait_seconds * (3 # 2))%Q)
                  (logged w round))
        as (k & h & step & Hk & Hrun & Hcalls & Hans).
      rewrite Hrun, logged_logged.
      exists (S k), (round ++ h)%list, step.
      split; [lia|]. split; [reflexivity|].
      split; [rewrite issued_app, Hcalls; reflexivity|].
      right. rewrite listing_answers_app, Hround.
      destruct Hans as [(-> & -> & -> & ->) | (earlier & r' & Hpos & Hl & Hall & Hst & Hend)].
      * exists [], r1. split; [lia|]. split; [reflexivity|]. split; [constructor|].
        split; [reflexivity|]. split; [reflexivity | exact Hr1].
      * exists (r1 :: earlier), r'. split; [lia|].
        cbn [logged calls] in Hl. rewrite Hl.
        split; [reflexivity|]. split; [constructor; assumption|].
        split; [exact Hst|].
        destruct step; [destruct Hend as [-> Hend]; split; [reflexivity | exact Hend]
                       | exact Hend].
    + exists 1%nat, round, (Break (r1, wait_seconds)).
      split; [lia|]. split; [reflexivity|]. split; [reflexivity|].
      right. exists [], r1. split; [lia|]. split; [exact Hround|].
      split; [constructor|]. split; [reflexivity | exact Hr1].
Qed.

Lemma dayone_enable_run project_id w :
  DayOne.enable_billing_api project_id env w
  = match gcloud_services_enable env (calls w) project_id with
    | Ok _ => (Return true, logged w [(GcloudServicesEnable project_id, true)])
    | Err e =>
        (match e with
         | FileNotFoundError | CalledProcessError _ => Return false
         | _ => Raised e
         end,
         logged w [(GcloudServicesEnable project_id, false)])
    end.
Proof.
  unfold DayOne.enable_billing_api, try_except, bind. rewrite external_run.
  destruct (gcloud_services_enable env (calls w) project_id) as [[] | e];
    [reflexivity|].
  destruct e; reflexivity.
Qed.

Lemma daytwo_enable_run project_id w :
  DayTwo.enable_billing_api project_id env w
  = match gcloud_services_enable env (calls w) project_id with
    | Ok _ => (Return true, logged w [(GcloudServicesEnable project_id, true)])
    | Err e =>
        (match e with
         | FileNotFoundError | CalledProcessError _ | TimeoutExpired => Return false
         | _ => Raised e
         end,
         logged w [(GcloudServicesEnable project_id, false)])
    end.
Proof.
  unfold DayTwo.enable_billing_api, try_except, bind. rewrite external_run.
  destruct (gcloud_services_enable env (calls w) project_id) as [[] | e];
    [reflexivity|].
  destruct e; reflexivity.
Qed.

End Backoff.

(** C6, as the code has it.  When the request to enable the API is
    accepted, each script lists the accounts again at least once and at most
    5 times, sleeping before each listing, until a listing answers something
    else than the propagating-API sentinel.  The first delay is 15.  In day
    one each further delay is the previous one times 1.5: 15, 22.5, 33.75,
    50.625, 75.9375.  In day two each further delay is the integer part of
    the previous one times 1.5: 15, 22, 33, 49, 73.  When the request to
    enable the API fails, neither script sleeps or lists again. *)
Theorem retry_listing_backoff env w project_id r :
  let enable := GcloudServicesEnable project_id in
  let answer := gcloud_services_enable env (calls w) project_id in
  let enabled := (calls w ++ [(enable, true)])%list in
  (is_ok answer = true ->
   (exists k h earlier r',
      (1 <= k <= 5)%nat
      /\ DayOne.enable_and_retry project_id r env w
         = (Return r', logged w ((enable, true) :: h))
      /\ issued h
         = listing_retries (firstn k [15 # 1; 45 # 2; 135 # 4; 405 # 8; 1215 # 16])
      /\ listing_answers (dayone_listing_at env) enabled h = (earlier ++ [r'])%list
      /\ Forall (fun x => result_is x "API_DISABLED_OR_NO_PERMISSION" = true) earlier
      /\ ((k < 5)%nat -> result_is r' "API_DISABLED_OR_NO_PERMISSION" = false))
   /\ (exists k h earlier r',
         (1 <= k <= 5)%nat
         /\ DayTwo.enable_and_retry project_id r env w
            = DayTwo.after_listing project_id r' env (logged w ((enable, true) :: h))
         /\ issued h
            = listing_retries (firstn k [15 # 1; 22 # 1; 33 # 1; 49 # 1; 73 # 1])
         /\ listing_answers (daytwo_listing_at env) enabled h = (earlier ++ [r'])%list
         /\ Forall (fun x => result_is x "API_DISABLED_OR_PROPAGATING" = true) earlier
         /\ ((k < 5)%nat -> result_is r' "API_DISABLED_OR_PROPAGATING" = false)))
  /\ (is_ok answer = false ->
      new_calls w (snd (DayOne.enable_and_retry project_id r env w)) = [(enable, false)]
      /\ new_calls w (snd (DayTwo.enable_and_retry project_id r env w))
         = [(enable, false)]).
Proof.
  intros enable answer enabled. split.
  - intros Hok. split.
    + unfold DayOne.enable_and_retry, bind at 1. rewrite dayone_enable_run.
      fold answer enable. destruct answer as [[] | e]; [|discriminate Hok].
      unfold bind at 1, DayOne.retry_listing, for_range.
      destruct (dayone_retry_answers env 5 0 r (15 # 1) (logged w [(enable, true)]))
        as (k & h & step & Hk & Hrun & Hcalls & Hans).
      rewrite Hrun, logged_logged. cbn [ret app].
      destruct Hans as [(_ & Hn & _) | (earlier & r' & Hpos & Hl & Hall & Hst & Hend)];
        [discriminate Hn|].
      exists k, h, earlier, r'. rewrite Hst.
      split; [lia|]. split; [reflexivity|]. split; [exact Hcalls|].
      split; [exact Hl|]. split; [exact Hall|].
      intros Hlt. destruct step; [destruct Hend as [-> _]; lia | exact Hend].
    + unfold DayTwo.enable_and_retry, bind at 1. rewrite daytwo_enable_run.
      fold answer enable. destruct answer as [[] | e]; [|discriminate Hok].
      cbn [negb]. unfold bind at 1, DayTwo.retry_listing, for_range.
      destruct (daytwo_retry_answers env 5 0 r 15 (logged w [(enable, true)]))
        as (k & h & step & Hk & Hrun & Hcalls & Hans).
      rewrite Hrun, logged_logged. cbn [app].
      destruct Hans as [(_ & Hn & _) | (earlier & r' & Hpos & Hl & Hall & Hst & Hend)];
        [discriminate Hn|].
      exists k, h, earlier, r'. rewrite Hst.
      split; [lia|]. split; [reflexivity|]. split; [exact Hcalls|].
      split; [exact Hl|]. split; [exact Hall|].
      intros Hlt. destruct step; [destruct Hend as [-> _]; lia | exact Hend].
  - intros Hrefused. split.
    + unfold DayOne.enable_and_retry, bind at 1. rewrite dayone_enable_run.
      fold answer enable. destruct answer as [[] | e]; [discriminate Hrefused|].
      destruct e; cbn [snd ret]; apply new_calls_logged.
    + unfold DayTwo.enable_and_retry, bind at 1. rewrite daytwo_enable_run.
      fold answer enable. destruct answer as [[] | e]; [discriminate Hrefused|].
      destruct e; cbn [snd ret negb]; apply new_calls_logged.
Qed.

(** With an accepted request and a listing that keeps answering that the
    API is disabled, day one makes all five retries, with the delays of the
    claim. *)
Lemma retry_listing_backoff_witness :
  is_ok (gcloud_services_enable Scenario.api_disabled (calls Scenario.fresh_world)
           "workshop-project") = true
  /\ exists k h earlier r',
       (1 <= k <= 5)%nat
       /\ DayOne.enable_and_retry "workshop-project"
            (Sentinel "API_DISABLED_OR_NO_PERMISSION")
            Scenario.api_disabled Scenario.fresh_world
          = (Return r',
             logged Scenario.fresh_world
               ((GcloudServicesEnable "workshop-project", true) :: h))
       /\ issued h
          = listing_retries (firstn k [15 # 1; 45 # 2; 135 # 4; 405 # 8; 1215 # 16])
       /\ listing_answers (dayone_listing_at Scenario.api_disabled)
            (calls Scenario.fresh_world
             ++ [(GcloudServicesEnable "workshop-project", true)])%list h
          = (earlier ++ [r'])%list
       /\ Forall (fun x => result_is x "API_DISABLED_OR_NO_PERMISSION" = true) earlier
       /\ ((k < 5)%nat -> result_is r' "API_DISABLED_OR_NO_PERMISSION" = false).
Proof.
  split; [reflexivity|].
  exact (proj1 (proj1 (retry_listing_backoff Scenario.api_disabled
                         Scenario.fresh_world "workshop-project"
                         (Sentinel "API_DISABLED_OR_NO_PERMISSION")) eq_refl)).
Defined.

(** C6 as stated fails for day two: when every retry finds the API still
    disabled, the delays are 15, 22, 33, 49, 73, and the second one differs
    from 22.5. *)
Lemma daytwo_backoff_is_truncated :
  sleeps (new_calls Scenario.fresh_world
            (snd (DayTwo.retry_listing (Sentinel "API_DISABLED_OR_PROPAGATING")
                    Scenario.api_disabled Scenario.fresh_world)))
  = [15 # 1; 22 # 1; 33 # 1; 49 # 1; 73 # 1]
  /\ ~ Forall2 Qeq [15 # 1; 22 # 1; 33 # 1; 49 # 1; 73 # 1]
                   [15 # 1; 45 # 2; 135 # 4; 405 # 8; 1215 # 16].
Proof.
  split; [reflexivity|].
  intros H. inversion H as [| x y l l' _ Htail]; subst.
  inversion Htail as [| x' y' l2 l2' Hsecond _]; subst.
  vm_compute in Hsecond. discriminate Hsecond.
Qed.

(** ** Outcomes of whole runs *)

Section Always.

Variable env : Env.

Lemma always_ret {A} (a : A) (Q : outcome A -> Prop) :
  Q (Return a) -> always env (ret a) Q.
Proof. intros H w. exact H. Qed.

Lemma always_raise {A} (e : exception) (Q : outcome A -> Prop) :
  Q (Raised e) -> always env (raise e) Q.
Proof. intros H w. exact H. Qed.

Lemma always_sys_exit {A} (c : Z) (Q : outcome A -> Prop) :
  Q (Exited c) -> always env (sys_exit c) Q.
Proof. intros H w. exact H. Qed.

Lemma always_weaken {A} (m : M A) (P Q : outcome A -> Prop) :
  always env m P -> (forall o, P o -> Q o) -> always env m Q.
Proof. intros Hm HPQ w. apply HPQ, Hm. Qed.

Lemma always_bind {A B} (m : M A) (k : A -> M B) (Q : outcome B -> Prop) :
  always env m (fun o =>
    match o with
    | Return a => always env (k a) Q
    | Raised e => Q (Raised e)
    | Exited c => Q (Exited c)
    end) ->
  always env (bind m k) Q.
Proof.
  intros Hm w. specialize (Hm w). unfold bind.
  destruct (m env w) as [[a | e | c] w']; cbn in *; [apply Hm | exact Hm | exact Hm].
Qed.

Lemma always_try_except {A} (m : M A) (handler : exception -> option (M A))
    (Q : outcome A -> Prop) :
  always env m (fun o =>
    match o with
    | Raised e =>
        match handler e with
        | Some h => always env h Q
        | None => Q (Raised e)
        end
    | other => Q other
    end) ->
  always env (try_except m handler) Q.
Proof.
  intros Hm w. specialize (Hm w). unfold try_except.
  destruct (m env w) as [[a | e | c] w']; cbn in *; try exact Hm.
  destruct (handler e); [apply Hm | exact Hm].
Qed.

Lemma always_external {A} (c : call) (oracle : Env -> history -> response A)
    (Q : outcome A -> Prop) :
  (forall h, match oracle env h with
             | Ok a => Q (Return a)
             | Err e => Q (Raised e)
             end) ->
  always env (external c oracle) Q.
Proof.
  intros H w. specialize (H (calls w)). rewrite external_run.
  destruct (oracle env (calls w)); exact H.
Qed.

Lemma always_of_response {A} (r : response A) (Q : outcome A -> Prop) :
  match r with Ok a => Q (Return a) | Err e => Q (Raised e) end ->
  always env (of_response r) Q.
Proof. intros H w. destruct r; exact H. Qed.

Lemma always_print (m : message) (Q : outcome unit -> Prop) :
  Q (Return tt) -> always env (print m) Q.
Proof. intros H w. exact H. Qed.

Lemma always_sleep (seconds : Q) (P : outcome unit -> Prop) :
  P (Return tt) -> always env (sleep seconds) P.
Proof. intros H w. exact H. Qed.

Lemma always_item0 {A} (l : list A) (Q : outcome A -> Prop) :
  match l with a :: _ => Q (Return a) | [] => Q (Raised IndexError) end ->
  always env (item0 l) Q.
Proof. intros H w. destruct l; exact H. Qed.

(** A loop that keeps an invariant while it goes on. *)
Lemma always_for_range_from {S} (Inv : S -> Prop)
    (body : Z -> S -> M (loop_step S)) (Q : outcome (loop_step S) -> Prop) :
  (forall i s, Inv s -> always env (body i s) (pass_post Inv Q)) ->
  (forall s, Inv s -> Q (Return (Continue s))) ->
  forall n i s, Inv s -> always env (for_range_from i n s body) Q.
Proof.
  intros Hbody Hdone. induction n as [| n IH]; intros i s Hs; cbn [for_range_from].
  - apply always_ret, Hdone, Hs.
  - apply always_bind. eapply always_weaken; [apply (Hbody i s Hs)|].
    intros [[s' | s'] | e | c]; cbn; intros H; try exact H.
    + apply IH, H.
    + apply always_ret, H.
Qed.

End Always.

Section AlwaysReturns.

Variable env : Env.

Lemma always_bind_returns {A B} (m : M A) (k : A -> M B) (P : A -> Prop)
    (Q : outcome B -> Prop) :
  always env m (returns P) ->
  (forall a, P a -> always env (k a) Q) ->
  always env (bind m k) Q.
Proof.
  intros Hm Hk. apply always_bind. eapply always_weaken; [exact Hm|].
  intros o (a & -> & Ha). apply Hk, Ha.
Qed.

Lemma always_bind_no_exit {A B} (m : M A) (k : A -> M B) :
  always env m does_not_exit ->
  (forall a, always env (k a) does_not_exit) ->
  always env (bind m k) does_not_exit.
Proof.
  intros Hm Hk. apply always_bind. eapply always_weaken; [exact Hm|].
  intros [a | e | c]; cbn; [intros _; apply Hk | trivial | trivial].
Qed.

Lemma always_try_no_exit {A} (m : M A) (handler : exception -> option (M A)) :
  always env m does_not_exit ->
  (forall e h, handler e = Some h -> always env h does_not_exit) ->
  always env (try_except m handler) does_not_exit.
Proof.
  intros Hm Hh. apply always_try_except. eapply always_weaken; [exact Hm|].
  intros [a | e | c]; cbn; trivial. intros _.
  destruct (handler e) eqn:He; [apply (Hh e), He | exact I].
Qed.

Lemma returns_no_exit {A} (m : M A) (P : A -> Prop) :
  always env m (returns P) -> always env m does_not_exit.
Proof.
  intros Hm. eapply always_weaken; [exact Hm|]. intros o (a & -> & _). exact I.
Qed.

Lemma always_external_no_exit {A} (c : call)
    (oracle : Env -> history -> response A) :
  always env (external c oracle) does_not_exit.
Proof. apply always_external. intros h. destruct (oracle env h); exact I. Qed.

End AlwaysReturns.

(** One step of a proof by the rules above. *)
Ltac always_step :=
  lazymatch goal with
  | |- always _ (bind _ _) does_not_exit => apply always_bind_no_exit; [| intros ?]
  | |- always _ (try_except _ _) does_not_exit =>
      apply always_try_no_exit; [| intros ? ? ?]
  | |- always _ (external _ _) does_not_exit => apply always_external_no_exit
  | |- always _ (bind _ _) _ => apply always_bind
  | |- always _ (try_except _ _) _ => apply always_try_except
  | |- always _ (external _ _) _ => apply always_external; intros ?
  | |- always _ (ret _) _ => apply always_ret
  | |- always _ (print _) _ => apply always_print
  | |- always _ (sleep _) _ => apply always_sleep
  | |- always _ (raise _) _ => apply always_raise
  | |- always _ (sys_exit _) _ => apply always_sys_exit
  | |- always _ (of_response _) _ => apply always_of_response
  | |- always _ (item0 _) _ => apply always_item0
  | |- always _ (if ?b then _ else _) _ => destruct b eqn:?
  | |- always _ (match ?x with _ => _ end) _ => destruct x eqn:?
  | |- match ?x with _ => _ end => destruct x eqn:?
  end; cbn beta iota.

Ltac always_steps := repeat always_step.

Section Functions.

Variable env : Env.

Lemma get_linked_project_count_returns a :
  always env (get_linked_project_count a) (returns (fun _ => True)).
Proof.
  intros w. rewrite get_linked_project_count_run. eexists. split; [reflexivity | exact I].
Qed.

Lemma tag_billing_account_returns a :
  always env (tag_billing_account a) (returns (fun _ => True)).
Proof.
  intros w. rewrite tag_billing_account_run.
  destruct (Suffix.matches (display_name a)); [eexists; split; [reflexivity | exact I]|].
  cbn zeta.
  destruct (update_billing_account _ _ _ _); eexists; split; reflexivity || exact I.
Qed.

Lemma dayone_get_billing_accounts_returns :
  always env DayOne.get_billing_accounts (returns (fun _ => True)).
Proof.
  intros w. destruct (dayone_get_billing_accounts_total env w) as (r & ok & ->).
  eexists. split; [reflexivity | exact I].
Qed.

Lemma daytwo_get_billing_accounts_returns :
  always env DayTwo.get_billing_accounts (returns (fun _ => True)).
Proof.
  intros w. destruct (daytwo_get_billing_accounts_total env w) as (r & ok & ->).
  eexists. split; [reflexivity | exact I].
Qed.

Lemma daytwo_verify_once_returns pn acct :
  always env (DayTwo.verify_once pn acct) (returns (fun _ => True)).
Proof.
  intros w. rewrite daytwo_verify_once_run.
  destruct (get_project_billing_info _ _ _); eexists; split; reflexivity || exact I.
Qed.

Lemma dayone_verify_once_returns pn acct :
  always env (DayOne.verify_once pn acct) (returns (fun _ => True)).
Proof.
  intros w. rewrite dayone_verify_once_run.
  destruct (get_project_billing_info _ _ _) as [info |];
    [destruct (link_is_active info acct)|]; eexists; split; reflexivity || exact I.
Qed.

(** The verification loop of day two ends normally. *)
Lemma daytwo_verification_returns pn acct :
  always env
    (for_range DayTwo.max_retries tt
       (fun i _ =>
          confirmed <- DayTwo.verify_once pn acct;;
          if confirmed then print MsgLinkVerified;; ret (Break tt)
          else
            (if i <? Z.of_nat DayTwo.max_retries - 1
             then sleep DayTwo.wait_seconds else ret tt);;
            ret (Continue tt)))
    (returns (fun _ => True)).
Proof.
  unfold for_range.
  apply (always_for_range_from env (fun _ => True)); [| | exact I].
  - intros i s _.
    eapply always_bind_returns; [apply daytwo_verify_once_returns|].
    intros [|] _; always_steps; cbn; try exact I.
    all: eexists; split; [reflexivity | exact I].
  - intros s _. eexists. split; [reflexivity | exact I].
Qed.

(** Day two's [link_billing_account] always returns a boolean, and the
    boolean is [True] when the update call is accepted. *)
Lemma daytwo_link_returns project_id a :
  always env (DayTwo.link_billing_account project_id a)
    (returns (fun b => update_always_accepted env -> b = true)).
Proof.
  intros w. unfold DayTwo.link_billing_account.
  unfold bind at 1. unfold try_except, bind at 1. rewrite external_run.
  destruct (update_project_billing_info env (calls w)
              (project_name_of project_id) (name a)) as [[] | e] eqn:Hupd.
  - cbn [ret negb].
    match goal with |- context [bind ?m ?k env ?w1] =>
      assert (Hrest : always env (bind m k) (returns (fun b => b = true)))
    end.
    { eapply always_bind_returns; [apply daytwo_verification_returns|].
      intros [s | s] _; always_steps; eexists; split; reflexivity. }
    match goal with |- context [bind ?m ?k env ?w1] =>
      destruct (Hrest w1) as (b & -> & ->)
    end.
    eexists. split; [reflexivity | trivial].
  - assert (Hfalse : forall m : message,
              returns (fun b => update_always_accepted env -> b = true)
                (fst ((print m;; ret false) env
                        (logged w [(UpdateProjectBillingInfo
                                      (project_name_of project_id) (name a),
                                    false)])))).
    { intros m. eexists. split; [reflexivity|].
      intros Hacc. rewrite Hacc in Hupd. discriminate. }
    destruct e; cbn [negb]; apply Hfalse.
Qed.

End Functions.

(** ** No function but [get_project_id] ends the process *)

Ltac handler_case :=
  match goal with
  | H : ?lhs = Some ?h |- always _ ?h _ =>
      first
        [ injection H as <-
        | match lhs with
          | match ?e with _ => _ end => destruct e; try discriminate H; injection H as <-
          end ]
  end.

Ltac no_exit :=
  repeat first
    [ handler_case
    | progress always_step
    | exact I ].

Section NoExit.
Variable env : Env.

Lemma get_linked_project_count_no_exit a :
  always env (get_linked_project_count a) does_not_exit.
Proof. eapply returns_no_exit, get_linked_project_count_returns. Qed.

Lemma tag_billing_account_no_exit a :
  always env (tag_billing_account a) does_not_exit.
Proof. eapply returns_no_exit, tag_billing_account_returns. Qed.

Lemma daytwo_enable_no_exit project_id :
  always env (DayTwo.enable_billing_api project_id) does_not_exit.
Proof. unfold DayTwo.enable_billing_api. no_exit. Qed.

Lemma dayone_enable_no_exit project_id :
  always env (DayOne.enable_billing_api project_id) does_not_exit.
Proof. unfold DayOne.enable_billing_api. no_exit. Qed.

Lemma for_range_no_exit {S} (n : nat) (s : S) (body : Z -> S -> M (loop_step S)) :
  (forall i s, always env (body i s) does_not_exit) ->
  always env (for_range n s body) does_not_exit.
Proof.
  intros Hbody. unfold for_range.
  apply (always_for_range_from env (fun _ => True)); [| | exact I].
  - intros i s' _. eapply always_weaken; [apply Hbody|].
    intros [[s1 | s1] | e | c]; cbn; trivial.
  - intros s' _. exact I.
Qed.

Lemma collect_unlinked_returns l :
  forall acc, always env (collect_unlinked acc l) (returns (fun _ => True)).
Proof.
  induction l as [| a t IH]; intros acc; cbn [collect_unlinked].
  - apply always_ret. eexists. split; [reflexivity | exact I].
  - eapply always_bind_returns; [apply get_linked_project_count_returns|].
    intros c _. destruct (c =? 0); apply IH.
Qed.

Lemma find_best_billing_account_returns l :
  l <> [] -> always env (find_best_billing_account l) (returns (fun _ => True)).
Proof.
  intros Hl. unfold find_best_billing_account.
  eapply always_bind_returns; [apply collect_unlinked_returns|].
  intros u _. destruct u as [| x u]; cbn [is_empty negb].
  - destruct (collect_tagged [] l) as [| y t] eqn:Ht; cbn [is_empty negb].
    + destruct l; [congruence|]. apply always_ret.
      eexists. split; [reflexivity | exact I].
    + destruct (sort_desc Str.ltb snd (y :: t)) as [| z s] eqn:Hs.
      * apply sort_desc_nil in Hs. discriminate.
      * always_steps. eexists. split; [reflexivity | exact I].
  - destruct (sort_desc bool_lt is_trial (x :: u)) as [| z s] eqn:Hs.
    + apply sort_desc_nil in Hs. discriminate.
    + apply always_ret. eexists. split; [reflexivity | exact I].
Qed.

Lemma find_best_billing_account_no_exit l :
  always env (find_best_billing_account l) does_not_exit.
Proof.
  unfold find_best_billing_account.
  apply always_bind_no_exit; [eapply returns_no_exit, collect_unlinked_returns|].
  intros u. no_exit.
Qed.

Lemma dayone_verify_once_no_exit pn acct :
  always env (DayOne.verify_once pn acct) does_not_exit.
Proof. eapply returns_no_exit, dayone_verify_once_returns. Qed.

Lemma dayone_link_no_exit project_id a :
  always env (DayOne.link_project_to_billing project_id a) does_not_exit.
Proof.
  unfold DayOne.link_project_to_billing.
  destruct (negb (Str.truthy project_id)); [no_exit|].
  apply always_bind_no_exit; [no_exit|]. intros already.
  destruct already; [no_exit|].
  apply always_bind_no_exit; [no_exit|]. intros sent.
  destruct (negb sent); [no_exit|].
  apply always_bind_no_exit.
  - apply for_range_no_exit. intros i s.
    apply always_bind_no_exit; [apply dayone_verify_once_no_exit|].
    intros c. no_exit.
  - intros r. no_exit.
Qed.

Lemma daytwo_link_no_exit project_id a :
  always env (DayTwo.link_billing_account project_id a) does_not_exit.
Proof. eapply returns_no_exit, daytwo_link_returns. Qed.

Lemma int_of_string_no_exit s : always env (int_of_string s) does_not_exit.
Proof. unfold int_of_string. no_exit. Qed.

Lemma item_at_no_exit {A} (l : list A) idx : always env (item_at l idx) does_not_exit.
Proof. unfold item_at. no_exit. Qed.

Lemma input_no_exit : always env input does_not_exit.
Proof. intros w. unfold input. destruct (stdin w); exact I. Qed.

Lemma dayone_manual_fallback_no_exit project_id l :
  always env (DayOne.manual_fallback project_id l) does_not_exit.
Proof.
  unfold DayOne.manual_fallback.
  apply always_try_no_exit; [| intros e h Hh; no_exit].
  apply always_bind_no_exit; [apply input_no_exit|]. intros line.
  destruct (Str.truthy (Str.strip line)); [|no_exit].
  apply always_bind_no_exit; [apply int_of_string_no_exit|]. intros n.
  destruct ((0 <=? n - 1) && (n - 1 <? len l)); [|no_exit].
  apply always_bind_no_exit; [apply item_at_no_exit|]. intros target.
  apply always_bind_no_exit; [apply dayone_link_no_exit|]. intros _.
  apply tag_billing_account_no_exit.
Qed.

Lemma select_index_no_exit n lines :
  does_not_exit (fst (DayTwo.select_index n lines)).
Proof.
  induction lines as [| line rest IH]; cbn [DayTwo.select_index]; [exact I|].
  destruct (negb (Str.truthy (Str.strip line))); [exact IH|].
  destruct (Str.int (Str.strip line)) as [k |]; [|exact IH].
  destruct ((0 <=? k - 1) && (k - 1 <? n)); [exact I | exact IH].
Qed.

Lemma manual_select_no_exit l : always env (DayTwo.manual_select l) does_not_exit.
Proof.
  intros w. unfold DayTwo.manual_select.
  pose proof (select_index_no_exit (len l) (stdin w)) as H.
  destruct (DayTwo.select_index (len l) (stdin w)) as [o rest]. exact H.
Qed.
End NoExit.


(** ** Exit status of day two *)

Section DayTwoStatus.

Variable env : Env.

(** A step that cannot exit, before a continuation whose goal holds of
    every uncaught exception. *)
Lemma always_bind_lenient {A B} (m : M A) (k : A -> M B) (Q : outcome B -> Prop) :
  always env m does_not_exit ->
  (forall e, Q (Raised e)) ->
  (forall a, always env (k a) Q) ->
  always env (bind m k) Q.
Proof.
  intros Hm Hraise Hk. apply always_bind. eapply always_weaken; [exact Hm|].
  intros [a | e | c]; cbn; [intros _; apply Hk | intros _; apply Hraise | tauto].
Qed.

Lemma link_and_tag_returns project_id a :
  always env (DayTwo.link_and_tag project_id a)
    (returns (fun r => (r = Some 0 \/ r = None)
                       /\ (update_always_accepted env -> r = Some 0))).
Proof.
  unfold DayTwo.link_and_tag.
  eapply always_bind_returns; [apply daytwo_link_returns|].
  intros [|] Hb.
  - eapply always_bind_returns; [apply tag_billing_account_returns|].
    intros _ _. always_steps. eexists. split; [reflexivity|]. auto.
  - apply always_ret. eexists. split; [reflexivity|].
    split; [auto|]. intros Hacc. discriminate (Hb Hacc).
Qed.

Lemma daytwo_handle_result_code project_id r :
  always env (DayTwo.handle_result project_id r) code_0_or_1.
Proof.
  unfold DayTwo.handle_result. destruct r as [l | s].
  - destruct (is_empty l); [always_steps; right; reflexivity|].
    destruct (is_empty (filter open l)); [always_steps; right; reflexivity|].
    destruct (len (filter open l) =? 1).
    + apply always_bind_lenient; [unfold item0; no_exit | intros e; exact I|].
      intros a. eapply always_bind_returns; [apply link_and_tag_returns|].
      intros r [[-> | ->] _]; apply always_ret; cbn; auto.
    + apply always_bind_lenient;
        [apply find_best_billing_account_no_exit | intros e; exact I|].
      intros a. eapply always_bind_returns; [apply link_and_tag_returns|].
      intros r [[-> | ->] _]; [apply always_ret; cbn; auto|].
      apply always_bind_lenient; [apply manual_select_no_exit | intros e; exact I|].
      intros index.
      apply always_bind_lenient; [apply item_at_no_exit | intros e; exact I|].
      intros a'. eapply always_bind_returns; [apply link_and_tag_returns|].
      intros r [[-> | ->] _]; apply always_ret; cbn; auto.
  - destruct (String.eqb s "API_DISABLED_OR_PROPAGATING");
      [always_steps; right; reflexivity|].
    destruct (String.eqb s "PERMISSION_DENIED"); always_steps; right; reflexivity.
Qed.

Lemma daytwo_await_accounts_returns r :
  always env (DayTwo.await_accounts r) (returns (fun _ => True)).
Proof.
  unfold DayTwo.await_accounts, for_range.
  apply (always_for_range_from env (fun _ => True)); [| | exact I].
  - intros i s _. always_step. always_step.
    eapply always_bind_returns; [apply daytwo_get_billing_accounts_returns|].
    intros r' _. destruct (is_nonempty_list r'); apply always_ret; cbn; [|exact I].
    eexists. split; [reflexivity | exact I].
  - intros s _. eexists. split; [reflexivity | exact I].
Qed.

Lemma daytwo_after_listing_code project_id r :
  always env (DayTwo.after_listing project_id r) code_0_or_1.
Proof.
  unfold DayTwo.after_listing.
  eapply (always_bind_returns env _ _ (fun _ => True)).
  - destruct (is_empty_list r).
    + eapply always_bind_returns; [apply daytwo_await_accounts_returns|].
      intros step _. apply always_ret. eexists. split; [reflexivity | exact I].
    + apply always_ret. eexists. split; [reflexivity | exact I].
  - intros r' _. apply daytwo_handle_result_code.
Qed.

Lemma daytwo_retry_listing_returns r :
  always env (DayTwo.retry_listing r) (returns (fun _ => True)).
Proof.
  intros w. unfold DayTwo.retry_listing, for_range.
  destruct (daytwo_retry_answers env 5 0 r 15 w) as (k & l & step & _ & -> & _).
  eexists. split; [reflexivity | exact I].
Qed.

Lemma daytwo_search_and_link_code project_id :
  always env (DayTwo.search_and_link project_id) code_0_or_1.
Proof.
  unfold DayTwo.search_and_link.
  eapply always_bind_returns; [apply daytwo_get_billing_accounts_returns|].
  intros r _. destruct (result_is r "API_DISABLED_OR_PROPAGATING").
  - unfold DayTwo.enable_and_retry.
    apply always_bind_lenient; [apply daytwo_enable_no_exit | intros e; exact I|].
    intros [|]; cbn [negb]; [|apply always_ret; right; reflexivity].
    eapply always_bind_returns; [apply daytwo_retry_listing_returns|].
    intros step _. apply daytwo_after_listing_code.
  - apply daytwo_after_listing_code.
Qed.

Lemma check_current_billing_returns project_id :
  always env (DayTwo.check_current_billing project_id) (returns (fun _ => True)).
Proof.
  intros w. rewrite check_current_billing_run.
  destruct (get_project_billing_info _ _ _); eexists; split; reflexivity || exact I.
Qed.

Lemma get_project_id_outcome :
  always env DayTwo.get_project_id
    (fun o =>
       match project_file env with
       | FileContent text =>
           if Str.truthy (Str.strip text) then o = Return (Str.strip text)
           else o = Exited 1
       | _ => o = Exited 1
       end).
Proof.
  intros w. unfold DayTwo.get_project_id, bind, try_except, path_exists, read_file.
  destruct (project_file env) as [| e | text] eqn:Hfile;
    cbn -[Str.strip Str.truthy]; rewrite ?Hfile; cbn -[Str.strip Str.truthy];
    [reflexivity | reflexivity |].
  destruct (Str.truthy (Str.strip text)); reflexivity.
Qed.

(** [main] returns 0 or 1, raises, or exits with status 1. *)
Lemma daytwo_main_status w :
  script_status (fst (DayTwo.main env w)) = 0
  \/ script_status (fst (DayTwo.main env w)) = 1.
Proof.
  assert (H : always env DayTwo.main
                (fun o => script_status o = 0 \/ script_status o = 1)).
  { unfold DayTwo.main. apply always_bind.
    eapply always_weaken; [apply get_project_id_outcome|].
    intros o Ho.
    assert (Hcases : o = Exited 1 \/ exists project_id, o = Return project_id).
    { destruct (project_file env) as [| e | text]; auto.
      destruct (Str.truthy (Str.strip text)); eauto. }
    destruct Hcases as [-> | [project_id ->]]; [cbn; auto|].
    eapply always_bind_returns; [apply check_current_billing_returns|].
    intros [is_enabled current] _. destruct is_enabled; [always_steps; auto|].
    eapply always_weaken; [apply daytwo_search_and_link_code|].
    intros [c | e | c]; cbn; tauto. }
  apply H.
Qed.

Lemma daytwo_script_status w :
  exit_status (fst (DayTwo.script env w)) = script_status (fst (DayTwo.main env w)).
Proof.
  unfold DayTwo.script, bind, sys_exit.
  destruct (DayTwo.main env w) as [[c | e | c] w']; reflexivity.
Qed.

End DayTwoStatus.
(** ** Day two without a project id, and on a sentinel *)

Section DayTwoScenarios.

Variable env : Env.

Lemma daytwo_no_project_id :
  no_project_id env -> always env DayTwo.main (fun o => o = Exited 1).
Proof.
  intros Hno. unfold DayTwo.main. apply always_bind.
  eapply always_weaken; [apply get_project_id_outcome|].
  intros o Ho. unfold no_project_id in Hno.
  destruct (project_file env) as [| e | text]; try (subst o; reflexivity).
  rewrite Hno in Ho. subst o. reflexivity.
Qed.

Lemma daytwo_handle_sentinel project_id s :
  always env (DayTwo.handle_result project_id (Sentinel s)) (fun o => o = Return 1).
Proof.
  unfold DayTwo.handle_result.
  destruct (String.eqb s "API_DISABLED_OR_PROPAGATING"); [always_steps; reflexivity|].
  destruct (String.eqb s "PERMISSION_DENIED"); always_steps; reflexivity.
Qed.

End DayTwoScenarios.


(** ** Exit status of day one *)

Section DayOneStatus.

Variable env : Env.

Lemma get_project_id_from_file_outcome :
  always env DayOne.get_project_id_from_file
    (fun o =>
       match project_file env with
       | FileContent text =>
           if Str.truthy (Str.strip text) then o = Return (Some (Str.strip text))
           else o = Return None
       | _ => o = Return None
       end).
Proof.
  intros w.
  unfold DayOne.get_project_id_from_file, bind, try_except, path_exists, read_file.
  destruct (project_file env) as [| e | text] eqn:Hfile;
    cbn -[Str.strip Str.truthy]; rewrite ?Hfile; cbn -[Str.strip Str.truthy];
    [reflexivity | reflexivity |].
  destruct (Str.truthy (Str.strip text)); reflexivity.
Qed.

Lemma dayone_retry_listing_returns r :
  always env (DayOne.retry_listing r) (returns (fun _ => True)).
Proof.
  intros w. unfold DayOne.retry_listing, for_range.
  destruct (dayone_retry_answers env 5 0 r (15 # 1) w) as (k & l & step & _ & -> & _).
  eexists. split; [reflexivity | exact I].
Qed.

Lemma dayone_await_accounts_returns r :
  always env (DayOne.await_accounts r) (returns (fun _ => True)).
Proof.
  unfold DayOne.await_accounts, for_range.
  apply (always_for_range_from env (fun _ => True)); [| | exact I].
  - intros i s _. always_step. always_step.
    eapply always_bind_returns; [apply dayone_get_billing_accounts_returns|].
    intros r' _. destruct (is_nonempty_list r'); apply always_ret; cbn; [|exact I].
    eexists. split; [reflexivity | exact I].
  - intros s _. eexists. split; [reflexivity | exact I].
Qed.

Lemma dayone_handle_result_no_exit project_id r :
  always env (DayOne.handle_result project_id r) does_not_exit.
Proof.
  unfold DayOne.handle_result. destruct r as [l | s]; [|no_exit].
  destruct (is_empty l); [no_exit|].
  destruct (is_empty (filter open l)); [no_exit|].
  destruct (len (filter open l) =? 1).
  - apply always_bind_no_exit; [unfold item0; no_exit|]. intros a.
    apply always_bind_no_exit; [apply dayone_link_no_exit|]. intros _.
    apply tag_billing_account_no_exit.
  - apply always_bind_no_exit; [apply find_best_billing_account_no_exit|]. intros a.
    apply always_bind_no_exit; [apply dayone_link_no_exit|]. intros _.
    apply always_bind_no_exit; [apply tag_billing_account_no_exit|]. intros _.
    apply dayone_manual_fallback_no_exit.
Qed.

Lemma dayone_after_listing_no_exit project_id r :
  always env (DayOne.after_listing project_id r) does_not_exit.
Proof.
  unfold DayOne.after_listing.
  apply always_bind_no_exit; [| intros r'; apply dayone_handle_result_no_exit].
  destruct (is_empty_list r); [|no_exit].
  apply always_bind_no_exit;
    [eapply returns_no_exit, dayone_await_accounts_returns | intros step; no_exit].
Qed.

Lemma dayone_enable_and_retry_no_exit project_id r :
  always env (DayOne.enable_and_retry project_id r) does_not_exit.
Proof.
  unfold DayOne.enable_and_retry.
  apply always_bind_no_exit; [apply dayone_enable_no_exit|].
  intros [|]; [|no_exit].
  apply always_bind_no_exit;
    [eapply returns_no_exit, dayone_retry_listing_returns | intros step; no_exit].
Qed.

(** Day one never calls [sys.exit]. *)
Lemma dayone_main_no_exit : always env DayOne.main does_not_exit.
Proof.
  unfold DayOne.main. apply always_bind.
  eapply always_weaken; [apply get_project_id_from_file_outcome|].
  intros o Ho.
  assert (Hcases : exists p, o = Return p).
  { destruct (project_file env) as [| e | text]; eauto.
    destruct (Str.truthy (Str.strip text)); eauto. }
  destruct Hcases as [[project_id |] ->]; [|no_exit].
  destruct (negb (Str.truthy project_id)); [no_exit|].
  apply always_bind_no_exit;
    [eapply returns_no_exit, dayone_get_billing_accounts_returns|].
  intros r. apply always_bind_no_exit.
  - destruct (result_is r "API_DISABLED_OR_NO_PERMISSION"); [|no_exit].
    apply dayone_enable_and_retry_no_exit.
  - intros r'. apply dayone_after_listing_no_exit.
Qed.

Lemma dayone_no_project_id :
  no_project_id env -> always env DayOne.main (fun o => o = Return tt).
Proof.
  intros Hno. unfold DayOne.main. apply always_bind.
  eapply always_weaken; [apply get_project_id_from_file_outcome|].
  intros o Ho. unfold no_project_id in Hno.
  assert (Hnone : o = Return None).
  { destruct (project_file env) as [| e | text]; auto. rewrite Hno in Ho. exact Ho. }
  subst o. always_steps. reflexivity.
Qed.

Lemma dayone_handle_sentinel project_id s :
  always env (DayOne.handle_result project_id (Sentinel s)) (fun o => o = Return tt).
Proof.
  unfold DayOne.handle_result.
  destruct (String.eqb s "API_DISABLED_OR_NO_PERMISSION"); always_steps; reflexivity.
Qed.

End DayOneStatus.
(** C7 as stated fails for day one: with the project-id file missing, and
    with the listing refused for lack of permission, the script ends with
    exit status 0. *)
Lemma dayone_unrecoverable_exit_status_0 :
  no_project_id (Scenario.with_file FileMissing Scenario.calm)
  /\ DayOne.main (Scenario.with_file FileMissing Scenario.calm) Scenario.fresh_world
     = (Return tt, printed Scenario.fresh_world [MsgNoProjectId])
  /\ exit_status
       (fst (DayOne.main (Scenario.with_file FileMissing Scenario.calm)
               Scenario.fresh_world)) <> 1
  /\ DayOne.main Scenario.no_permission Scenario.fresh_world
     = (Return tt,
        printed (logged Scenario.fresh_world [(ListBillingAccounts, false)])
          [MsgUnexpectedError])
  /\ exit_status (fst (DayOne.main Scenario.no_permission Scenario.fresh_world)) <> 1.
Proof.
  split; [exact I|]. split; [reflexivity|]. split; [discriminate|].
  split; [reflexivity | discriminate].
Qed.

(* ------------------------------------------------------------------------- *)
(** * Further properties *)

(** ** The account selector: calls, membership, fallback *)

Lemma observe_counts_calls env (l : list BillingAccount) :
  forall w, exists cs h,
    observe_counts l env w = (Return cs, logged w h)
    /\ List.length cs = List.length l
    /\ issued h = project_lookups l.
Proof.
  induction l as [| a t IH]; intros w; cbn [observe_counts].
  - exists [], []. rewrite logged_nil. repeat split.
  - unfold bind at 1. rewrite get_linked_project_count_run.
    match goal with |- context [logged w ?l0] =>
      destruct (IH (logged w l0)) as (cs & h & Hrun & Hlen & Hcalls)
    end.
    unfold bind at 1. rewrite Hrun, logged_logged.
    do 2 eexists. split; [reflexivity|]. split; [cbn; rewrite Hlen; reflexivity|].
    unfold issued in *. cbn [map fst app project_lookups]. rewrite Hcalls. reflexivity.
Qed.

Lemma collect_tagged_empty (l : list BillingAccount) :
  (forall a, In a l -> Suffix.matches (display_name a) = false) ->
  collect_tagged [] l = [].
Proof.
  induction l as [| a t IH]; intros Hno; cbn [collect_tagged]; [reflexivity|].
  pose proof (Hno a (or_introl eq_refl)) as Ha. unfold Suffix.matches in Ha.
  destruct (Suffix.search (display_name a)); [discriminate|].
  apply IH. intros b Hb. apply Hno. right. exact Hb.
Qed.

Lemma find_best_calls env w open_accounts :
  open_accounts <> [] ->
  exists account h,
    find_best_billing_account open_accounts env w = (Return account, logged w h)
    /\ In account open_accounts
    /\ issued h = project_lookups open_accounts.
Proof.
  intros Hne.
  destruct (observe_counts_calls env open_accounts w) as (cs & h & Hobs & Hlen & Hcalls).
  unfold find_best_billing_account, bind at 1.
  rewrite (collect_unlinked_spec env open_accounts [] w cs _ Hobs). cbn [app].
  destruct (zero_linked open_accounts cs) as [| u us] eqn:Hz; cbn [is_empty negb].
  - destruct (collect_tagged [] open_accounts) as [| t ts] eqn:Ht; cbn [is_empty negb].
    + destruct open_accounts as [| a rest]; [congruence|].
      exists a, h. split; [reflexivity|]. split; [left; reflexivity | exact Hcalls].
    + destruct (sort_desc Str.ltb snd (t :: ts)) as [| [a s] rest] eqn:Hs.
      { apply sort_desc_nil in Hs. discriminate. }
      assert (Hhead : hd_error (sort_desc Str.ltb snd (t :: ts)) = Some (a, s))
        by (rewrite Hs; reflexivity).
      destruct (sort_desc_head_max Str.ltb snd ltb_irrefl ltb_asym ltb_negative_trans
                  _ _ Hhead) as [Hmem _].
      rewrite <- Ht in Hmem. apply collect_tagged_In in Hmem.
      exists a, h. split; [reflexivity|]. split; [tauto | exact Hcalls].
  - destruct (sort_desc bool_lt is_trial (u :: us)) as [| a rest] eqn:Hs.
    { apply sort_desc_nil in Hs. discriminate. }
    assert (Hhead : hd_error (sort_desc bool_lt is_trial (u :: us)) = Some a)
      by (rewrite Hs; reflexivity).
    rewrite sort_desc_bool_head in Hhead.
    assert (Hin : In a (zero_linked open_accounts cs)).
    { rewrite Hz. destruct (find is_trial (u :: us)) eqn:Hf.
      - injection Hhead as ->. apply find_some in Hf. tauto.
      - cbn in Hhead. injection Hhead as ->. left. reflexivity. }
    apply zero_linked_In in Hin. apply in_combine_l in Hin.
    exists a, h. split; [reflexivity|]. split; [exact Hin | exact Hcalls].
Qed.

(** X1. For every non-empty list of open accounts, whatever the service
    answers, [find_best_billing_account] returns an account of the list; the
    only calls it makes are one lookup of linked projects per account, in
    the order of the list.  On the empty list it raises [IndexError]
    without any call. *)
Theorem find_best_returns_listed_account env w open_accounts :
  open_accounts <> [] ->
  (exists account h,
     find_best_billing_account open_accounts env w = (Return account, logged w h)
     /\ In account open_accounts
     /\ issued h = project_lookups open_accounts)
  /\ find_best_billing_account [] env w = (Raised IndexError, w).
Proof.
  intros Hne. split; [|reflexivity].
  apply find_best_calls. exact Hne.
Qed.

Lemma find_best_returns_listed_account_witness :
  exists account h,
    find_best_billing_account Scenario.tagged_accounts Scenario.all_linked
      Scenario.fresh_world = (Return account, logged Scenario.fresh_world h)
    /\ In account Scenario.tagged_accounts
    /\ issued h = [ListProjectBillingInfo "billingAccounts/X1";
                   ListProjectBillingInfo "billingAccounts/X2"].
Proof.
  apply (find_best_returns_listed_account Scenario.all_linked Scenario.fresh_world
           Scenario.tagged_accounts).
  discriminate.
Defined.

(** X2. When no open account is observed with a linked project count of zero
    and no display name matches the suffix pattern,
    [find_best_billing_account] returns the first account of the list. *)
Theorem find_best_falls_back_to_first env w first rest cs w' :
  observe_counts (first :: rest) env w = (Return cs, w') ->
  ~ In 0 cs ->
  (forall a, In a (first :: rest) -> Suffix.matches (display_name a) = false) ->
  find_best_billing_account (first :: rest) env w = (Return first, w').
Proof.
  intros Hobs Hzero Hplain.
  unfold find_best_billing_account, bind at 1.
  rewrite (collect_unlinked_spec env _ [] w cs w' Hobs).
  rewrite (zero_linked_empty _ _ Hzero). cbn [app is_empty negb].
  rewrite (collect_tagged_empty _ Hplain). reflexivity.
Qed.

Lemma find_best_falls_back_to_first_witness :
  fst (find_best_billing_account
         [Scenario.account "billingAccounts/A" "Main";
          Scenario.account "billingAccounts/C" "Other"]
         Scenario.all_linked Scenario.fresh_world)
  = Return (Scenario.account "billingAccounts/A" "Main").
Proof.
  rewrite (find_best_falls_back_to_first Scenario.all_linked Scenario.fresh_world
             (Scenario.account "billingAccounts/A" "Main")
             [Scenario.account "billingAccounts/C" "Other"] [1; 1]
             (snd (observe_counts
                     [Scenario.account "billingAccounts/A" "Main";
                      Scenario.account "billingAccounts/C" "Other"]
                     Scenario.all_linked Scenario.fresh_world))).
  - reflexivity.
  - reflexivity.
  - intros [H | [H | []]]; discriminate.
  - intros a [<- | [<- | []]]; reflexivity.
Defined.

(** ** The suffix pattern: what exactly matches *)

Section SuffixCharacterised.

Lemma digits_sound (n : nat) :
  forall s ds rest,
    Suffix.digits n s = Some (ds, rest) ->
    s = ds ++ rest /\ String.length ds = n /\ Suffix.all_digits ds = true.
Proof.
  induction n as [| n IH]; intros s ds rest; cbn [Suffix.digits].
  - intros [= <- <-]. repeat split.
  - destruct s as [| c s]; [discriminate|].
    destruct (Str.is_digit c) eqn:Hc; [|discriminate].
    destruct (Suffix.digits n s) as [[ds' rest']|] eqn:Hd; [|discriminate].
    intros [= <- <-]. destruct (IH _ _ _ Hd) as (-> & Hlen & Hall).
    repeat split.
    + cbn. rewrite Hlen. reflexivity.
    + unfold Suffix.all_digits in *. cbn. rewrite Hc, Hall. reflexivity.
Qed.

Lemma at_end_cases (rest : string) :
  Suffix.at_end rest = true -> rest = "" \/ rest = String "010" "".
Proof.
  destruct rest as [| c [| c' rest]]; cbn; intros H; [auto | | discriminate].
  right. apply Ascii.eqb_eq in H. subst c. reflexivity.
Qed.

Lemma match_here_sound (s t : string) :
  Suffix.match_here s = Some t ->
  Suffix.is_suffix_tag t /\ (s = t \/ s = t ++ String "010" "").
Proof.
  unfold Suffix.match_here. destruct s as [| c s]; [discriminate|].
  destruct (Ascii.eqb c "-") eqn:Hc; [|discriminate].
  apply Ascii.eqb_eq in Hc. subst c.
  destruct (Suffix.digits 12 s) as [[ds rest]|] eqn:Hd; [|discriminate].
  destruct (Suffix.at_end rest) eqn:Hend; [|discriminate].
  intros [= <-]. destruct (digits_sound _ _ _ _ Hd) as (-> & Hlen & Hall).
  split; [exists ds; auto|].
  destruct (at_end_cases _ Hend) as [-> | ->]; [left | right]; cbn.
  - rewrite string_app_empty. reflexivity.
  - reflexivity.
Qed.

Lemma search_sound (s t : string) :
  Suffix.search s = Some t ->
  Suffix.is_suffix_tag t
  /\ exists p, s = p ++ t \/ s = p ++ t ++ String "010" "".
Proof.
  induction s as [| c s IH]; cbn [Suffix.search].
  - cbn. discriminate.
  - destruct (Suffix.match_here (String c s)) as [m |] eqn:Hm.
    + intros [= ->]. destruct (match_here_sound _ _ Hm) as [Htag Hs].
      split; [exact Htag|]. exists "". exact Hs.
    + intros Hs. destruct (IH Hs) as [Htag (p & Hp)].
      split; [exact Htag|]. exists (String c p).
      destruct Hp as [-> | ->]; [left | right]; reflexivity.
Qed.

Lemma match_here_tag_newline (ds : string) :
  String.length ds = 12%nat ->
  Suffix.all_digits ds = true ->
  Suffix.match_here (String "-" ds ++ String "010" "") = Some (String "-" ds).
Proof.
  intros Hlen Hd. unfold Suffix.match_here. cbn [append Ascii.eqb Bool.eqb].
  rewrite (digits_exact 12 ds (String "010" "") Hlen Hd). reflexivity.
Qed.

Lemma match_here_before_tag_newline (c : ascii) (p ds : string) :
  String.length ds = 12%nat ->
  Suffix.match_here (String c (p ++ String "-" ds ++ String "010" "")) = None.
Proof.
  intros Hlen. unfold Suffix.match_here.
  destruct (Ascii.eqb c "-"); [|reflexivity].
  destruct (Suffix.digits 12 (p ++ String "-" ds ++ String "010" ""))
    as [[ds' rest]|] eqn:Hd; [|reflexivity].
  destruct (Suffix.at_end rest) eqn:Hend; [|reflexivity].
  exfalso.
  pose proof (digits_length _ _ _ _ Hd) as Hl.
  apply at_end_length in Hend.
  rewrite string_length_app in Hl. cbn [String.length append] in Hl.
  rewrite string_length_app in Hl. cbn [String.length] in Hl. lia.
Qed.

Lemma search_tag_newline (p ds : string) :
  String.length ds = 12%nat ->
  Suffix.all_digits ds = true ->
  Suffix.search (p ++ String "-" ds ++ String "010" "") = Some (String "-" ds).
Proof.
  intros Hlen Hd. induction p as [| c p IH].
  - cbn [append]. cbn [Suffix.search].
    change (String "-" (ds ++ String "010" ""))
      with (String "-" ds ++ String "010" "").
    rewrite (match_here_tag_newline _ Hlen Hd). reflexivity.
  - cbn [append Suffix.search].
    change (String "-" (ds ++ String "010" ""))
      with (String "-" ds ++ String "010" "").
    rewrite (match_here_before_tag_newline c p ds Hlen). exact IH.
Qed.

End SuffixCharacterised.

(** X3. [SUFFIX_PATTERN.search] finds [t] in a display name exactly when [t]
    is a dash followed by twelve digits and the name ends with [t], or with
    [t] and one final newline (the [$] of the pattern also matches before a
    trailing newline); the match is then unique. *)
Theorem suffix_search_characterised (s t : string) :
  Suffix.search s = Some t
  <-> Suffix.is_suffix_tag t
      /\ exists p, s = p ++ t \/ s = p ++ t ++ String "010" "".
Proof.
  split; [apply search_sound|].
  intros [(ds & -> & Hlen & Hd) (p & [-> | ->])].
  - apply search_ends_with_tag; assumption.
  - apply search_tag_newline; assumption.
Qed.

(** ** The linker: every run follows the fixed polling sequence *)

Section Polling.

Variables (env : Env) (pn acct : string).

Lemma is_prefix_refl {A} (l : list A) : is_prefix l l.
Proof. exists []. rewrite app_nil_r. reflexivity. Qed.

Lemma is_prefix_nil {A} (l : list A) : is_prefix [] l.
Proof. exists l. reflexivity. Qed.

Lemma is_prefix_cons {A} (x : A) (a b : list A) :
  is_prefix a b -> is_prefix (x :: a) (x :: b).
Proof. intros [rest ->]. exists rest. reflexivity. Qed.

Lemma is_prefix_app {A} (p a b : list A) :
  is_prefix a b -> is_prefix (p ++ a)%list (p ++ b)%list.
Proof. intros [rest ->]. exists rest. rewrite app_assoc. reflexivity. Qed.

(** Day two's loop, from any index: the calls are a prefix of the full
    sequence, and the loop ends normally. *)
Lemma daytwo_verification_prefix (n : nat) :
  forall (i : Z) (w : World),
  exists step h ms,
    for_range_from i n tt
      (fun i _ =>
         confirmed <- DayTwo.verify_once pn acct;;
         if confirmed then print MsgLinkVerified;; ret (Break tt)
         else
           (if i <? Z.of_nat DayTwo.max_retries - 1
            then sleep DayTwo.wait_seconds else ret tt);;
           ret (Continue tt)) env w
    = (Return step, printed (logged w h) ms)
    /\ is_prefix (issued h) (daytwo_verification pn i n)
    /\ (ms = [] \/ ms = [MsgLinkVerified]).
Proof.
  induction n as [| n IH]; intros i w; cbn [for_range_from].
  - exists (Continue tt), [], []. unfold printed. rewrite logged_nil, app_nil_r.
    split; [destruct w; reflexivity|]. split; [apply is_prefix_nil | auto].
  - unfold bind in IH |- *. rewrite daytwo_verify_once_run.
    cbn [daytwo_verification].
    change (i <? 5) with (i <? Z.of_nat DayTwo.max_retries - 1).
    destruct (get_project_billing_info env (calls w) pn) as [info | e];
      [destruct (link_is_active info acct)|].
    { rewrite print_run. cbn [ret].
      exists (Break tt). do 2 eexists. split; [reflexivity|]. split; [|auto].
      cbn [issued map fst app]. apply is_prefix_cons, is_prefix_nil. }
    all: destruct (i <? Z.of_nat DayTwo.max_retries - 1);
      [ rewrite sleep_run; cbn [ret]; rewrite logged_logged | cbn [ret] ];
      match goal with |- context [for_range_from ?j _ _ _ _ (logged ?w0 ?l0)] =>
        destruct (IH j (logged w0 l0)) as (step & h & ms & Hrun & Hpre & Hms)
      end;
      rewrite Hrun, logged_logged;
      exists step; eexists; exists ms;
      (split; [reflexivity|]); (split; [|exact Hms]);
      rewrite issued_app; cbn [issued map fst app];
      repeat apply is_prefix_cons; exact Hpre.
Qed.

(** Day one's loop. *)
Lemma dayone_verification_prefix (n : nat) :
  forall (i : Z) (w : World),
  exists step h ms,
    for_range_from i n tt
      (fun _ _ =>
         confirmed <- DayOne.verify_once pn acct;;
         if confirmed then ret (Break tt)
         else sleep DayOne.wait_seconds;; ret (Continue tt)) env w
    = (Return step, printed (logged w h) ms)
    /\ is_prefix (issued h) (dayone_verification pn n)
    /\ (step = Continue tt /\ ms = [] /\ issued h = dayone_verification pn n
        \/ step = Break tt /\ ms = [MsgLinkVerified]).
Proof.
  induction n as [| n IH]; intros i w; cbn [for_range_from].
  - exists (Continue tt), [], []. unfold printed. rewrite logged_nil, app_nil_r.
    split; [destruct w; reflexivity|]. split; [apply is_prefix_nil | auto].
  - unfold bind in IH |- *. rewrite dayone_verify_once_run.
    cbn [dayone_verification].
    destruct (get_project_billing_info env (calls w) pn) as [info | e];
      [destruct (link_is_active info acct)|].
    { cbn [ret].
      exists (Break tt). do 2 eexists. split; [reflexivity|].
      split; [|right; auto].
      cbn [issued map fst app]. apply is_prefix_cons, is_prefix_nil. }
    all: rewrite sleep_run; cbn [ret]; rewrite logged_logged;
      match goal with |- context [for_range_from ?j _ _ _ _ (logged ?w0 ?l0)] =>
        destruct (IH j (logged w0 l0)) as (step & h & ms & Hrun & Hpre & Hend)
      end;
      rewrite Hrun, logged_logged;
      exists step; eexists; exists ms;
      (split; [reflexivity|]);
      rewrite issued_app; cbn [issued map fst app];
      (split; [do 2 apply is_prefix_cons; exact Hpre|]);
      (destruct Hend as [(-> & -> & Hall) | (-> & ->)]; [left | right; auto]);
      repeat split; rewrite Hall; reflexivity.
Qed.

End Polling.

(** X4. Day two, for every answer of the service: [link_billing_account]
    always returns a boolean; its calls begin with the update and form a
    prefix of the fixed sequence "update, then six lookups with a sleep of 10
    between them" (so at most 6 lookups and 50 time units of sleep).  When the
    update is refused the result is [False] and nothing follows the update
    (no verification, no retry); when it is accepted the result is [True]. *)
Theorem daytwo_link_follows_polling_sequence env w project_id a :
  let pn := project_name_of project_id in
  let lookup := GetProjectBillingInfo pn in
  let update := UpdateProjectBillingInfo pn (name a) in
  let nap := Sleep (10 # 1) in
  exists b h ms,
    DayTwo.link_billing_account project_id a env w
    = (Return b, printed (logged w h) ms)
    /\ is_prefix (issued h)
         [update; lookup; nap; lookup; nap; lookup; nap; lookup; nap; lookup; nap;
          lookup]
    /\ hd_error (issued h) = Some update
    /\ (forall e, update_project_billing_info env (calls w) pn (name a) = Err e ->
        b = false /\ issued h = [update])
    /\ (update_project_billing_info env (calls w) pn (name a) = Ok tt -> b = true).
Proof.
  intros pn lookup update nap.
  unfold DayTwo.link_billing_account. fold pn.
  unfold bind at 1. unfold try_except, bind at 1. rewrite external_run. fold update.
  destruct (update_project_billing_info env (calls w) pn (name a)) as [[] | e].
  - cbn [ret negb]. unfold bind at 1, for_range.
    destruct (daytwo_verification_prefix env pn (name a) DayTwo.max_retries 0
                (logged w [(update, true)])) as (step & h & ms & Hrun & Hpre & Hms).
    rewrite Hrun.
    assert (Hshape : is_prefix (issued ([(update, true)] ++ h)%list)
                       [update; lookup; nap; lookup; nap; lookup; nap; lookup; nap;
                        lookup; nap; lookup]).
    { rewrite issued_app. cbn [issued map fst app]. apply is_prefix_cons. exact Hpre. }
    destruct step as [[] | []]; unfold bind; rewrite ?print_run; cbn [ret];
      rewrite ?printed_printed, logged_logged.
    + exists true. do 2 eexists. split; [reflexivity|]. split; [exact Hshape|].
      split; [reflexivity|]. split; [discriminate | reflexivity].
    + exists true. do 2 eexists. split; [reflexivity|]. split; [exact Hshape|].
      split; [reflexivity|]. split; [discriminate | reflexivity].
  - destruct e; exists false, [(update, false)]; eexists;
      (split; [reflexivity|]);
      (split; [apply is_prefix_cons, is_prefix_nil|]);
      (split; [reflexivity|]); (split; [auto | discriminate]).
Qed.

(** The part of day one's [link_project_to_billing] after the first
    lookup let the attempt go on. *)
Lemma dayone_link_after_lookup env w pn a :
  let update := UpdateProjectBillingInfo pn (name a) in
  exists h ms,
    (sent <-
       try_except
         (external (UpdateProjectBillingInfo pn (name a))
            (fun env h => update_project_billing_info env h pn (name a));;
          print MsgLinkRequestSent;;
          ret true)
         (fun e =>
            match e with
            | PermissionDenied _ => Some (print MsgLinkPermissionDenied;; ret false)
            | _ => Some (print MsgLinkFailed;; ret false)
            end);;
     if negb sent then ret tt
     else
       r <- for_range DayOne.max_retries tt
              (fun i _ =>
                 confirmed <- DayOne.verify_once pn (name a);;
                 if confirmed then ret (Break tt)
                 else sleep DayOne.wait_seconds;; ret (Continue tt));;
       match r with
       | Break _ => ret tt
       | Continue _ => print MsgVerifyWarning
       end) env w
    = (Return tt, printed (logged w h) ms)
    /\ is_prefix (issued h) (update :: dayone_verification pn DayOne.max_retries)
    /\ hd_error (issued h) = Some update
    /\ (forall e, update_project_billing_info env (calls w) pn (name a) = Err e ->
        issued h = [update]).
Proof.
  intros update.
  unfold bind at 1. unfold try_except, bind at 1. rewrite external_run. fold update.
  destruct (update_project_billing_info env (calls w) pn (name a)) as [[] | e].
  - unfold bind at 1. rewrite print_run. cbn [ret negb].
    unfold bind at 1, for_range.
    destruct (dayone_verification_prefix env pn (name a) DayOne.max_retries 0
                (printed (logged w [(update, true)]) [MsgLinkRequestSent]))
      as (step & h & ms & Hrun & Hpre & Hend).
    rewrite Hrun.
    assert (Hshape : is_prefix (issued ([(update, true)] ++ h)%list)
                       (update :: dayone_verification pn DayOne.max_retries)).
    { rewrite issued_app. cbn [issued map fst app]. apply is_prefix_cons. exact Hpre. }
    destruct step as [[] | []]; rewrite ?print_run; cbn [ret].
    + exists ([(update, true)] ++ h)%list,
        ([MsgLinkRequestSent] ++ ms ++ [MsgVerifyWarning])%list.
      split.
      { unfold printed, logged. cbn [calls stdout stdin].
        rewrite <- !app_assoc. reflexivity. }
      split; [exact Hshape|]. split; [reflexivity | discriminate].
    + exists ([(update, true)] ++ h)%list, ([MsgLinkRequestSent] ++ ms)%list.
      split.
      { unfold printed, logged. cbn [calls stdout stdin].
        rewrite <- !app_assoc. reflexivity. }
      split; [exact Hshape|]. split; [reflexivity | discriminate].
  - destruct e; exists [(update, false)]; eexists;
      (split; [reflexivity|]);
      (split; [apply is_prefix_cons, is_prefix_nil|]);
      (split; [reflexivity | reflexivity]).
Qed.

(** X5. Day one, for every answer of the service: [link_project_to_billing]
    with an empty project id prints an error and makes no call.  Otherwise
    its calls begin with the lookup and form a prefix of the fixed sequence
    "lookup, update, then six times a lookup and a sleep of 10" (at most 7
    lookups and 60 time units of sleep).  It returns normally, except that an
    exception of the first lookup other than [NotFound] is raised to the
    caller right after that lookup.  When the first lookup names the target
    account, whether or not billing is enabled, it reports success and makes
    no update; when the update is refused nothing follows the update. *)
Theorem dayone_link_follows_polling_sequence env w project_id a :
  let pn := project_name_of project_id in
  let lookup := GetProjectBillingInfo pn in
  let update := UpdateProjectBillingInfo pn (name a) in
  let nap := Sleep (10 # 1) in
  let first := get_project_billing_info env (calls w) pn in
  (Str.truthy project_id = false ->
   DayOne.link_project_to_billing project_id a env w
   = (Return tt, printed w [MsgEmptyProjectId]))
  /\ (Str.truthy project_id = true ->
      exists o h ms,
        DayOne.link_project_to_billing project_id a env w
        = (o, printed (logged w h) ms)
        /\ is_prefix (issued h)
             [lookup; update; lookup; nap; lookup; nap; lookup; nap;
              lookup; nap; lookup; nap; lookup; nap]
        /\ hd_error (issued h) = Some lookup
        /\ (o = Return tt
            \/ exists e, o = Raised e /\ first = Err e
                         /\ (forall m, e <> NotFound m) /\ issued h = [lookup])
        /\ (forall info,
              first = Ok info -> billing_account_name info = name a ->
              o = Return tt /\ issued h = [lookup] /\ ms = [MsgAlreadyLinked])
        /\ (forall e,
              lets_link_go_on first (name a) ->
              update_project_billing_info env (calls w ++ [(lookup, is_ok first)])%list
                pn (name a) = Err e ->
              o = Return tt /\ issued h = [lookup; update])).
Proof.
  intros pn lookup update nap first. split.
  { intros Hid. unfold DayOne.link_project_to_billing. rewrite Hid. reflexivity. }
  intros Hid.
  unfold DayOne.link_project_to_billing. rewrite Hid. cbn [negb]. fold pn.
  unfold bind at 1. unfold try_except at 1, bind at 1. rewrite external_run.
  fold first lookup.
  destruct first as [info | e] eqn:Hfirst; cbn [is_ok].
  - destruct (String.eqb (billing_account_name info) (name a)) eqn:Hname.
    + unfold bind at 1. rewrite print_run. cbn [ret].
      exists (Return tt), [(lookup, true)], [MsgAlreadyLinked].
      split; [reflexivity|]. split; [apply is_prefix_cons, is_prefix_nil|].
      split; [reflexivity|]. split; [left; reflexivity|].
      split; [intros info0 _ _; auto|].
      intros e Hgoes. cbn in Hgoes. congruence.
    + cbn [ret].
      destruct (dayone_link_after_lookup env (logged w [(lookup, true)]) pn a)
        as (h & ms & Hrun & Hpre & Hhd & Hupd).
      rewrite Hrun, logged_logged.
      exists (Return tt). do 2 eexists. split; [reflexivity|].
      rewrite issued_app. cbn [issued map fst app].
      split; [apply is_prefix_cons; exact Hpre|].
      split; [reflexivity|]. split; [left; reflexivity|]. split.
      * intros info0 [= <-] Heq. rewrite Heq, String.eqb_refl in Hname. discriminate.
      * intros e _ He. split; [reflexivity|].
        fold (issued h). rewrite (Hupd e He). reflexivity.
  - destruct e as [m | m | | | | | | | ];
      try (eexists; exists [(lookup, false)], [];
           (split; [unfold printed; cbn; rewrite app_nil_r; reflexivity|]);
           (split; [apply is_prefix_cons, is_prefix_nil|]);
           (split; [reflexivity|]);
           (split; [right; eexists; split; [reflexivity|]; split; [reflexivity|];
                    split; [discriminate | reflexivity]|]);
           (split; [discriminate|]);
           intros e0 Hgoes; cbn in Hgoes; contradiction).
    cbn [ret].
    destruct (dayone_link_after_lookup env (logged w [(lookup, false)]) pn a)
      as (h & ms & Hrun & Hpre & Hhd & Hupd).
    rewrite Hrun, logged_logged.
    exists (Return tt). do 2 eexists. split; [reflexivity|].
    rewrite issued_app. cbn [issued map fst app].
    split; [apply is_prefix_cons; exact Hpre|].
    split; [reflexivity|]. split; [left; reflexivity|]. split; [discriminate|].
    intros e _ He. split; [reflexivity|].
    fold (issued h). rewrite (Hupd e He). reflexivity.
Qed.

Lemma dayone_link_follows_polling_sequence_witness :
  exists o h ms,
    DayOne.link_project_to_billing "workshop-project"
      (Scenario.account "billingAccounts/B" "Free trial billing account")
      Scenario.already_linked Scenario.fresh_world
    = (o, printed (logged Scenario.fresh_world h) ms)
    /\ o = Return tt
    /\ issued h = [GetProjectBillingInfo (project_name_of "workshop-project")]
    /\ ms = [MsgAlreadyLinked].
Proof.
  destruct (proj2 (dayone_link_follows_polling_sequence Scenario.already_linked
                     Scenario.fresh_world "workshop-project"
                     (Scenario.account "billingAccounts/B"
                        "Free trial billing account")) eq_refl)
    as (o & h & ms & Hrun & _ & _ & _ & Hlinked & _).
  exists o, h, ms. split; [exact Hrun|].
  exact (Hlinked (Scenario.linked_to "billingAccounts/B") eq_refl eq_refl).
Defined.
(** ** The two waiting loops of main *)

Section WaitingLoops.

Variable env : Env.

(** Day one's polling loop, for any number of passes: it sleeps and lists
    until a listing answers a non-empty list, and its result is the answer
    of its last listing. *)
Lemma dayone_await_answers (n : nat) :
  forall (i : Z) (r : listing_result) (w : World),
  exists k h step,
    (k <= n)%nat
    /\ for_range_from i n r
         (fun i _ =>
            sleep (20 # 1);;
            accounts_result <- DayOne.get_billing_accounts;;
            if is_nonempty_list accounts_result
            then ret (Break accounts_result)
            else ret (Continue accounts_result))
         env w
       = (Return step, logged w h)
    /\ issued h = empty_listing_polls k
    /\ ((k = 0 /\ n = 0 /\ h = [] /\ step = Continue r)%nat
        \/ exists earlier r',
             (0 < k)%nat
             /\ listing_answers (dayone_listing_at env) (calls w) h
                = (earlier ++ [r'])%list
             /\ Forall (fun x => is_nonempty_list x = false) earlier
             /\ DayOne.loop_state step = r'
             /\ match step with
                | Break _ => is_nonempty_list r' = true
                | Continue _ => k = n /\ is_nonempty_list r' = false
                end).
Proof.
  induction n as [| n IH]; intros i r w; cbn [for_range_from].
  - exists O, [], (Continue r). rewrite logged_nil.
    split; [lia|]. split; [reflexivity|]. split; [reflexivity|]. left. auto.
  - unfold bind at 1 2. rewrite sleep_run. unfold bind at 1.
    rewrite dayone_listing_at_run, logged_logged.
    cbn [logged calls].
    set (r1 := dayone_listing_at env (calls w ++ [(Sleep (20 # 1), true)])%list).
    set (round := ([(Sleep (20 # 1), true)]
                   ++ [(ListBillingAccounts,
                        is_ok (list_billing_accounts env
                                 (calls w ++ [(Sleep (20 # 1), true)])%list))])%list).
    assert (Hround : listing_answers (dayone_listing_at env) (calls w) round = [r1])
      by reflexivity.
    destruct (is_nonempty_list r1) eqn:Hr1; cbn [ret].
    + exists 1%nat, round, (Break r1).
      split; [lia|]. split; [reflexivity|]. split; [reflexivity|].
      right. exists [], r1. split; [lia|]. split; [exact Hround|].
      split; [constructor|]. split; [reflexivity | exact Hr1].
    + destruct (IH (i + 1) r1 (logged w round))
        as (k & h & step & Hk & Hrun & Hcalls & Hans).
      rewrite Hrun, logged_logged.
      exists (S k), (round ++ h)%list, step.
      split; [lia|]. split; [reflexivity|].
      split; [rewrite issued_app, Hcalls; reflexivity|].
      right. rewrite listing_answers_app, Hround.
      destruct Hans as [(-> & -> & -> & ->) | (earlier & r' & Hpos & Hl & Hall & Hst & Hend)].
      * exists [], r1. split; [lia|]. split; [reflexivity|]. split; [constructor|].
        split; [reflexivity|]. split; [reflexivity | exact Hr1].
      * exists (r1 :: earlier), r'. split; [lia|].
        cbn [logged calls] in Hl. rewrite Hl.
        split; [reflexivity|]. split; [constructor; assumption|].
        split; [exact Hst|].
        destruct step; [destruct Hend as [-> Hend]; split; [reflexivity | exact Hend]
                       | exact Hend].
Qed.

(** Day two's polling loop. *)
Lemma daytwo_await_answers (n : nat) :
  forall (i : Z) (r : listing_result) (w : World),
  exists k h step,
    (k <= n)%nat
    /\ for_range_from i n r
         (fun i _ =>
            sleep (20 # 1);;
            accounts_result <- DayTwo.get_billing_accounts;;
            if is_nonempty_list accounts_result
            then ret (Break accounts_result)
            else ret (Continue accounts_result))
         env w
       = (Return step, logged w h)
    /\ issued h = empty_listing_polls k
    /\ ((k = 0 /\ n = 0 /\ h = [] /\ step = Continue r)%nat
        \/ exists earlier r',
             (0 < k)%nat
             /\ listing_answers (daytwo_listing_at env) (calls w) h
                = (earlier ++ [r'])%list
             /\ Forall (fun x => is_nonempty_list x = false) earlier
             /\ DayTwo.loop_state step = r'
             /\ match step with
                | Break _ => is_nonempty_list r' = true
                | Continue _ => k = n /\ is_nonempty_list r' = false
                end).
Proof.
  induction n as [| n IH]; intros i r w; cbn [for_range_from].
  - exists O, [], (Continue r). rewrite logged_nil.
    split; [lia|]. split; [reflexivity|]. split; [reflexivity|]. left. auto.
  - unfold bind at 1 2. rewrite sleep_run. unfold bind at 1.
    rewrite daytwo_listing_at_run, logged_logged.
    cbn [logged calls].
    set (r1 := daytwo_listing_at env (calls w ++ [(Sleep (20 # 1), true)])%list).
    set (round := ([(Sleep (20 # 1), true)]
                   ++ [(ListBillingAccounts,
                        is_ok (list_billing_accounts env
                                 (calls w ++ [(Sleep (20 # 1), true)])%list))])%list).
    assert (Hround : listing_answers (daytwo_listing_at env) (calls w) round = [r1])
      by reflexivity.
    destruct (is_nonempty_list r1) eqn:Hr1; cbn [ret].
    + exists 1%nat, round, (Break r1).
      split; [lia|]. split; [reflexivity|]. split; [reflexivity|].
      right. exists [], r1. split; [lia|]. split; [exact Hround|].
      split; [constructor|]. split; [reflexivity | exact Hr1].
    + destruct (IH (i + 1) r1 (logged w round))
        as (k & h & step & Hk & Hrun & Hcalls & Hans).
      rewrite Hrun, logged_logged.
      exists (S k), (round ++ h)%list, step.
      split; [lia|]. split; [reflexivity|].
      split; [rewrite issued_app, Hcalls; reflexivity|].
      right. rewrite listing_answers_app, Hround.
      destruct Hans as [(-> & -> & -> & ->) | (earlier & r' & Hpos & Hl & Hall & Hst & Hend)].
      * exists [], r1. split; [lia|]. split; [reflexivity|]. split; [constructor|].
        split; [reflexivity|]. split; [reflexivity | exact Hr1].
      * exists (r1 :: earlier), r'. split; [lia|].
        cbn [logged calls] in Hl. rewrite Hl.
        split; [reflexivity|]. split; [constructor; assumption|].
        split; [exact Hst|].
        destruct step; [destruct Hend as [-> Hend]; split; [reflexivity | exact Hend]
                       | exact Hend].
Qed.

End WaitingLoops.

(** X6. The polling for an empty listing, in both scripts and for every
    answer of the service: the loop polls at least once and at most 6 times,
    each poll being a sleep of 20 followed by one listing.  Every listing
    before the last one answered something that is not a non-empty list (an
    empty list or a failure), and the result the loop hands on is the answer
    of its last listing: the loop leaves at the first listing that answers a
    non-empty list, and when all 6 polls are used up the answer of the sixth
    is still not a non-empty list. *)
Theorem await_accounts_polls env w r :
  (exists k h step earlier r',
     (1 <= k <= 6)%nat
     /\ DayOne.await_accounts r env w = (Return step, logged w h)
     /\ issued h = empty_listing_polls k
     /\ listing_answers (dayone_listing_at env) (calls w) h = (earlier ++ [r'])%list
     /\ Forall (fun x => is_nonempty_list x = false) earlier
     /\ DayOne.loop_state step = r'
     /\ match step with
        | Break _ => is_nonempty_list r' = true
        | Continue _ => k = 6%nat /\ is_nonempty_list r' = false
        end)
  /\ (exists k h step earlier r',
        (1 <= k <= 6)%nat
        /\ DayTwo.await_accounts r env w = (Return step, logged w h)
        /\ issued h = empty_listing_polls k
        /\ listing_answers (daytwo_listing_at env) (calls w) h = (earlier ++ [r'])%list
        /\ Forall (fun x => is_nonempty_list x = false) earlier
        /\ DayTwo.loop_state step = r'
        /\ match step with
           | Break _ => is_nonempty_list r' = true
           | Continue _ => k = 6%nat /\ is_nonempty_list r' = false
           end).
Proof.
  split.
  - destruct (dayone_await_answers env 6 0 r w)
      as (k & h & step & Hk & Hrun & Hcalls & Hans).
    destruct Hans as [(_ & Hn & _) | (earlier & r' & Hpos & Hl & Hall & Hst & Hend)];
      [discriminate Hn|].
    exists k, h, step, earlier, r'. split; [lia|]. auto 10.
  - destruct (daytwo_await_answers env 6 0 r w)
      as (k & h & step & Hk & Hrun & Hcalls & Hans).
    destruct Hans as [(_ & Hn & _) | (earlier & r' & Hpos & Hl & Hall & Hst & Hend)];
      [discriminate Hn|].
    exists k, h, step, earlier, r'. split; [lia|]. auto 10.
Qed.

(** X7. The retry loop after the API was enabled, in both scripts and for
    every answer of the service: every sleep is followed at once by one
    listing.  Every listing before the last one answered the
    propagating-API sentinel, and the result the loop hands on is the answer
    of its last listing: the loop leaves at the first listing that answers
    something else than the sentinel, and when all 5 retries are used up the
    answer of the fifth is still the sentinel. *)
Theorem retry_listing_outcome env w r :
  (exists k h step earlier r',
     (1 <= k <= 5)%nat
     /\ DayOne.retry_listing r env w = (Return step, logged w h)
     /\ issued h
        = listing_retries (firstn k [15 # 1; 45 # 2; 135 # 4; 405 # 8; 1215 # 16])
     /\ listing_answers (dayone_listing_at env) (calls w) h = (earlier ++ [r'])%list
     /\ Forall (fun x => result_is x "API_DISABLED_OR_NO_PERMISSION" = true) earlier
     /\ fst (DayOne.loop_state step) = r'
     /\ match step with
        | Break _ => result_is r' "API_DISABLED_OR_NO_PERMISSION" = false
        | Continue _ =>
            k = 5%nat /\ result_is r' "API_DISABLED_OR_NO_PERMISSION" = true
        end)
  /\ (exists k h step earlier r',
        (1 <= k <= 5)%nat
        /\ DayTwo.retry_listing r env w = (Return step, logged w h)
        /\ issued h
           = listing_retries (firstn k [15 # 1; 22 # 1; 33 # 1; 49 # 1; 73 # 1])
        /\ listing_answers (daytwo_listing_at env) (calls w) h = (earlier ++ [r'])%list
        /\ Forall (fun x => result_is x "API_DISABLED_OR_PROPAGATING" = true) earlier
        /\ fst (DayTwo.loop_state step) = r'
        /\ match step with
           | Break _ => result_is r' "API_DISABLED_OR_PROPAGATING" = false
           | Continue _ =>
               k = 5%nat /\ result_is r' "API_DISABLED_OR_PROPAGATING" = true
           end).
Proof.
  split.
  - destruct (dayone_retry_answers env 5 0 r (15 # 1) w)
      as (k & h & step & Hk & Hrun & Hcalls & Hans).
    destruct Hans as [(_ & Hn & _) | (earlier & r' & Hpos & Hl & Hall & Hst & Hend)];
      [discriminate Hn|].
    exists k, h, step, earlier, r'. split; [lia|]. auto 10.
  - destruct (daytwo_retry_answers env 5 0 r 15 w)
      as (k & h & step & Hk & Hrun & Hcalls & Hans).
    destruct Hans as [(_ & Hn & _) | (earlier & r' & Hpos & Hl & Hall & Hst & Hend)];
      [discriminate Hn|].
    exists k, h, step, earlier, r'. split; [lia|]. auto 10.
Qed.
(** ** The manual prompts *)

Lemma chosen_index_in_range (n_accounts : Z) (line : string) (index : Z) :
  chosen_index n_accounts line = Some index -> 0 <= index < n_accounts.
Proof.
  unfold chosen_index.
  destruct (Str.truthy (Str.strip line)); [|discriminate].
  destruct (Str.int (Str.strip line)) as [n |]; [|discriminate].
  destruct ((0 <=? n - 1) && (n - 1 <? n_accounts)) eqn:Hrange; [|discriminate].
  intros [= <-]. apply andb_true_iff in Hrange. lia.
Qed.

Lemma item_at_in_range {A} (l : list A) (index : Z) env w :
  0 <= index < len l ->
  exists a, nth_error l (Z.to_nat index) = Some a
            /\ In a l /\ item_at l index env w = (Return a, w).
Proof.
  intros Hrange. unfold item_at, len in *.
  destruct (nth_error l (Z.to_nat index)) as [a |] eqn:Hnth.
  - exists a. split; [reflexivity|]. split; [|reflexivity].
    eapply nth_error_In; exact Hnth.
  - apply nth_error_None in Hnth. lia.
Qed.

Lemma select_index_first_valid (n_accounts : Z) (lines : list string) :
  (exists skipped line rest index,
      lines = (skipped ++ line :: rest)%list
      /\ Forall (fun l => chosen_index n_accounts l = None) skipped
      /\ chosen_index n_accounts line = Some index
      /\ DayTwo.select_index n_accounts lines = (Return index, rest))
  \/ (Forall (fun l => chosen_index n_accounts l = None) lines
      /\ DayTwo.select_index n_accounts lines = (Raised EOFError, [])).
Proof.
  induction lines as [| line lines IH].
  - right. split; [constructor | reflexivity].
  - cbn [DayTwo.select_index].
    destruct (chosen_index n_accounts line) as [index |] eqn:Hline.
    + left. exists [], line, lines, index.
      split; [reflexivity|]. split; [constructor|]. split; [exact Hline|].
      unfold chosen_index in Hline.
      destruct (Str.truthy (Str.strip line)); [|discriminate]. cbn [negb].
      destruct (Str.int (Str.strip line)) as [n |]; [|discriminate].
      destruct ((0 <=? n - 1) && (n - 1 <? n_accounts)); [|discriminate].
      injection Hline as <-. reflexivity.
    + assert (Hskip : (if negb (Str.truthy (Str.strip line))
                       then DayTwo.select_index n_accounts lines
                       else match Str.int (Str.strip line) with
                            | Some n =>
                                if (0 <=? n - 1) && (n - 1 <? n_accounts)
                                then (Return (n - 1), lines)
                                else DayTwo.select_index n_accounts lines
                            | None => DayTwo.select_index n_accounts lines
                            end)
                      = DayTwo.select_index n_accounts lines).
      { unfold chosen_index in Hline.
        destruct (Str.truthy (Str.strip line)); [|reflexivity]. cbn [negb].
        destruct (Str.int (Str.strip line)) as [n |]; [|reflexivity].
        destruct ((0 <=? n - 1) && (n - 1 <? n_accounts)); [discriminate | reflexivity]. }
      rewrite Hskip.
      destruct IH as [(skipped & l & rest & index & -> & Hskipped & Hl & Hrun)
                     | [Hall Hrun]].
      * left. exists (line :: skipped), l, rest, index.
        split; [reflexivity|]. split; [constructor; assumption|].
        split; assumption.
      * right. split; [constructor; assumption | exact Hrun].
Qed.

(** X8. The prompt of the day-two script after a failed automatic link, for
    any console input: lines are read up to the first one that, stripped,
    is a number between 1 and the number of open accounts; the lines before
    it are dropped, the lines after it stay unread, and the account at that
    position exists, so the selection that follows cannot fail.  When no
    line qualifies, the prompt ends with [EOFError] after reading every
    line.  No external call is made. *)
Theorem manual_select_first_valid_line env w (open_accounts : list BillingAccount) :
  let n := len open_accounts in
  let end_state := DayTwo.manual_select open_accounts env w in
  calls (snd end_state) = calls w
  /\ ((exists skipped line index account,
          stdin w = (skipped ++ line :: stdin (snd end_state))%list
          /\ Forall (fun l => chosen_index n l = None) skipped
          /\ chosen_index n line = Some index
          /\ fst end_state = Return index
          /\ In account open_accounts
          /\ item_at open_accounts index env (snd end_state)
             = (Return account, snd end_state))
      \/ (Forall (fun l => chosen_index n l = None) (stdin w)
          /\ fst end_state = Raised EOFError
          /\ stdin (snd end_state) = [])).
Proof.
  cbn zeta. unfold DayTwo.manual_select.
  destruct (select_index_first_valid (len open_accounts) (stdin w))
    as [(skipped & line & rest & index & Hlines & Hskipped & Hline & Hrun)
       | [Hall Hrun]];
    rewrite Hrun; cbn [fst snd calls stdin]; (split; [reflexivity|]).
  - left.
    destruct (item_at_in_range open_accounts index env
                {| calls := calls w; stdout := stdout w; stdin := rest |}
                (chosen_index_in_range _ _ _ Hline))
      as (account & _ & Hin & Hitem).
    exists skipped, line, index, account. auto 10.
  - right. auto.
Qed.

Lemma manual_fallback_ignores (project_id : string)
    (open_accounts : list BillingAccount) env w line rest :
  stdin w = line :: rest ->
  chosen_index (len open_accounts) line = None ->
  DayOne.manual_fallback project_id open_accounts env w
  = (Return tt, {| calls := calls w; stdout := stdout w; stdin := rest |}).
Proof.
  intros Hin Hline.
  unfold DayOne.manual_fallback, try_except, bind at 1, input.
  rewrite Hin.
  cbn beta iota zeta. unfold chosen_index in Hline.
  destruct (Str.truthy (Str.strip line)); [|reflexivity].
  unfold bind at 1, int_of_string.
  destruct (Str.int (Str.strip line)) as [n |]; [|reflexivity].
  unfold ret at 1. cbn beta iota.
  destruct ((0 <=? n - 1) && (n - 1 <? len open_accounts)); [discriminate|].
  reflexivity.
Qed.

Lemma manual_fallback_no_input (project_id : string)
    (open_accounts : list BillingAccount) env w :
  stdin w = [] ->
  DayOne.manual_fallback project_id open_accounts env w = (Return tt, w).
Proof.
  intros Hin.
  unfold DayOne.manual_fallback, try_except, bind at 1, input. rewrite Hin.
  reflexivity.
Qed.

(** X9. The manual override offered by the day-one script reads at most one
    console line.  When there is no line, or when the line, stripped, is
    not a number between 1 and the number of open accounts (blank, not a
    number, out of range), the override does nothing: it returns without
    any external call, so the automatic selection stands. *)
Theorem manual_fallback_keeps_automatic_choice env w project_id
    (open_accounts : list BillingAccount) :
  (forall line, hd_error (stdin w) = Some line ->
                chosen_index (len open_accounts) line = None) ->
  let end_state := DayOne.manual_fallback project_id open_accounts env w in
  fst end_state = Return tt
  /\ calls (snd end_state) = calls w
  /\ stdin (snd end_state) = tl (stdin w).
Proof.
  intros Hline. cbn zeta.
  destruct (stdin w) as [| line rest] eqn:Hin.
  - rewrite (manual_fallback_no_input project_id open_accounts env w Hin).
    cbn. auto.
  - rewrite (manual_fallback_ignores project_id open_accounts env w line rest Hin
               (Hline line eq_refl)).
    cbn. auto.
Qed.

Lemma manual_fallback_keeps_automatic_choice_witness :
  (forall line,
      hd_error (stdin {| calls := []; stdout := []; stdin := ["7"; "1"] |}) = Some line ->
      chosen_index (len Scenario.three_accounts) line = None)
  /\ fst (DayOne.manual_fallback "workshop-project" Scenario.three_accounts
            Scenario.calm {| calls := []; stdout := []; stdin := ["7"; "1"] |})
     = Return tt.
Proof.
  assert (H : forall line,
             hd_error (stdin {| calls := []; stdout := []; stdin := ["7"; "1"] |})
             = Some line ->
             chosen_index (len Scenario.three_accounts) line = None).
  { intros line [= <-]. reflexivity. }
  split; [exact H|].
  apply (manual_fallback_keeps_automatic_choice Scenario.calm
           {| calls := []; stdout := []; stdin := ["7"; "1"] |}
           "workshop-project" Scenario.three_accounts H).
Defined.
(** ** A refused link and the renaming of the account *)

Section RefusedLink.

Variables (env : Env) (project_id : string) (a : BillingAccount).

Let pn := project_name_of project_id.
Let lookup := GetProjectBillingInfo pn.
Let update := UpdateProjectBillingInfo pn (name a).

Hypothesis refused :
  forall h, is_ok (update_project_billing_info env h pn (name a)) = false.

Lemma daytwo_link_refused w :
  exists m,
    DayTwo.link_billing_account project_id a env w
    = (Return false, printed (logged w [(update, false)]) [m]).
Proof.
  unfold DayTwo.link_billing_account. cbn zeta. fold pn.
  unfold bind at 1. unfold try_except, bind at 1. rewrite external_run.
  fold update. pose proof (refused (calls w)) as Hr.
  destruct (update_project_billing_info env (calls w) pn (name a)) as [[] | e];
    [discriminate Hr|].
  destruct e as [m | | | | | | | |]; cbn; eexists; reflexivity.
Qed.

Lemma dayone_link_refused w :
  Str.truthy project_id = true ->
  lets_link_go_on (get_project_billing_info env (calls w) pn) (name a) ->
  exists ok m,
    DayOne.link_project_to_billing project_id a env w
    = (Return tt, printed (logged w [(lookup, ok); (update, false)]) [m]).
Proof.
  intros Hid Hfirst.
  unfold DayOne.link_project_to_billing. rewrite Hid. cbn [negb]. cbn zeta.
  fold pn. unfold bind at 1. unfold try_except at 1, bind at 1.
  rewrite external_run. fold lookup.
  assert (Hupdate : forall w0,
             exists m,
               (sent <-
                  try_except
                    (external (UpdateProjectBillingInfo pn (name a))
                       (fun env h => update_project_billing_info env h pn (name a));;
                     print MsgLinkRequestSent;;
                     ret true)
                    (fun e =>
                       match e with
                       | PermissionDenied _ =>
                           Some (print MsgLinkPermissionDenied;; ret false)
                       | _ => Some (print MsgLinkFailed;; ret false)
                       end);;
                if negb sent then ret tt
                else
                  r <- for_range DayOne.max_retries tt
                         (fun i _ =>
                            confirmed <- DayOne.verify_once pn (name a);;
                            if confirmed then ret (Break tt)
                            else sleep DayOne.wait_seconds;; ret (Continue tt));;
                  match r with
                  | Break _ => ret tt
                  | Continue _ => print MsgVerifyWarning
                  end) env w0
               = (Return tt, printed (logged w0 [(update, false)]) [m])).
  { intros w0. unfold bind at 1. unfold try_except, bind at 1.
    rewrite external_run. fold update. pose proof (refused (calls w0)) as Hr.
    destruct (update_project_billing_info env (calls w0) pn (name a))
      as [[] | e]; [discriminate Hr|].
    destruct e as [m | | | | | | | |]; cbn; eexists; reflexivity. }
  destruct (get_project_billing_info env (calls w) pn) as [info | e];
    cbn in Hfirst.
  - rewrite Hfirst. cbn [ret].
    destruct (Hupdate (logged w [(lookup, true)])) as [m Hrun].
    rewrite Hrun, logged_logged. exists true, m. reflexivity.
  - destruct e as [m0 | m0 | | | | | | |]; try contradiction.
    cbn [ret].
    destruct (Hupdate (logged w [(lookup, false)])) as [m Hrun].
    rewrite Hrun, logged_logged. exists false, m. reflexivity.
Qed.

Variable l : list BillingAccount.
Hypothesis only_open : filter open l = [a].

Lemma single_open_account : is_empty l = false.
Proof. clear -only_open. destruct l; [discriminate | reflexivity]. Qed.

Lemma dayone_single_refused w :
  Suffix.matches (display_name a) = false ->
  Str.truthy project_id = true ->
  lets_link_go_on (get_project_billing_info env (calls w) pn) (name a) ->
  exists ok ok' ms,
    DayOne.handle_result project_id (Accounts l) env w
    = (Return tt,
       printed
         (logged w
            [(lookup, ok); (update, false);
             (UpdateBillingAccount (name a)
                (display_name a
                 ++ strftime_suffix
                      (now env (calls w ++ [(lookup, ok); (update, false)])%list)),
              ok')])
         ms).
Proof.
  intros Htag Hid Hfirst.
  unfold DayOne.handle_result. rewrite single_open_account, only_open.
  cbn [is_empty len length Z.of_nat Pos.of_succ_nat Z.eqb Pos.eqb item0].
  unfold bind at 1, ret at 1. unfold bind at 1.
  destruct (dayone_link_refused w Hid Hfirst) as (ok & m & Hlink).
  rewrite Hlink. unfold DayOne.tag_billing_account.
  rewrite tag_billing_account_run, Htag. cbn zeta.
  exists ok.
  match goal with |- context [update_billing_account ?e ?h ?n ?d] =>
    destruct (update_billing_account e h n d)
  end; do 2 eexists; unfold printed, logged; cbn [calls stdout stdin];
    rewrite <- !app_assoc; reflexivity.
Qed.

Lemma daytwo_single_refused w :
  exists m,
    DayTwo.handle_result project_id (Accounts l) env w
    = (Return 1, printed (logged w [(update, false)]) [m]).
Proof.
  unfold DayTwo.handle_result. rewrite single_open_account, only_open.
  cbn [is_empty len length Z.of_nat Pos.of_succ_nat Z.eqb Pos.eqb item0].
  unfold bind at 1, ret at 1. unfold bind at 1.
  unfold DayTwo.link_and_tag, bind at 1.
  destruct (daytwo_link_refused w) as (m & Hlink).
  rewrite Hlink. cbn [ret]. exists m. reflexivity.
Qed.

End RefusedLink.

(** X10. The listing holds exactly one open account, its display name
    carries no date suffix yet, and the service refuses every attempt to
    link the project to it.  The day-one script renames the account all the
    same: after the lookup and the refused update it asks for the display
    name with the date suffix appended, and ends normally.  The day-two
    script stops after the refused update, asks for no renaming, and
    returns 1. *)
Theorem refused_link_and_renaming env w project_id l a :
  let pn := project_name_of project_id in
  filter open l = [a] ->
  Suffix.matches (display_name a) = false ->
  Str.truthy project_id = true ->
  lets_link_go_on (get_project_billing_info env (calls w) pn) (name a) ->
  (forall h, is_ok (update_project_billing_info env h pn (name a)) = false) ->
  (exists h new_name,
      fst (DayOne.handle_result project_id (Accounts l) env w) = Return tt
      /\ calls (snd (DayOne.handle_result project_id (Accounts l) env w))
         = (calls w ++ h)%list
      /\ issued h = [GetProjectBillingInfo pn;
                     UpdateProjectBillingInfo pn (name a);
                     UpdateBillingAccount (name a) new_name]
      /\ new_name
         = display_name a ++ strftime_suffix (now env (calls w ++ firstn 2 h)%list))
  /\ fst (DayTwo.handle_result project_id (Accounts l) env w) = Return 1
  /\ issued (new_calls w (snd (DayTwo.handle_result project_id (Accounts l) env w)))
     = [UpdateProjectBillingInfo pn (name a)].
Proof.
  intros pn Hopen Htag Hid Hfirst Hrefused.
  split.
  - destruct (dayone_single_refused env project_id a Hrefused l Hopen w Htag Hid Hfirst)
      as (ok & ok' & ms & Hrun).
    rewrite Hrun. do 2 eexists. cbn [fst snd printed logged calls].
    split; [reflexivity|]. split; [reflexivity|]. split; reflexivity.
  - destruct (daytwo_single_refused env project_id a Hrefused l Hopen w) as (m & Hrun).
    rewrite Hrun. cbn [fst snd]. split; [reflexivity|].
    rewrite new_calls_printed_logged. reflexivity.
Qed.

Lemma refused_link_and_renaming_witness :
  let env := Scenario.with_update (fun _ _ _ => Err (PermissionDenied "denied"))
               Scenario.calm in
  let a := Scenario.account "billingAccounts/C" "Other" in
  filter open [a] = [a]
  /\ Suffix.matches (display_name a) = false
  /\ lets_link_go_on
       (get_project_billing_info env (calls Scenario.fresh_world)
          (project_name_of "workshop-project")) (name a)
  /\ fst (DayTwo.handle_result "workshop-project" (Accounts [a]) env
            Scenario.fresh_world) = Return 1.
Proof.
  cbn zeta. split; [reflexivity|]. split; [reflexivity|]. split; [exact I|].
  exact (proj1 (proj2
           (refused_link_and_renaming
              (Scenario.with_update (fun _ _ _ => Err (PermissionDenied "denied"))
                 Scenario.calm)
              Scenario.fresh_world "workshop-project"
              [Scenario.account "billingAccounts/C" "Other"]
              (Scenario.account "billingAccounts/C" "Other")
              eq_refl eq_refl eq_refl I (fun _ => eq_refl)))).
Defined.
(** ** The project id *)

Lemma lstrip_spec (s : string) :
  exists l, s = l ++ Str.lstrip s
            /\ all_space l = true
            /\ first_is_space (Str.lstrip s) = false.
Proof.
  induction s as [| c t IH].
  - exists "". auto.
  - cbn [Str.lstrip]. destruct (Str.is_space c) eqn:Hc.
    + destruct IH as (l & Ht & Hl & Hfirst).
      exists (String c l). cbn [append all_space]. rewrite <- Ht, Hc, Hl. auto.
    + exists "". cbn [append all_space first_is_space]. auto.
Qed.

Lemma rstrip_spec (s : string) :
  exists r, s = Str.rstrip s ++ r
            /\ all_space r = true
            /\ last_is_space (Str.rstrip s) = false.
Proof.
  induction s as [| c t IH].
  - exists "". auto.
  - destruct IH as (r & Ht & Hr & Hlast). cbn [Str.rstrip].
    destruct (Str.rstrip t) as [| c' t'] eqn:Hstrip.
    + cbn [append] in Ht. subst r.
      destruct (Str.is_space c) eqn:Hc.
      * exists (String c t). cbn [append all_space]. rewrite Hc, Hr. auto.
      * exists t. cbn [append last_is_space]. auto.
    + exists r. cbn [append] in *. rewrite <- Ht.
      split; [reflexivity|]. split; [exact Hr|].
      cbn [last_is_space] in *. exact Hlast.
Qed.

Lemma rstrip_keeps_first (s : string) :
  first_is_space s = false -> first_is_space (Str.rstrip s) = false.
Proof.
  destruct s as [| c t]; [reflexivity|]. cbn [first_is_space Str.rstrip].
  intros Hc. destruct (Str.rstrip t); [rewrite Hc|]; exact Hc.
Qed.

Lemma strip_spec (s : string) :
  exists l r, s = l ++ Str.strip s ++ r
              /\ all_space l = true /\ all_space r = true
              /\ first_is_space (Str.strip s) = false
              /\ last_is_space (Str.strip s) = false.
Proof.
  unfold Str.strip.
  destruct (lstrip_spec s) as (l & Hs & Hl & Hfirst).
  destruct (rstrip_spec (Str.lstrip s)) as (r & Hm & Hr & Hlast).
  exists l, r. rewrite <- Hm.
  repeat split; auto using rstrip_keeps_first.
Qed.

(** X11. The project id both scripts work with.  When the project file can
    be read, the id is the file's text without the whitespace at its two
    ends: it neither begins nor ends with whitespace.  When this id is not
    empty, day one's resolver returns it and day two's returns the same id;
    in every other case (file missing, unreadable, blank) day one's
    resolver returns [None] and day two's exits with status 1.  Neither
    makes an external call. *)
Theorem project_id_is_stripped_file_text env w :
  let one := DayOne.get_project_id_from_file env w in
  let two := DayTwo.get_project_id env w in
  calls (snd one) = calls w /\ calls (snd two) = calls w
  /\ match project_file env with
     | FileContent text =>
         exists spaces_before project_id spaces_after,
           text = spaces_before ++ project_id ++ spaces_after
           /\ all_space spaces_before = true /\ all_space spaces_after = true
           /\ first_is_space project_id = false
           /\ last_is_space project_id = false
           /\ if Str.truthy project_id
              then fst one = Return (Some project_id) /\ fst two = Return project_id
              else fst one = Return None /\ fst two = Exited 1
     | _ => fst one = Return None /\ fst two = Exited 1
     end.
Proof.
  cbn zeta.
  unfold DayOne.get_project_id_from_file, DayTwo.get_project_id,
    try_except, bind, path_exists, read_file.
  destruct (project_file env) as [| e | text] eqn:Hfile;
    cbn -[Str.strip Str.truthy]; rewrite ?Hfile; cbn -[Str.strip Str.truthy];
    [auto | auto |].
  destruct (strip_spec text) as (l & r & Htext & Hl & Hr & Hfirst & Hlast).
  destruct (Str.truthy (Str.strip text)) eqn:Hid; cbn -[Str.strip Str.truthy];
    (split; [reflexivity|]); (split; [reflexivity|]);
    exists l, (Str.strip text), r; rewrite Hid; auto 10.
Qed.
(** ** The calls of a whole run *)

Lemma listed_extends env (h h' : history) (a : BillingAccount) :
  listed env h a -> listed env (h ++ h')%list a.
Proof.
  intros (before & after & p & l & -> & Hp & Hl & Hin).
  exists before, (after ++ h')%list, p, l.
  rewrite <- app_assoc. auto.
Qed.

Lemma stable_usable env a : stable (usable env a).
Proof. intros h h' [Hl Ho]. split; [apply listed_extends; exact Hl | exact Ho]. Qed.

Lemma stable_all_usable env l : stable (all_usable env l).
Proof. intros h h' H a Ha. apply stable_usable, H, Ha. Qed.

Lemma stable_from_listing env r : stable (from_listing env r).
Proof.
  destruct r as [l | s]; intros h h' H; [|exact I].
  intros a Ha. apply listed_extends, H, Ha.
Qed.

Lemma stable_pure (P : Prop) : stable (fun _ => P).
Proof. intros h h' H. exact H. Qed.

Lemma stable_and (F G : history -> Prop) :
  stable F -> stable G -> stable (fun h => F h /\ G h).
Proof. intros HF HG h h' [H1 H2]. split; [apply HF | apply HG]; assumption. Qed.

Create HintDb stable.
#[export] Hint Resolve stable_usable stable_all_usable stable_from_listing
  stable_pure stable_and : stable.

Section Confinement.

Variables (env : Env) (project_id : string).

Lemma safe_call_extends (h h' : history) (c : call) :
  safe_call env project_id h c -> safe_call env project_id (h ++ h')%list c.
Proof.
  destruct c; cbn [safe_call]; try tauto.
  - intros (a & Ha & Hn). exists a. split; [apply stable_usable; exact Ha | exact Hn].
  - intros [Hp (a & Ha & Hn)]. split; [exact Hp|].
    exists a. split; [apply stable_usable; exact Ha | exact Hn].
  - intros (a & Ha & Hrest). exists a.
    split; [apply stable_usable; exact Ha | exact Hrest].
Qed.

Lemma safe_history_nil : safe_history env project_id [].
Proof. intros before c ok after H. destruct before; discriminate H. Qed.

Lemma safe_history_snoc (h : history) (c : call) (ok : bool) :
  safe_history env project_id h ->
  safe_call env project_id h c ->
  safe_history env project_id (h ++ [(c, ok)])%list.
Proof.
  intros Hh Hc before c' ok' after Heq.
  destruct (exists_last (l := (c', ok') :: after)) as (after' & last & Hlast);
    [discriminate|].
  rewrite Hlast, app_assoc in Heq. apply app_inj_tail in Heq.
  destruct Heq as [Heq Hx].
  destruct after' as [| x after''].
  - cbn in Hlast. injection Hlast as <- ->. rewrite app_nil_r in Heq. subst h.
    injection Hx as <- _. exact Hc.
  - cbn in Hlast. injection Hlast as <- _.
    apply (Hh before c' ok' after''). exact Heq.
Qed.

Lemma safe_history_app (h' : history) :
  forall h,
    safe_history env project_id h ->
    (forall c, In c (issued h') -> safe_call env project_id h c) ->
    safe_history env project_id (h ++ h')%list.
Proof.
  induction h' as [| [c ok] t IH]; intros h Hh Hcalls.
  - rewrite app_nil_r. exact Hh.
  - change ((c, ok) :: t) with ([(c, ok)] ++ t)%list. rewrite app_assoc.
    apply IH.
    + apply safe_history_snoc; [exact Hh|]. apply Hcalls. left. reflexivity.
    + intros c' Hc'. apply safe_call_extends, Hcalls. right. exact Hc'.
Qed.

(** *** Rules *)

Lemma keeps_weaken {A} (F F' : history -> Prop) (m : M A) (Q Q' : A -> history -> Prop) :
  keeps env project_id F m Q ->
  (forall h, F' h -> F h) ->
  (forall a h, Q a h -> Q' a h) ->
  keeps env project_id F' m Q'.
Proof.
  intros Hm HF HQ w Hs Hw.
  destruct (Hm w Hs (HF _ Hw)) as (h & Hc & Hs' & Hq).
  exists h. auto.
Qed.

Lemma keeps_given {A} (F F' : history -> Prop) (m : M A) (Q : A -> history -> Prop) :
  (forall h, F' h -> F h) ->
  keeps env project_id F m Q ->
  keeps env project_id F' m Q.
Proof. intros HF Hm. apply (keeps_weaken F F' m Q Q Hm HF). auto. Qed.

Lemma keeps_silent {A} (F : history -> Prop) (m : M A) (Q : A -> history -> Prop) :
  (forall w, calls (snd (m env w)) = calls w) ->
  (forall w a, F (calls w) -> fst (m env w) = Return a -> Q a (calls w)) ->
  keeps env project_id F m Q.
Proof.
  intros Hc Hq w Hs Hw. exists []. rewrite app_nil_r.
  split; [apply Hc|]. split; [exact Hs|]. intros a Ha. apply (Hq w a Hw Ha).
Qed.

Lemma keeps_ret {A} (F : history -> Prop) (a : A) (Q : A -> history -> Prop) :
  (forall h, F h -> Q a h) -> keeps env project_id F (ret a) Q.
Proof.
  intros Hq. apply keeps_silent; [reflexivity|].
  intros w a' Hw [= <-]. apply Hq, Hw.
Qed.

Lemma keeps_halt {A} (F : history -> Prop) (m : M A) (Q : A -> history -> Prop) :
  (forall w, calls (snd (m env w)) = calls w) ->
  (forall w a, fst (m env w) <> Return a) ->
  keeps env project_id F m Q.
Proof.
  intros Hc Hne. apply keeps_silent; [exact Hc|].
  intros w a _ Ha. destruct (Hne w a Ha).
Qed.

Lemma keeps_print (F : history -> Prop) (m : message) :
  keeps env project_id F (print m) (fun _ _ => True).
Proof. apply keeps_silent; [reflexivity | auto]. Qed.

Lemma keeps_bind {A B} (F : history -> Prop) (m : M A) (k : A -> M B)
    (Q1 : A -> history -> Prop) (Q2 : B -> history -> Prop) :
  stable F ->
  keeps env project_id F m Q1 ->
  (forall a, keeps env project_id (fun h => F h /\ Q1 a h) (k a) Q2) ->
  keeps env project_id F (bind m k) Q2.
Proof.
  intros HF Hm Hk w Hs Hw.
  destruct (Hm w Hs Hw) as (h1 & Hc1 & Hs1 & Hq1).
  unfold bind. destruct (m env w) as [[a | e | c] w1]; cbn [fst snd] in *.
  - destruct (Hk a w1) as (h2 & Hc2 & Hs2 & Hq2).
    + rewrite Hc1. exact Hs1.
    + rewrite Hc1. split; [apply HF, Hw | apply Hq1; reflexivity].
    + exists (h1 ++ h2)%list. rewrite app_assoc, <- Hc1. auto.
  - exists h1. split; [exact Hc1|]. split; [exact Hs1|]. discriminate.
  - exists h1. split; [exact Hc1|]. split; [exact Hs1|]. discriminate.
Qed.

Lemma keeps_seq {A B} (F : history -> Prop) (m : M A) (k : A -> M B)
    (Q1 : A -> history -> Prop) (Q2 : B -> history -> Prop) :
  stable F ->
  keeps env project_id F m Q1 ->
  (forall a, keeps env project_id F (k a) Q2) ->
  keeps env project_id F (bind m k) Q2.
Proof.
  intros HF Hm Hk. apply (keeps_bind F m k Q1 Q2 HF Hm).
  intros a. eapply keeps_weaken; [apply Hk | tauto | auto].
Qed.

Lemma keeps_bind_pure {A B} (F : history -> Prop) (m : M A) (k : A -> M B)
    (P : A -> Prop) (Q2 : B -> history -> Prop) :
  stable F ->
  keeps env project_id F m (fun a _ => P a) ->
  (forall a, P a -> keeps env project_id F (k a) Q2) ->
  keeps env project_id F (bind m k) Q2.
Proof.
  intros HF Hm Hk. apply (keeps_bind F m k (fun a _ => P a) Q2 HF Hm).
  intros a w Hs [Hw Hp]. apply (Hk a Hp w Hs Hw).
Qed.

Lemma keeps_try {A} (F : history -> Prop) (m : M A)
    (handler : exception -> option (M A)) (Q : A -> history -> Prop) :
  stable F ->
  keeps env project_id F m Q ->
  (forall e m', handler e = Some m' -> keeps env project_id F m' Q) ->
  keeps env project_id F (try_except m handler) Q.
Proof.
  intros HF Hm Hh w Hs Hw.
  destruct (Hm w Hs Hw) as (h1 & Hc1 & Hs1 & Hq1).
  unfold try_except. destruct (m env w) as [[a | e | c] w1]; cbn [fst snd] in *.
  - exists h1. auto.
  - destruct (handler e) as [m' |] eqn:He.
    + destruct (Hh e m' He w1) as (h2 & Hc2 & Hs2 & Hq2).
      * rewrite Hc1. exact Hs1.
      * rewrite Hc1. apply HF, Hw.
      * exists (h1 ++ h2)%list. rewrite app_assoc, <- Hc1. auto.
    + exists h1. split; [exact Hc1|]. split; [exact Hs1|]. discriminate.
  - exists h1. split; [exact Hc1|]. split; [exact Hs1|]. discriminate.
Qed.

Lemma keeps_external {A} (F : history -> Prop) (c : call)
    (oracle : Env -> history -> response A) :
  (forall h, F h -> safe_call env project_id h c) ->
  keeps env project_id F (external c oracle) (fun _ _ => True).
Proof.
  intros Hc w Hs Hw. rewrite external_run.
  destruct (oracle env (calls w)); eexists; cbn [fst snd logged calls];
    (split; [reflexivity|]); (split; [|auto]);
    apply safe_history_snoc; auto.
Qed.

Lemma keeps_sleep (F : history -> Prop) (seconds : Q) :
  keeps env project_id F (sleep seconds) (fun _ _ => True).
Proof. apply keeps_external. intros h _. exact I. Qed.

Lemma keeps_for_range {S} (Inv : S -> history -> Prop)
    (body : Z -> S -> M (loop_step S)) (n : nat) :
  (forall i s,
      keeps env project_id (Inv s) (body i s)
        (fun step h => match step with Continue s' | Break s' => Inv s' h end)) ->
  forall i s,
    keeps env project_id (Inv s) (for_range_from i n s body)
      (fun step h => match step with Continue s' | Break s' => Inv s' h end).
Proof.
  intros Hbody. induction n as [| n IH]; intros i s; cbn [for_range_from].
  - apply keeps_ret. auto.
  - intros w Hs Hw.
    destruct (Hbody i s w Hs Hw) as (h1 & Hc1 & Hs1 & Hq1).
    unfold bind. destruct (body i s env w) as [[step | e | c] w1]; cbn [fst snd] in *.
    + specialize (Hq1 step eq_refl). destruct step as [s' | s'].
      * destruct (IH (i + 1) s' w1) as (h2 & Hc2 & Hs2 & Hq2).
        -- rewrite Hc1. exact Hs1.
        -- rewrite Hc1. exact Hq1.
        -- exists (h1 ++ h2)%list. rewrite app_assoc, <- Hc1. auto.
      * exists h1. split; [exact Hc1|]. split; [exact Hs1|].
        intros a [= <-]. exact Hq1.
    + exists h1. split; [exact Hc1|]. split; [exact Hs1|]. discriminate.
    + exists h1. split; [exact Hc1|]. split; [exact Hs1|]. discriminate.
Qed.

End Confinement.
Ltac keeps_handler :=
  match goal with
  | H : ?lhs = Some ?m |- keeps _ _ _ ?m _ =>
      first
        [ injection H as <-
        | match lhs with
          | match ?e with _ => _ end => destruct e; try discriminate H; injection H as <-
          end ]
  end.

Ltac keeps_step :=
  lazymatch goal with
  | |- keeps _ _ _ (bind _ _) _ =>
      eapply keeps_seq; [solve [auto with stable] | | intros ?]
  | |- keeps _ _ _ (try_except _ _) _ =>
      apply keeps_try; [solve [auto with stable] | | intros ? ? ?]
  | |- keeps _ _ _ (ret _) _ =>
      first [apply keeps_ret; solve [auto]
            | apply (keeps_ret _ _ _ _ (fun _ _ => True)); solve [auto]]
  | |- keeps _ _ _ (print _) _ =>
      first [apply keeps_print
            | eapply keeps_weaken; [apply keeps_print | auto | solve [auto]]]
  | |- keeps _ _ _ (sleep _) _ =>
      first [apply keeps_sleep
            | eapply keeps_weaken; [apply keeps_sleep | auto | solve [auto]]]
  | |- keeps _ _ _ (if ?b then _ else _) _ => destruct b eqn:?
  end.

Ltac keeps_steps := repeat first [keeps_handler | keeps_step].

Section ConfinedFunctions.

Variables (env : Env) (project_id : string).
Variable F : history -> Prop.
Hypothesis F_stable : stable F.

Lemma tag_billing_account_keeps (a : BillingAccount) :
  (forall h, F h -> usable env a h) ->
  keeps env project_id F (tag_billing_account a) (fun _ _ => True).
Proof.
  intros Ha. unfold tag_billing_account.
  destruct (Suffix.matches (display_name a)) eqn:Hm; [keeps_steps|].
  eapply keeps_seq; [exact F_stable | | intros d].
  { apply (keeps_silent env project_id F datetime_now (fun _ _ => True));
      [reflexivity | auto]. }
  cbn zeta. keeps_steps.
  apply keeps_external. intros h Hh. exists a.
  split; [apply Ha, Hh|]. split; [reflexivity|]. split; [exact Hm|].
  exists d. reflexivity.
Qed.

Lemma find_best_billing_account_keeps (l : list BillingAccount) :
  (forall h, F h -> all_usable env l h) ->
  keeps env project_id F (find_best_billing_account l) (fun a _ => In a l).
Proof.
  intros Hl w Hs Hw. destruct l as [| a0 t].
  - exists []. rewrite app_nil_r. split; [reflexivity|]. split; [exact Hs|].
    discriminate.
  - destruct (find_best_calls env w (a0 :: t)) as (account & h & Hrun & Hin & Hcalls);
      [discriminate|].
    rewrite Hrun. exists h. cbn [fst snd logged calls].
    split; [reflexivity|]. split.
    + apply safe_history_app; [exact Hs|]. intros c Hc.
      rewrite Hcalls in Hc. unfold project_lookups in Hc.
      apply in_map_iff in Hc. destruct Hc as (a & <- & Ha).
      exists a. split; [apply (Hl _ Hw), Ha | reflexivity].
    + intros a [= <-]. exact Hin.
Qed.

Lemma dayone_get_billing_accounts_keeps :
  keeps env project_id F DayOne.get_billing_accounts (fun r h => from_listing env r h).
Proof.
  intros w Hs Hw. rewrite dayone_get_billing_accounts_run.
  destruct (list_billing_accounts env (calls w)) as [p | e] eqn:Hp;
    eexists; cbn [fst snd logged calls];
    (split; [reflexivity|]);
    (split; [apply safe_history_snoc; [exact Hs | exact I]|]);
    intros r [= <-].
  - destruct (list_of_pager p) as [l | e] eqn:Hlist.
    + intros a Ha. exists (calls w), [], p, l. auto.
    + destruct e; try exact I. destruct (looks_disabled _); exact I.
  - destruct e; try exact I. destruct (looks_disabled _); exact I.
Qed.

Lemma daytwo_get_billing_accounts_keeps :
  keeps env project_id F DayTwo.get_billing_accounts (fun r h => from_listing env r h).
Proof.
  intros w Hs Hw. rewrite daytwo_get_billing_accounts_run.
  destruct (list_billing_accounts env (calls w)) as [p | e] eqn:Hp;
    eexists; cbn [fst snd logged calls];
    (split; [reflexivity|]);
    (split; [apply safe_history_snoc; [exact Hs | exact I]|]);
    intros r [= <-].
  - destruct (list_of_pager p) as [l | e] eqn:Hlist.
    + intros a Ha. exists (calls w), [], p, l. auto.
    + destruct e; try exact I. destruct (looks_disabled _); exact I.
  - destruct e; try exact I. destruct (looks_disabled _); exact I.
Qed.

Lemma dayone_verify_once_keeps (account_name : string) :
  keeps env project_id F
    (DayOne.verify_once (project_name_of project_id) account_name) (fun _ _ => True).
Proof.
  unfold DayOne.verify_once. keeps_steps.
  apply keeps_external. intros h _. reflexivity.
Qed.

Lemma daytwo_verify_once_keeps (account_name : string) :
  keeps env project_id F
    (DayTwo.verify_once (project_name_of project_id) account_name) (fun _ _ => True).
Proof.
  unfold DayTwo.verify_once. keeps_steps.
  apply keeps_external. intros h _. reflexivity.
Qed.

Lemma dayone_link_keeps (a : BillingAccount) :
  (forall h, F h -> usable env a h) ->
  keeps env project_id F (DayOne.link_project_to_billing project_id a)
    (fun _ _ => True).
Proof.
  intros Ha. unfold DayOne.link_project_to_billing.
  destruct (negb (Str.truthy project_id)); [keeps_steps|]. cbn zeta.
  eapply keeps_seq; [exact F_stable | | intros already_linked].
  { keeps_steps. apply keeps_external. intros h _. reflexivity. }
  destruct already_linked; [keeps_steps|].
  eapply keeps_seq; [exact F_stable | | intros sent].
  { keeps_steps. apply keeps_external. intros h Hh.
    split; [reflexivity|]. exists a. split; [apply Ha, Hh | reflexivity]. }
  destruct (negb sent); [keeps_steps|].
  eapply keeps_seq; [exact F_stable | | intros r].
  { unfold for_range. apply (keeps_for_range env project_id (fun _ => F)).
    intros i s. keeps_steps. apply dayone_verify_once_keeps. }
  destruct r; keeps_steps.
Qed.

Lemma daytwo_link_keeps (a : BillingAccount) :
  (forall h, F h -> usable env a h) ->
  keeps env project_id F (DayTwo.link_billing_account project_id a)
    (fun _ _ => True).
Proof.
  intros Ha. unfold DayTwo.link_billing_account. cbn zeta.
  eapply keeps_seq; [exact F_stable | | intros sent].
  { keeps_steps. apply keeps_external. intros h Hh.
    split; [reflexivity|]. exists a. split; [apply Ha, Hh | reflexivity]. }
  destruct (negb sent); [keeps_steps|].
  eapply keeps_seq; [exact F_stable | | intros r].
  { unfold for_range. apply (keeps_for_range env project_id (fun _ => F)).
    intros i s. keeps_steps. apply daytwo_verify_once_keeps. }
  destruct r; keeps_steps.
Qed.

End ConfinedFunctions.
Lemma get_project_id_from_file_run env w :
  DayOne.get_project_id_from_file env w
  = (Return match project_file env with
            | FileContent text =>
                if Str.truthy (Str.strip text) then Some (Str.strip text) else None
            | _ => None
            end,
     w).
Proof.
  unfold DayOne.get_project_id_from_file, try_except, bind, path_exists, read_file.
  destruct (project_file env) as [| e | text] eqn:Hfile;
    cbn -[Str.strip Str.truthy]; rewrite ?Hfile; cbn -[Str.strip Str.truthy];
    [reflexivity | reflexivity |].
  destruct (Str.truthy (Str.strip text)); reflexivity.
Qed.

Lemma get_project_id_run env w :
  DayTwo.get_project_id env w
  = (match project_file env with
     | FileContent text =>
         if Str.truthy (Str.strip text) then Return (Str.strip text) else Exited 1
     | _ => Exited 1
     end,
     w).
Proof.
  unfold DayTwo.get_project_id, try_except, bind, path_exists, read_file.
  destruct (project_file env) as [| e | text] eqn:Hfile;
    cbn -[Str.strip Str.truthy]; rewrite ?Hfile; cbn -[Str.strip Str.truthy];
    [reflexivity | reflexivity |].
  destruct (Str.truthy (Str.strip text)); reflexivity.
Qed.

Section ConfinedScripts.

Variables (env : Env) (project_id : string).

Lemma item0_keeps {A} (F : history -> Prop) (l : list A) :
  keeps env project_id F (item0 l) (fun a _ => In a l).
Proof.
  apply keeps_silent; [destruct l; reflexivity|].
  intros w a _. destruct l as [| a0 t]; [discriminate|].
  intros [= <-]. left. reflexivity.
Qed.

Lemma item_at_keeps {A} (F : history -> Prop) (l : list A) (index : Z) :
  keeps env project_id F (item_at l index) (fun a _ => In a l).
Proof.
  unfold item_at. destruct (nth_error l (Z.to_nat index)) as [a |] eqn:Hnth.
  - apply keeps_ret. intros h _. eapply nth_error_In. exact Hnth.
  - apply keeps_halt; [reflexivity | discriminate].
Qed.

Lemma input_keeps (F : history -> Prop) :
  keeps env project_id F input (fun _ _ => True).
Proof.
  apply keeps_silent; [|auto].
  intros w. unfold input. destruct (stdin w); reflexivity.
Qed.

Lemma int_of_string_keeps (F : history -> Prop) (s : string) :
  keeps env project_id F (int_of_string s) (fun _ _ => True).
Proof.
  apply keeps_silent; [|auto].
  intros w. unfold int_of_string. destruct (Str.int s); reflexivity.
Qed.

Lemma manual_select_keeps (F : history -> Prop) (l : list BillingAccount) :
  keeps env project_id F (DayTwo.manual_select l) (fun _ _ => True).
Proof.
  apply keeps_silent; [|auto].
  intros w. unfold DayTwo.manual_select.
  destruct (DayTwo.select_index (len l) (stdin w)). reflexivity.
Qed.

Lemma dayone_enable_keeps (F : history -> Prop) :
  stable F ->
  keeps env project_id F (DayOne.enable_billing_api project_id) (fun _ _ => True).
Proof.
  intros HF. unfold DayOne.enable_billing_api. keeps_steps.
  apply keeps_external. intros h _. reflexivity.
Qed.

Lemma daytwo_enable_keeps (F : history -> Prop) :
  stable F ->
  keeps env project_id F (DayTwo.enable_billing_api project_id) (fun _ _ => True).
Proof.
  intros HF. unfold DayTwo.enable_billing_api. keeps_steps.
  apply keeps_external. intros h _. reflexivity.
Qed.

Lemma check_current_billing_keeps (F : history -> Prop) :
  stable F ->
  keeps env project_id F (DayTwo.check_current_billing project_id) (fun _ _ => True).
Proof.
  intros HF. unfold DayTwo.check_current_billing. cbn zeta. keeps_steps.
  apply keeps_external. intros h _. reflexivity.
Qed.

(** *** The loops hand on a listing that was answered *)

Lemma dayone_retry_listing_keeps (r : listing_result) :
  keeps env project_id (from_listing env r) (DayOne.retry_listing r)
    (fun step h => from_listing env (fst (DayOne.loop_state step)) h).
Proof.
  unfold DayOne.retry_listing, for_range.
  eapply keeps_weaken;
    [apply (keeps_for_range env project_id
              (fun (s : listing_result * Q) h => from_listing env (fst s) h))
    | auto | intros [s | s] h H; exact H].
  intros i [r0 wait_seconds]. cbn [fst].
  eapply keeps_seq; [auto with stable | apply keeps_sleep | intros _].
  eapply keeps_bind;
    [auto with stable | apply dayone_get_billing_accounts_keeps | intros r'].
  destruct (negb (result_is r' "API_DISABLED_OR_NO_PERMISSION"));
    apply keeps_ret; cbn [fst]; tauto.
Qed.

Lemma daytwo_retry_listing_keeps (r : listing_result) :
  keeps env project_id (from_listing env r) (DayTwo.retry_listing r)
    (fun step h => from_listing env (fst (DayTwo.loop_state step)) h).
Proof.
  unfold DayTwo.retry_listing, for_range.
  eapply keeps_weaken;
    [apply (keeps_for_range env project_id
              (fun (s : listing_result * Z) h => from_listing env (fst s) h))
    | auto | intros [s | s] h H; exact H].
  intros i [r0 wait_seconds]. cbn [fst].
  eapply keeps_seq; [auto with stable | apply keeps_sleep | intros _].
  eapply keeps_bind;
    [auto with stable | apply daytwo_get_billing_accounts_keeps | intros r'].
  destruct (negb (result_is r' "API_DISABLED_OR_PROPAGATING"));
    apply keeps_ret; cbn [fst]; tauto.
Qed.

Lemma dayone_await_accounts_keeps (r : listing_result) :
  keeps env project_id (from_listing env r) (DayOne.await_accounts r)
    (fun step h => from_listing env (DayOne.loop_state step) h).
Proof.
  unfold DayOne.await_accounts, for_range.
  eapply keeps_weaken;
    [apply (keeps_for_range env project_id
              (fun (s : listing_result) h => from_listing env s h))
    | auto | intros [s | s] h H; exact H].
  intros i r0.
  eapply keeps_seq; [auto with stable | apply keeps_sleep | intros _].
  eapply keeps_bind;
    [auto with stable | apply dayone_get_billing_accounts_keeps | intros r'].
  destruct (is_nonempty_list r'); apply keeps_ret; tauto.
Qed.

Lemma daytwo_await_accounts_keeps (r : listing_result) :
  keeps env project_id (from_listing env r) (DayTwo.await_accounts r)
    (fun step h => from_listing env (DayTwo.loop_state step) h).
Proof.
  unfold DayTwo.await_accounts, for_range.
  eapply keeps_weaken;
    [apply (keeps_for_range env project_id
              (fun (s : listing_result) h => from_listing env s h))
    | auto | intros [s | s] h H; exact H].
  intros i r0.
  eapply keeps_seq; [auto with stable | apply keeps_sleep | intros _].
  eapply keeps_bind;
    [auto with stable | apply daytwo_get_billing_accounts_keeps | intros r'].
  destruct (is_nonempty_list r'); apply keeps_ret; tauto.
Qed.

(** *** From the listing result to the end *)

Lemma open_accounts_usable (l : list BillingAccount) (h : history) :
  from_listing env (Accounts l) h -> all_usable env (filter open l) h.
Proof.
  intros Hl a Ha. apply filter_In in Ha. destruct Ha as [Ha Hopen].
  split; [apply Hl, Ha | exact Hopen].
Qed.

Lemma dayone_link_and_tag_keeps (F : history -> Prop) (a : BillingAccount) :
  stable F ->
  (forall h, F h -> usable env a h) ->
  keeps env project_id F
    (DayOne.link_project_to_billing project_id a;; DayOne.tag_billing_account a)
    (fun _ _ => True).
Proof.
  intros HF Ha.
  eapply keeps_seq; [exact HF | apply dayone_link_keeps; assumption | intros _].
  apply tag_billing_account_keeps; assumption.
Qed.

Lemma dayone_manual_fallback_keeps (F : history -> Prop) (l : list BillingAccount) :
  stable F ->
  (forall h, F h -> all_usable env l h) ->
  keeps env project_id F (DayOne.manual_fallback project_id l) (fun _ _ => True).
Proof.
  intros HF Hl. unfold DayOne.manual_fallback.
  apply keeps_try; [exact HF | | intros e m' He; keeps_steps].
  eapply keeps_seq; [exact HF | apply input_keeps | intros line]. cbn zeta.
  destruct (Str.truthy (Str.strip line)); [|keeps_steps].
  eapply keeps_seq; [exact HF | apply int_of_string_keeps | intros n].
  destruct ((0 <=? n - 1) && (n - 1 <? len l)); [|keeps_steps].
  eapply keeps_bind_pure; [exact HF | apply item_at_keeps | intros a Ha].
  apply dayone_link_and_tag_keeps; [exact HF|].
  intros h Hh. apply (Hl h Hh a Ha).
Qed.

Lemma dayone_handle_result_keeps (r : listing_result) :
  keeps env project_id (from_listing env r) (DayOne.handle_result project_id r)
    (fun _ _ => True).
Proof.
  unfold DayOne.handle_result. destruct r as [l | s]; [|keeps_steps].
  destruct (is_empty l); [keeps_steps|]. cbn zeta.
  destruct (is_empty (filter open l)); [keeps_steps|].
  destruct (len (filter open l) =? 1).
  - eapply keeps_bind_pure; [auto with stable | apply item0_keeps | intros a Ha].
    apply dayone_link_and_tag_keeps; [auto with stable|].
    intros h Hh. apply (open_accounts_usable l h Hh a Ha).
  - eapply keeps_bind_pure;
      [auto with stable
      | apply find_best_billing_account_keeps, open_accounts_usable
      | intros a Ha].
    assert (Husable : forall h, from_listing env (Accounts l) h -> usable env a h)
      by (intros h Hh; apply (open_accounts_usable l h Hh a Ha)).
    eapply keeps_seq;
      [auto with stable | apply dayone_link_keeps; auto with stable | intros _].
    eapply keeps_seq;
      [auto with stable | apply tag_billing_account_keeps; auto with stable
      | intros _].
    apply dayone_manual_fallback_keeps; [auto with stable|].
    apply open_accounts_usable.
Qed.

Lemma daytwo_link_and_tag_keeps (F : history -> Prop) (a : BillingAccount) :
  stable F ->
  (forall h, F h -> usable env a h) ->
  keeps env project_id F (DayTwo.link_and_tag project_id a) (fun _ _ => True).
Proof.
  intros HF Ha. unfold DayTwo.link_and_tag.
  eapply keeps_seq; [exact HF | apply daytwo_link_keeps; assumption | intros linked].
  destruct linked; [|keeps_steps].
  eapply keeps_seq;
    [exact HF | apply tag_billing_account_keeps; assumption | intros _].
  keeps_steps.
Qed.

Lemma daytwo_handle_result_keeps (r : listing_result) :
  keeps env project_id (from_listing env r) (DayTwo.handle_result project_id r)
    (fun _ _ => True).
Proof.
  unfold DayTwo.handle_result. destruct r as [l | s]; [|keeps_steps].
  destruct (is_empty l); [keeps_steps|]. cbn zeta.
  destruct (is_empty (filter open l)); [keeps_steps|].
  destruct (len (filter open l) =? 1).
  - eapply keeps_bind_pure; [auto with stable | apply item0_keeps | intros a Ha].
    eapply keeps_seq;
      [auto with stable | apply daytwo_link_and_tag_keeps; [auto with stable|]
      | intros [code |]; keeps_steps].
    intros h Hh. apply (open_accounts_usable l h Hh a Ha).
  - eapply keeps_bind_pure;
      [auto with stable
      | apply find_best_billing_account_keeps, open_accounts_usable
      | intros a Ha].
    eapply keeps_seq;
      [auto with stable | apply daytwo_link_and_tag_keeps; [auto with stable|]
      | intros [code |]; [keeps_steps|]].
    { intros h Hh. apply (open_accounts_usable l h Hh a Ha). }
    eapply keeps_seq; [auto with stable | apply manual_select_keeps | intros index].
    eapply keeps_bind_pure; [auto with stable | apply item_at_keeps | intros b Hb].
    eapply keeps_seq;
      [auto with stable | apply daytwo_link_and_tag_keeps; [auto with stable|]
      | intros [code |]; keeps_steps].
    intros h Hh. apply (open_accounts_usable l h Hh b Hb).
Qed.

Lemma dayone_after_listing_keeps (r : listing_result) :
  keeps env project_id (from_listing env r) (DayOne.after_listing project_id r)
    (fun _ _ => True).
Proof.
  unfold DayOne.after_listing.
  eapply keeps_bind; [auto with stable | | intros r'].
  - instantiate (1 := fun r' h => from_listing env r' h).
    destruct (is_empty_list r).
    + eapply keeps_bind;
        [auto with stable | apply dayone_await_accounts_keeps | intros step].
      apply keeps_ret. tauto.
    + apply keeps_ret. auto.
  - eapply keeps_given; [|apply dayone_handle_result_keeps]. tauto.
Qed.

Lemma daytwo_after_listing_keeps (r : listing_result) :
  keeps env project_id (from_listing env r) (DayTwo.after_listing project_id r)
    (fun _ _ => True).
Proof.
  unfold DayTwo.after_listing.
  eapply keeps_bind; [auto with stable | | intros r'].
  - instantiate (1 := fun r' h => from_listing env r' h).
    destruct (is_empty_list r).
    + eapply keeps_bind;
        [auto with stable | apply daytwo_await_accounts_keeps | intros step].
      apply keeps_ret. tauto.
    + apply keeps_ret. auto.
  - eapply keeps_given; [|apply daytwo_handle_result_keeps]. tauto.
Qed.

Lemma dayone_enable_and_retry_keeps (r : listing_result) :
  keeps env project_id (from_listing env r) (DayOne.enable_and_retry project_id r)
    (fun r' h => from_listing env r' h).
Proof.
  unfold DayOne.enable_and_retry.
  eapply keeps_seq;
    [auto with stable | apply dayone_enable_keeps; auto with stable | intros enabled].
  destruct enabled; [|apply keeps_ret; auto].
  eapply keeps_bind;
    [auto with stable | apply dayone_retry_listing_keeps | intros step].
  apply keeps_ret. tauto.
Qed.

Lemma daytwo_enable_and_retry_keeps (r : listing_result) :
  keeps env project_id (from_listing env r) (DayTwo.enable_and_retry project_id r)
    (fun _ _ => True).
Proof.
  unfold DayTwo.enable_and_retry.
  eapply keeps_seq;
    [auto with stable | apply daytwo_enable_keeps; auto with stable | intros enabled].
  destruct (negb enabled); [keeps_steps|].
  eapply keeps_bind;
    [auto with stable | apply daytwo_retry_listing_keeps | intros step].
  eapply keeps_given; [|apply daytwo_after_listing_keeps]. tauto.
Qed.

Lemma dayone_search_keeps :
  keeps env project_id (fun _ => True)
    (accounts_result <- DayOne.get_billing_accounts;;
     accounts_result <-
       (if result_is accounts_result "API_DISABLED_OR_NO_PERMISSION"
        then DayOne.enable_and_retry project_id accounts_result
        else ret accounts_result);;
     DayOne.after_listing project_id accounts_result)
    (fun _ _ => True).
Proof.
  eapply keeps_bind;
    [auto with stable | apply dayone_get_billing_accounts_keeps | intros r].
  apply (keeps_given env project_id (from_listing env r)); [tauto|].
  eapply keeps_bind; [auto with stable | | intros r'].
  - instantiate (1 := fun r' h => from_listing env r' h).
    destruct (result_is r "API_DISABLED_OR_NO_PERMISSION").
    + apply dayone_enable_and_retry_keeps.
    + apply keeps_ret. auto.
  - eapply keeps_given; [|apply dayone_after_listing_keeps]. tauto.
Qed.

Lemma daytwo_search_and_link_keeps :
  keeps env project_id (fun _ => True) (DayTwo.search_and_link project_id)
    (fun _ _ => True).
Proof.
  unfold DayTwo.search_and_link.
  eapply keeps_bind;
    [auto with stable | apply daytwo_get_billing_accounts_keeps | intros r].
  apply (keeps_given env project_id (from_listing env r)); [tauto|].
  destruct (result_is r "API_DISABLED_OR_PROPAGATING").
  - apply daytwo_enable_and_retry_keeps.
  - apply daytwo_after_listing_keeps.
Qed.

Hypothesis project_id_from_file :
  exists text, project_file env = FileContent text /\ project_id = Str.strip text.

Lemma dayone_main_keeps :
  keeps env project_id (fun _ => True) DayOne.main (fun _ _ => True).
Proof.
  destruct project_id_from_file as (text & Hfile & Hid).
  unfold DayOne.main.
  eapply keeps_bind_pure with (P := fun p => forall p', p = Some p' -> p' = project_id);
    [auto with stable | | intros [p |] Hp; [|keeps_steps]].
  - apply keeps_silent; intros w; rewrite get_project_id_from_file_run, Hfile;
      [reflexivity|].
    intros p _ [= <-] p'.
    destruct (Str.truthy (Str.strip text)); [|discriminate].
    intros [= <-]. symmetry. exact Hid.
  - rewrite (Hp p eq_refl).
    destruct (negb (Str.truthy project_id)); [keeps_steps|].
    apply dayone_search_keeps.
Qed.

Lemma daytwo_script_keeps :
  keeps env project_id (fun _ => True) DayTwo.script (fun _ _ => True).
Proof.
  destruct project_id_from_file as (text & Hfile & Hid).
  unfold DayTwo.script.
  eapply keeps_seq; [auto with stable | | intros code].
  - unfold DayTwo.main.
    eapply keeps_bind_pure with (P := fun p => p = project_id);
      [auto with stable | | intros p ->].
    + apply keeps_silent; intros w; rewrite get_project_id_run, Hfile;
        [reflexivity|].
      intros p _.
      destruct (Str.truthy (Str.strip text)); [|discriminate].
      intros [= <-]. symmetry. exact Hid.
    + eapply keeps_seq;
        [auto with stable | apply check_current_billing_keeps; auto with stable
        | intros [is_enabled current_account]].
      destruct is_enabled; [keeps_steps|].
      apply daytwo_search_and_link_keeps.
  - apply keeps_halt; [reflexivity | discriminate].
Qed.

End ConfinedScripts.

Lemma no_project_file_no_call env w :
  (forall text, project_file env <> FileContent text) ->
  calls (snd (DayOne.main env w)) = calls w
  /\ calls (snd (DayTwo.script env w)) = calls w.
Proof.
  intros Hfile.
  unfold DayTwo.script, DayTwo.main, DayOne.main, bind.
  rewrite get_project_id_from_file_run, get_project_id_run.
  destruct (project_file env) as [| e | text]; [auto | auto |].
  destruct (Hfile text eq_refl).
Qed.

(** The condition is a real one: a link to an account that no listing
    answered is not a safe history, nor is an update of another project. *)
Example unlisted_account_is_not_safe :
  ~ safe_history Scenario.calm "workshop-project"
      [(UpdateProjectBillingInfo "projects/workshop-project" "billingAccounts/B", true)]
  /\ ~ safe_history Scenario.calm "workshop-project"
        [(ListBillingAccounts, true);
         (UpdateProjectBillingInfo "projects/other" "billingAccounts/B", true)].
Proof.
  split; intros H.
  - specialize (H [] _ _ [] eq_refl). cbn in H.
    destruct H as [_ (a & [(before & after & p & l & Heq & _) _] & _)].
    destruct before; discriminate Heq.
  - specialize (H [(ListBillingAccounts, true)] _ _ [] eq_refl).
    destruct H as [H _]. discriminate H.
Qed.

(** X12. Every call of a whole run of either script, for any behaviour of
    the services and any console input.  With the project id read from the
    project file (its text, stripped): a lookup or an update of a project's
    billing info and the enabling of the API name that project and no
    other; a lookup of linked projects, a link and a renaming name a
    billing account that an earlier listing of this run answered as open;
    a renaming is only asked for an account whose listed display name does
    not end with a date suffix, and the new name is that display name with
    a formatted date appended.  Without a readable project file neither
    script makes any call. *)
Theorem runs_touch_only_project_and_listed_open_accounts env (lines : list string) :
  let start := {| calls := []; stdout := []; stdin := lines |} in
  match project_file env with
  | FileContent text =>
      safe_history env (Str.strip text) (calls (snd (DayOne.main env start)))
      /\ safe_history env (Str.strip text) (calls (snd (DayTwo.script env start)))
  | _ =>
      calls (snd (DayOne.main env start)) = []
      /\ calls (snd (DayTwo.script env start)) = []
  end.
Proof.
  cbn zeta.
  destruct (project_file env) as [| e | text] eqn:Hfile.
  - apply (no_project_file_no_call env {| calls := []; stdout := []; stdin := lines |}).
    intros text. rewrite Hfile. discriminate.
  - apply (no_project_file_no_call env {| calls := []; stdout := []; stdin := lines |}).
    intros text. rewrite Hfile. discriminate.
  - assert (Hid : exists text',
               project_file env = FileContent text'
               /\ Str.strip text = Str.strip text') by (exists text; auto).
    split.
    + destruct (dayone_main_keeps env (Str.strip text) Hid
                  {| calls := []; stdout := []; stdin := lines |}
                  (safe_history_nil env _) I) as (h & Hcalls & Hsafe & _).
      rewrite Hcalls. exact Hsafe.
    + destruct (daytwo_script_keeps env (Str.strip text) Hid
                  {| calls := []; stdout := []; stdin := lines |}
                  (safe_history_nil env _) I) as (h & Hcalls & Hsafe & _).
      rewrite Hcalls. exact Hsafe.
Qed.
(** ** What a whole run did, and its exit status *)

Lemma update_accepted_app (a b : history) :
  update_accepted (a ++ b)%list = update_accepted a || update_accepted b.
Proof.
  induction a as [| [c ok] a IH]; [reflexivity|].
  destruct c; cbn [app update_accepted]; try exact IH.
  destruct ok; [reflexivity | exact IH].
Qed.

Lemma quiet_no_update (h : history) :
  forallb quiet_call (issued h) = true -> update_accepted h = false.
Proof.
  induction h as [| [c ok] h IH]; [reflexivity|].
  cbn [issued map fst forallb]. intros H. apply andb_prop in H. destruct H as [Hc Hh].
  destruct c; cbn [update_accepted]; try (apply IH; exact Hh). discriminate Hc.
Qed.

Lemma quiet_not_a_listing (l : list call) :
  forallb quiet_call l = true -> forallb not_a_listing l = true.
Proof.
  induction l as [| c l IH]; [reflexivity|]. cbn [forallb]. intros H.
  apply andb_prop in H. destruct H as [Hc Hl]. rewrite (IH Hl), andb_true_r.
  destruct c; try reflexivity. discriminate Hc.
Qed.

Lemma no_listing_no_answer (answer_at : history -> listing_result) (h : history) :
  forall before,
    forallb not_a_listing (issued h) = true ->
    listing_answers answer_at before h = [].
Proof.
  induction h as [| [c ok] h IH]; intros before; [reflexivity|].
  cbn [issued map fst forallb]. intros H. apply andb_prop in H. destruct H as [Hc Hh].
  destruct c; cbn [listing_answers]; try (apply IH; exact Hh). discriminate Hc.
Qed.

Lemma forallb_issued_app (p : call -> bool) (a b : history) :
  forallb p (issued (a ++ b)%list) = forallb p (issued a) && forallb p (issued b).
Proof. rewrite issued_app. apply forallb_app. Qed.

Lemma last_cons {A} (l : list A) :
  forall (x d : A), last (x :: l) d = last l x.
Proof.
  induction l as [| y l IH]; intros x d; [reflexivity|].
  change (last (x :: y :: l) d) with (last (y :: l) d).
  rewrite !IH. reflexivity.
Qed.

Lemma last_app {A} (a b : list A) :
  forall d : A, last (a ++ b) d = last b (last a d).
Proof.
  induction a as [| x a IH]; intros d; [reflexivity|].
  cbn [app]. rewrite !last_cons. apply IH.
Qed.

Section Traces.

Variable env : Env.

Lemma traces_weaken {A} (m : M A) (R R' : history -> outcome A -> history -> Prop) :
  traces env m R ->
  (forall before o h, R before o h -> R' before o h) ->
  traces env m R'.
Proof.
  intros Hm HR w. destruct (Hm w) as (h & Hc & Hr). exists h. auto.
Qed.

Lemma traces_always {A} (m : M A) (R : history -> outcome A -> history -> Prop)
    (Q : outcome A -> Prop) :
  traces env m R ->
  always env m Q ->
  traces env m (fun before o h => R before o h /\ Q o).
Proof.
  intros Hm Hq w. destruct (Hm w) as (h & Hc & Hr). exists h.
  split; [exact Hc|]. split; [exact Hr | apply Hq].
Qed.

Lemma traces_silent {A} (m : M A) (R : history -> outcome A -> history -> Prop) :
  (forall w, calls (snd (m env w)) = calls w) ->
  (forall w, R (calls w) (fst (m env w)) []) ->
  traces env m R.
Proof.
  intros Hc Hr w. exists []. rewrite app_nil_r. split; [apply Hc | apply Hr].
Qed.

Lemma traces_bind {A B} (m : M A) (k : A -> M B)
    (R1 : history -> outcome A -> history -> Prop)
    (R2 : A -> history -> outcome B -> history -> Prop)
    (R : history -> outcome B -> history -> Prop) :
  traces env m R1 ->
  (forall a, traces env (k a) (R2 a)) ->
  (forall before a h1 o h2,
      R1 before (Return a) h1 -> R2 a (before ++ h1)%list o h2 ->
      R before o (h1 ++ h2)%list) ->
  (forall before e h, R1 before (Raised e) h -> R before (Raised e) h) ->
  (forall before c h, R1 before (Exited c) h -> R before (Exited c) h) ->
  traces env (bind m k) R.
Proof.
  intros Hm Hk Hseq Hraise Hexit w.
  destruct (Hm w) as (h1 & Hc1 & Hr1).
  unfold bind. destruct (m env w) as [[a | e | c] w1]; cbn [fst snd] in *.
  - destruct (Hk a w1) as (h2 & Hc2 & Hr2). exists (h1 ++ h2)%list.
    rewrite Hc2, Hc1, <- app_assoc. split; [reflexivity|].
    rewrite Hc1 in Hr2. eapply Hseq; eassumption.
  - exists h1. split; [exact Hc1 | apply Hraise, Hr1].
  - exists h1. split; [exact Hc1 | apply Hexit, Hr1].
Qed.

(** *** Computations that only make certain calls *)

Variable allowed : call -> bool.

Lemma only_silent {A} (m : M A) :
  (forall w, calls (snd (m env w)) = calls w) -> only_calls env allowed m.
Proof. intros Hc. apply traces_silent; [exact Hc | reflexivity]. Qed.

Lemma only_ret {A} (a : A) : only_calls env allowed (ret a).
Proof. apply only_silent. reflexivity. Qed.

Lemma only_print (m : message) : only_calls env allowed (print m).
Proof. apply only_silent. reflexivity. Qed.

Lemma only_bind {A B} (m : M A) (k : A -> M B) :
  only_calls env allowed m ->
  (forall a, only_calls env allowed (k a)) ->
  only_calls env allowed (bind m k).
Proof.
  intros Hm Hk.
  apply (traces_bind m k _ (fun _ _ _ h => forallb allowed (issued h) = true) _ Hm Hk);
    [| auto | auto].
  intros before a h1 o h2 H1 H2. rewrite forallb_issued_app, H1, H2. reflexivity.
Qed.

Lemma only_try {A} (m : M A) (handler : exception -> option (M A)) :
  only_calls env allowed m ->
  (forall e m', handler e = Some m' -> only_calls env allowed m') ->
  only_calls env allowed (try_except m handler).
Proof.
  intros Hm Hh w. destruct (Hm w) as (h1 & Hc1 & Hr1).
  unfold try_except. destruct (m env w) as [[a | e | c] w1]; cbn [fst snd] in *.
  - exists h1. auto.
  - destruct (handler e) as [m' |] eqn:He.
    + destruct (Hh e m' He w1) as (h2 & Hc2 & Hr2). exists (h1 ++ h2)%list.
      rewrite Hc2, Hc1, <- app_assoc. split; [reflexivity|].
      rewrite forallb_issued_app, Hr1, Hr2. reflexivity.
    + exists h1. auto.
  - exists h1. auto.
Qed.

Lemma only_external {A} (c : call) (oracle : Env -> history -> response A) :
  allowed c = true -> only_calls env allowed (external c oracle).
Proof.
  intros Hc w. rewrite external_run.
  destruct (oracle env (calls w)); eexists; cbn [fst snd logged calls];
    (split; [reflexivity|]); cbn; rewrite Hc; reflexivity.
Qed.

Lemma only_for_range {S} (body : Z -> S -> M (loop_step S)) (n : nat) :
  (forall i s, only_calls env allowed (body i s)) ->
  forall i s, only_calls env allowed (for_range_from i n s body).
Proof.
  intros Hbody. induction n as [| n IH]; intros i s; cbn [for_range_from].
  - apply only_ret.
  - apply only_bind; [apply Hbody|]. intros [s' | s']; [apply IH | apply only_ret].
Qed.

End Traces.

Ltac only_handler :=
  match goal with
  | H : ?lhs = Some ?m |- only_calls _ _ ?m =>
      first
        [ injection H as <-
        | match lhs with
          | match ?e with _ => _ end => destruct e; try discriminate H; injection H as <-
          end ]
  end.

Ltac only_step :=
  lazymatch goal with
  | |- only_calls _ _ (bind _ _) => apply only_bind; [| intros ?]
  | |- only_calls _ _ (try_except _ _) => apply only_try; [| intros ? ? ?]
  | |- only_calls _ _ (ret _) => apply only_ret
  | |- only_calls _ _ (print _) => apply only_print
  | |- only_calls _ _ (external _ _) => apply only_external; reflexivity
  | |- only_calls _ _ (sleep _) => apply only_external; reflexivity
  | |- only_calls _ _ (for_range _ _ _) => unfold for_range; apply only_for_range; intros ? ?
  | |- only_calls _ _ (if ?b then _ else _) => destruct b
  end.

Ltac only_steps := repeat first [only_handler | only_step].

Section QuietFunctions.

Variable env : Env.

Lemma only_weaken {A} (p q : call -> bool) (m : M A) :
  (forall c, p c = true -> q c = true) ->
  only_calls env p m -> only_calls env q m.
Proof.
  intros Hpq Hm. eapply traces_weaken; [exact Hm|]. cbn beta.
  intros _ _ h H. rewrite forallb_forall in *. auto.
Qed.

Lemma only_always {A} (p : call -> bool) (m : M A) (Q : outcome A -> Prop) :
  only_calls env p m ->
  always env m Q ->
  traces env m (fun _ o h => forallb p (issued h) = true /\ Q o).
Proof. intros Hm Hq. apply (traces_always env m _ Q Hm Hq). Qed.

Lemma quiet_is_not_a_listing (c : call) : quiet_call c = true -> not_a_listing c = true.
Proof. destruct c; auto. Qed.

Lemma tag_billing_account_quiet a : only_calls env quiet_call (tag_billing_account a).
Proof.
  unfold tag_billing_account. only_steps.
  apply only_silent. reflexivity.
Qed.

Lemma get_linked_project_count_quiet a :
  only_calls env quiet_call (get_linked_project_count a).
Proof.
  unfold get_linked_project_count. only_steps.
  apply only_silent. intros w. unfold of_response.
  destruct (count_projects a0 0); reflexivity.
Qed.

Lemma item0_quiet {A} (l : list A) : only_calls env quiet_call (item0 l).
Proof. apply only_silent. destruct l; reflexivity. Qed.

Lemma collect_unlinked_quiet l :
  forall acc, only_calls env quiet_call (collect_unlinked acc l).
Proof.
  induction l as [| a t IH]; intros acc; cbn [collect_unlinked]; [apply only_ret|].
  apply only_bind; [apply get_linked_project_count_quiet|].
  intros c. destruct (c =? 0); apply IH.
Qed.

Lemma find_best_billing_account_quiet l :
  only_calls env quiet_call (find_best_billing_account l).
Proof.
  unfold find_best_billing_account.
  apply only_bind; [apply collect_unlinked_quiet|]. intros u.
  destruct (negb (is_empty u)); [apply item0_quiet|].
  destruct (negb (is_empty (collect_tagged [] l))); [|apply item0_quiet].
  apply only_bind; [apply item0_quiet | intros x; apply only_ret].
Qed.

Lemma daytwo_verify_once_quiet pn acct :
  only_calls env quiet_call (DayTwo.verify_once pn acct).
Proof. unfold DayTwo.verify_once. only_steps. Qed.

Lemma dayone_verify_once_quiet pn acct :
  only_calls env quiet_call (DayOne.verify_once pn acct).
Proof. unfold DayOne.verify_once. only_steps. Qed.

Lemma item_at_quiet {A} (l : list A) index : only_calls env quiet_call (item_at l index).
Proof.
  apply only_silent. intros w. unfold item_at.
  destruct (nth_error l (Z.to_nat index)); reflexivity.
Qed.

Lemma manual_select_quiet l : only_calls env quiet_call (DayTwo.manual_select l).
Proof.
  apply only_silent. intros w. unfold DayTwo.manual_select.
  destruct (DayTwo.select_index (len l) (stdin w)). reflexivity.
Qed.

Lemma input_quiet : only_calls env not_a_listing input.
Proof. apply only_silent. intros w. unfold input. destruct (stdin w); reflexivity. Qed.

Lemma int_of_string_quiet s : only_calls env not_a_listing (int_of_string s).
Proof.
  apply only_silent. intros w. unfold int_of_string. destruct (Str.int s); reflexivity.
Qed.

(** Day one's link, tag and manual override list no accounts. *)
Lemma dayone_link_lists_nothing project_id a :
  only_calls env not_a_listing (DayOne.link_project_to_billing project_id a).
Proof.
  unfold DayOne.link_project_to_billing.
  destruct (negb (Str.truthy project_id)); [apply only_print|]. cbn zeta.
  only_steps.
  apply (only_weaken quiet_call); [apply quiet_is_not_a_listing|].
  apply dayone_verify_once_quiet.
Qed.

Lemma dayone_link_and_tag_lists_nothing project_id a :
  only_calls env not_a_listing
    (DayOne.link_project_to_billing project_id a;; DayOne.tag_billing_account a).
Proof.
  apply only_bind; [apply dayone_link_lists_nothing | intros _].
  apply (only_weaken quiet_call); [apply quiet_is_not_a_listing|].
  apply tag_billing_account_quiet.
Qed.

Lemma dayone_manual_fallback_lists_nothing project_id l :
  only_calls env not_a_listing (DayOne.manual_fallback project_id l).
Proof.
  unfold DayOne.manual_fallback.
  apply only_try; [| intros e m' He; only_steps].
  apply only_bind; [apply input_quiet | intros line]. cbn zeta.
  destruct (Str.truthy (Str.strip line)); [|apply only_ret].
  apply only_bind; [apply int_of_string_quiet | intros n].
  destruct ((0 <=? n - 1) && (n - 1 <? len l)); [|apply only_ret].
  apply only_bind.
  - apply (only_weaken quiet_call); [apply quiet_is_not_a_listing|]. apply item_at_quiet.
  - intros a. apply dayone_link_and_tag_lists_nothing.
Qed.

Lemma dayone_handle_result_lists_nothing project_id r :
  only_calls env not_a_listing (DayOne.handle_result project_id r).
Proof.
  unfold DayOne.handle_result. destruct r as [l | s]; [|only_steps].
  destruct (is_empty l); [apply only_print|]. cbn zeta.
  destruct (is_empty (filter open l)); [apply only_print|].
  destruct (len (filter open l) =? 1).
  - apply only_bind.
    + apply (only_weaken quiet_call); [apply quiet_is_not_a_listing|]. apply item0_quiet.
    + intros a. apply dayone_link_and_tag_lists_nothing.
  - apply only_bind.
    + apply (only_weaken quiet_call); [apply quiet_is_not_a_listing|].
      apply find_best_billing_account_quiet.
    + intros a. apply only_bind; [apply dayone_link_lists_nothing | intros _].
      apply only_bind.
      * apply (only_weaken quiet_call); [apply quiet_is_not_a_listing|].
        apply tag_billing_account_quiet.
      * intros _. apply dayone_manual_fallback_lists_nothing.
Qed.

End QuietFunctions.
(** ** Day two: how a run ends *)

Section DayTwoVerdict.

Variables (env : Env) (project_id : string).

(** How the part of [main] that links an account ends: with 0 after an
    accepted update, with status 1 and no accepted update otherwise. *)
Let concluded (o : outcome Z) (h : history) : Prop :=
  (o = Return 0 /\ update_accepted h = true)
  \/ (script_status o = 1 /\ update_accepted h = false).

Let linking (_ : history) (o : outcome Z) (h : history) : Prop :=
  forallb not_a_listing (issued h) = true /\ concluded o h.

Lemma daytwo_link_trace a :
  traces env (DayTwo.link_billing_account project_id a)
    (fun _ o h =>
       forallb not_a_listing (issued h) = true
       /\ exists b, o = Return b /\ update_accepted h = b).
Proof.
  unfold DayTwo.link_billing_account. cbn zeta.
  set (pn := project_name_of project_id).
  set (update := UpdateProjectBillingInfo pn (name a)).
  eapply (traces_bind env _ _
            (fun _ o h => exists ok, o = Return ok /\ h = [(update, ok)])
            (fun sent _ o h => forallb quiet_call (issued h) = true /\ o = Return sent)).
  - intros w. unfold try_except, bind. rewrite external_run. fold update.
    destruct (update_project_billing_info env (calls w) pn (name a)) as [[] | e];
      [| destruct e]; eexists; (split; [reflexivity|]); eexists; split; reflexivity.
  - intros [|]; cbn [negb].
    + apply only_always.
      * only_steps. apply daytwo_verify_once_quiet.
      * eapply always_bind_returns; [apply daytwo_verification_returns|].
        intros [|] _; always_steps; reflexivity.
    + apply traces_silent; [reflexivity|]. intros w. split; reflexivity.
  - intros before sent h1 o h2 (ok & [= <-] & ->) [Hq ->]. split.
    + rewrite forallb_issued_app. cbn [issued map fst forallb not_a_listing].
      cbn [andb]. apply quiet_not_a_listing, Hq.
    + exists sent. split; [reflexivity|].
      rewrite update_accepted_app, (quiet_no_update _ Hq), orb_false_r.
      destruct sent; reflexivity.
  - intros before e h (ok & Ho & _). discriminate Ho.
  - intros before c h (ok & Ho & _). discriminate Ho.
Qed.

Lemma daytwo_link_and_tag_trace a :
  traces env (DayTwo.link_and_tag project_id a)
    (fun _ o h =>
       forallb not_a_listing (issued h) = true
       /\ ((o = Return (Some 0) /\ update_accepted h = true)
           \/ (o = Return None /\ update_accepted h = false))).
Proof.
  unfold DayTwo.link_and_tag.
  eapply (traces_bind env _ _ _
            (fun linked _ o h =>
               forallb quiet_call (issued h) = true
               /\ o = Return (if linked : bool then Some 0 else None))).
  - apply daytwo_link_trace.
  - intros [|].
    + apply only_always.
      * only_steps. apply tag_billing_account_quiet.
      * eapply always_bind_returns; [apply tag_billing_account_returns|].
        intros _ _. always_steps. reflexivity.
    + apply traces_silent; [reflexivity|]. intros w. split; reflexivity.
  - intros before linked h1 o h2 (Hl & b & [= <-] & Hb) [Hq ->]. split.
    + rewrite forallb_issued_app, Hl. apply quiet_not_a_listing, Hq.
    + rewrite update_accepted_app, (quiet_no_update _ Hq), orb_false_r, Hb.
      destruct linked; auto.
  - intros before e h (_ & b & Ho & _). discriminate Ho.
  - intros before c h (_ & b & Ho & _). discriminate Ho.
Qed.

(** A step without listing or update, before a part that links. *)
Lemma linking_after_quiet {A} (m : M A) (k : A -> M Z) :
  only_calls env quiet_call m ->
  always env m does_not_exit ->
  (forall a, traces env (k a) linking) ->
  traces env (bind m k) linking.
Proof.
  intros Hm Hne Hk.
  eapply (traces_bind env _ _ _ (fun _ => linking));
    [apply (only_always env _ _ _ Hm Hne) | exact Hk | | |].
  - intros before a h1 o h2 [Hq _] [Hl Hc]. split.
    + rewrite forallb_issued_app, Hl, (quiet_not_a_listing _ Hq). reflexivity.
    + unfold concluded in *.
      rewrite update_accepted_app, (quiet_no_update _ Hq). exact Hc.
  - intros before e h [Hq _]. split; [apply quiet_not_a_listing, Hq|].
    right. split; [reflexivity | apply quiet_no_update, Hq].
  - intros before c h [_ []].
Qed.

(** An attempt to link and tag, before what [main] does when it failed. *)
Lemma linking_after_attempt a (otherwise : M Z) :
  traces env otherwise linking ->
  traces env
    (r <- DayTwo.link_and_tag project_id a;;
     match r with Some code => ret code | None => otherwise end)
    linking.
Proof.
  intros Hk.
  eapply (traces_bind env _ _ _
            (fun r before o h =>
               match r with
               | Some code => o = Return code /\ h = []
               | None => linking before o h
               end)).
  - apply daytwo_link_and_tag_trace.
  - intros [code |]; [|exact Hk].
    apply traces_silent; [reflexivity|]. intros w. split; reflexivity.
  - intros before r h1 o h2 [Hl [[[= ->] Hu] | [[= ->] Hu]]].
    + intros [-> ->]. rewrite app_nil_r. split; [exact Hl|]. left. auto.
    + intros [Hl2 Hc]. split; [rewrite forallb_issued_app, Hl, Hl2; reflexivity|].
      unfold concluded in *. rewrite update_accepted_app, Hu. exact Hc.
  - intros before e h [_ [[Ho _] | [Ho _]]]; discriminate Ho.
  - intros before c h [_ [[Ho _] | [Ho _]]]; discriminate Ho.
Qed.

Lemma linking_returns_1 (m : message) : traces env (print m;; ret 1) linking.
Proof.
  apply traces_silent; [reflexivity|]. intros w. split; [reflexivity|].
  right. split; reflexivity.
Qed.

Lemma linking_ret_1 : traces env (ret 1) linking.
Proof.
  apply traces_silent; [reflexivity|]. intros w. split; [reflexivity|].
  right. split; reflexivity.
Qed.

Lemma daytwo_handle_result_linking r :
  traces env (DayTwo.handle_result project_id r) linking.
Proof.
  unfold DayTwo.handle_result. destruct r as [l | s].
  - destruct (is_empty l); [apply linking_returns_1|]. cbn zeta.
    destruct (is_empty (filter open l)); [apply linking_returns_1|].
    destruct (len (filter open l) =? 1).
    + apply linking_after_quiet; [apply item0_quiet | unfold item0; no_exit|].
      intros a. apply linking_after_attempt, linking_ret_1.
    + apply linking_after_quiet;
        [apply find_best_billing_account_quiet
        | apply find_best_billing_account_no_exit|].
      intros a. apply linking_after_attempt.
      apply linking_after_quiet; [apply manual_select_quiet | apply manual_select_no_exit|].
      intros index.
      apply linking_after_quiet; [apply item_at_quiet | apply item_at_no_exit|].
      intros b. apply linking_after_attempt, linking_ret_1.
  - destruct (String.eqb s "API_DISABLED_OR_PROPAGATING"); [apply linking_returns_1|].
    destruct (String.eqb s "PERMISSION_DENIED"); apply linking_returns_1.
Qed.

(** Without an open account to go on with, [main] returns 1. *)
Lemma daytwo_handle_no_open_account r :
  no_open_account r ->
  always env (DayTwo.handle_result project_id r) (fun o => o = Return 1).
Proof.
  destruct r as [l | s]; cbn [no_open_account]; intros Hr;
    [|apply daytwo_handle_sentinel].
  unfold DayTwo.handle_result.
  destruct (is_empty l); [always_steps; reflexivity|]. cbn zeta.
  rewrite Hr. cbn [is_empty]. always_steps. reflexivity.
Qed.

Lemma daytwo_handle_result_verdict r :
  traces env (DayTwo.handle_result project_id r) (daytwo_verdict env r).
Proof.
  intros w. destruct (daytwo_handle_result_linking r w) as (h & Hc & Hl & Hconcl).
  exists h. split; [exact Hc|]. split; [exact Hconcl|].
  rewrite (no_listing_no_answer _ _ _ Hl). cbn [last]. intros Hr.
  rewrite (daytwo_handle_no_open_account r Hr w). reflexivity.
Qed.

End DayTwoVerdict.
Lemma no_update_in_calls (h : history) :
  (forall c, In c (issued h) -> c = ListBillingAccounts \/ exists d, c = Sleep d) ->
  update_accepted h = false.
Proof.
  induction h as [| [c ok] h IH]; [reflexivity|]. intros Hc.
  assert (Hh : update_accepted h = false).
  { apply IH. intros c' Hc'. apply Hc. right. exact Hc'. }
  destruct (Hc c (or_introl eq_refl)) as [-> | [d ->]]; exact Hh.
Qed.

Lemma polls_no_update (h : history) (k : nat) :
  issued h = empty_listing_polls k -> update_accepted h = false.
Proof.
  intros Hh. apply no_update_in_calls. rewrite Hh. clear.
  induction k as [| k IH]; cbn [empty_listing_polls]; [intros c []|].
  intros c [<- | [<- | Hc]]; eauto.
Qed.

Lemma retries_no_update (h : history) (delays : list Q) :
  issued h = listing_retries delays -> update_accepted h = false.
Proof.
  intros Hh. apply no_update_in_calls. rewrite Hh. clear.
  induction delays as [| d delays IH]; cbn [listing_retries]; [intros c []|].
  intros c [<- | [<- | Hc]]; eauto.
Qed.

Section DayTwoRun.

Variables (env : Env) (project_id : string).

(** A part of [main] that makes the calls [h1], without an accepted update,
    and then goes on with the listing result [r'] that the last listing of
    [h1] answered ([r] when [h1] holds no listing). *)
Lemma daytwo_verdict_after (r r' : listing_result) (w : World) (h1 : history)
    (m : M Z) :
  update_accepted h1 = false ->
  last (listing_answers (daytwo_listing_at env) (calls w) h1) r = r' ->
  traces env m (daytwo_verdict env r') ->
  exists h,
    calls (snd (m env (logged w h1))) = (calls w ++ h)%list
    /\ daytwo_verdict env r (calls w) (fst (m env (logged w h1))) h.
Proof.
  intros Hu Hr Hm. destruct (Hm (logged w h1)) as (h2 & Hc2 & [Hconcl Hlast]).
  exists (h1 ++ h2)%list. cbn [logged calls] in *.
  rewrite Hc2, <- app_assoc. split; [reflexivity|].
  unfold daytwo_verdict. rewrite update_accepted_app, Hu, orb_false_l.
  split; [exact Hconcl|].
  rewrite listing_answers_app, last_app, Hr. exact Hlast.
Qed.

Lemma daytwo_after_listing_run r w :
  exists h1 r',
    DayTwo.after_listing project_id r env w
    = DayTwo.handle_result project_id r' env (logged w h1)
    /\ update_accepted h1 = false
    /\ last (listing_answers (daytwo_listing_at env) (calls w) h1) r = r'.
Proof.
  unfold DayTwo.after_listing, bind at 1.
  destruct (is_empty_list r).
  - unfold bind at 1, DayTwo.await_accounts, for_range.
    destruct (daytwo_await_answers env 6 0 r w)
      as (k & h1 & step & Hk & Hrun & Hcalls & Hans).
    rewrite Hrun. cbn [ret].
    destruct Hans as [(_ & Hn & _) | (earlier & r' & Hpos & Hl & Hall & Hst & Hend)];
      [discriminate Hn|].
    exists h1, r'. rewrite Hst. split; [reflexivity|].
    split; [apply (polls_no_update _ _ Hcalls)|].
    rewrite Hl. apply last_last.
  - exists [], r. rewrite logged_nil. auto.
Qed.

Lemma daytwo_after_listing_verdict r :
  traces env (DayTwo.after_listing project_id r) (daytwo_verdict env r).
Proof.
  intros w. destruct (daytwo_after_listing_run r w) as (h1 & r' & -> & Hu & Hr).
  apply (daytwo_verdict_after r r' w h1 _ Hu Hr), daytwo_handle_result_verdict.
Qed.

Lemma daytwo_enable_and_retry_run r w :
  DayTwo.enable_and_retry project_id r env w
  = match gcloud_services_enable env (calls w) project_id with
    | Ok _ =>
        (r <- DayTwo.retry_listing r;;
         DayTwo.after_listing project_id (fst (DayTwo.loop_state r)))
          env (logged w [(GcloudServicesEnable project_id, true)])
    | Err e =>
        (match e with
         | FileNotFoundError | CalledProcessError _ | TimeoutExpired => Return 1
         | _ => Raised e
         end,
         logged w [(GcloudServicesEnable project_id, false)])
    end.
Proof.
  unfold DayTwo.enable_and_retry, bind at 1. rewrite daytwo_enable_run.
  destruct (gcloud_services_enable env (calls w) project_id) as [[] | e];
    [reflexivity|].
  destruct e; reflexivity.
Qed.

Lemma daytwo_enable_and_retry_verdict r :
  traces env (DayTwo.enable_and_retry project_id r) (daytwo_verdict env r).
Proof.
  intros w. rewrite daytwo_enable_and_retry_run.
  set (enable := GcloudServicesEnable project_id).
  destruct (gcloud_services_enable env (calls w) project_id) as [[] | e].
  - unfold bind at 1 2, DayTwo.retry_listing, for_range.
    destruct (daytwo_retry_answers env 5 0 r 15 (logged w [(enable, true)]))
      as (k & h1 & step & Hk & Hrun & Hcalls & Hans).
    rewrite Hrun, logged_logged.
    destruct Hans as [(_ & Hn & _) | (earlier & r' & Hpos & Hl & Hall & Hst & Hend)];
      [discriminate Hn|].
    rewrite Hst.
    apply (daytwo_verdict_after r r' w ([(enable, true)] ++ h1)%list).
    + rewrite update_accepted_app, (retries_no_update _ _ Hcalls). reflexivity.
    + rewrite listing_answers_app. cbn [listing_answers app enable].
      cbn [logged calls] in Hl. rewrite Hl. apply last_last.
    + apply daytwo_after_listing_verdict.
  - exists [(enable, false)]. cbn [fst snd logged calls].
    split; [reflexivity|].
    split; [right; split; [destruct e|]; reflexivity | intros _; destruct e; reflexivity].
Qed.

Lemma daytwo_search_and_link_run w :
  DayTwo.search_and_link project_id env w
  = (if result_is (daytwo_listing_at env (calls w)) "API_DISABLED_OR_PROPAGATING"
     then DayTwo.enable_and_retry project_id (daytwo_listing_at env (calls w))
     else DayTwo.after_listing project_id (daytwo_listing_at env (calls w)))
      env
      (logged w [(ListBillingAccounts, is_ok (list_billing_accounts env (calls w)))]).
Proof.
  unfold DayTwo.search_and_link, bind at 1. rewrite daytwo_listing_at_run.
  reflexivity.
Qed.

Lemma daytwo_search_and_link_verdict (r : listing_result) :
  traces env (DayTwo.search_and_link project_id) (daytwo_verdict env r).
Proof.
  intros w. rewrite daytwo_search_and_link_run.
  set (r0 := daytwo_listing_at env (calls w)).
  set (listing := (ListBillingAccounts, is_ok (list_billing_accounts env (calls w)))).
  assert (Hu : update_accepted [listing] = false) by reflexivity.
  assert (Hr : last (listing_answers (daytwo_listing_at env) (calls w) [listing]) r
               = r0) by reflexivity.
  destruct (result_is r0 "API_DISABLED_OR_PROPAGATING").
  - apply (daytwo_verdict_after r r0 w [listing] _ Hu Hr),
      daytwo_enable_and_retry_verdict.
  - apply (daytwo_verdict_after r r0 w [listing] _ Hu Hr),
      daytwo_after_listing_verdict.
Qed.

Hypothesis project_id_known : has_project_id env project_id.

(** [main] for a project id that is known: it returns 0 after the first
    lookup when that reports billing as enabled, and otherwise searches for
    an account. *)
Lemma daytwo_main_verdict (r : listing_result) :
  traces env DayTwo.main
    (fun before o h =>
       let lookup := GetProjectBillingInfo (project_name_of project_id) in
       if reported_enabled env before project_id
       then o = Return 0 /\ h = [(lookup, true)]
       else exists ok h',
              h = (lookup, ok) :: h'
              /\ daytwo_verdict env r (before ++ [(lookup, ok)])%list o h').
Proof.
  intros w. destruct project_id_known as (text & Hfile & Hstrip & Hid).
  set (pn := project_name_of project_id).
  assert (Hcases :
    DayTwo.main env w
    = match get_project_billing_info env (calls w) pn with
      | Ok info =>
          if billing_enabled info
          then (Return 0,
                printed (logged w [(GetProjectBillingInfo pn, true)])
                  [MsgBillingAlreadyEnabled])
          else DayTwo.search_and_link project_id env
                 (logged w [(GetProjectBillingInfo pn, true)])
      | Err _ =>
          DayTwo.search_and_link project_id env
            (logged w [(GetProjectBillingInfo pn, false)])
      end).
  { unfold DayTwo.main, bind at 1. subst pn project_id.
    rewrite (get_project_id_content _ _ _ Hfile Hid).
    unfold bind at 1. rewrite check_current_billing_run.
    destruct (get_project_billing_info env (calls w)
                (project_name_of (Str.strip text))) as [info | e]; [|reflexivity].
    destruct (billing_enabled info); reflexivity. }
  rewrite Hcases. unfold reported_enabled. fold pn. cbn zeta.
  destruct (get_project_billing_info env (calls w) pn) as [info | e].
  - destruct (billing_enabled info).
    + cbn [fst snd printed logged calls].
      eexists. split; [reflexivity|]. split; reflexivity.
    + destruct (daytwo_search_and_link_verdict r
                  (logged w [(GetProjectBillingInfo pn, true)]))
        as (h & Hc & Hv).
      exists ((GetProjectBillingInfo pn, true) :: h). cbn [logged calls] in *.
      rewrite Hc, <- app_assoc. split; [reflexivity|]. eauto.
  - destruct (daytwo_search_and_link_verdict r
                (logged w [(GetProjectBillingInfo pn, false)]))
      as (h & Hc & Hv).
    exists ((GetProjectBillingInfo pn, false) :: h). cbn [logged calls] in *.
    rewrite Hc, <- app_assoc. split; [reflexivity|]. eauto.
Qed.

End DayTwoRun.
(** ** Day one: how a run ends *)

Section DayOneRun.

Variables (env : Env) (project_id : string).

(** Without an open account to go on with, the final part of the main
    block prints its message and ends normally. *)
Lemma dayone_handle_no_open_account r :
  no_open_account r ->
  always env (DayOne.handle_result project_id r) (fun o => o = Return tt).
Proof.
  destruct r as [l | s]; cbn [no_open_account]; intros Hr;
    [|apply dayone_handle_sentinel].
  unfold DayOne.handle_result.
  destruct (is_empty l); [always_steps; reflexivity|]. cbn zeta.
  rewrite Hr. cbn [is_empty]. always_steps. reflexivity.
Qed.

Lemma dayone_handle_result_verdict r :
  traces env (DayOne.handle_result project_id r) (dayone_verdict env r).
Proof.
  intros w.
  destruct (dayone_handle_result_lists_nothing env project_id r w) as (h & Hc & Hl).
  exists h. split; [exact Hc|]. unfold dayone_verdict.
  rewrite (no_listing_no_answer _ _ _ Hl). cbn [last]. intros Hr. left.
  apply (dayone_handle_no_open_account r Hr w).
Qed.

(** A part of the main block that makes the calls [h1] and then goes on
    with the listing result [r'] that the last listing of [h1] answered. *)
Lemma dayone_verdict_after (r r' : listing_result) (w : World) (h1 : history)
    (m : M unit) :
  last (listing_answers (dayone_listing_at env) (calls w) h1) r = r' ->
  traces env m (dayone_verdict env r') ->
  exists h,
    calls (snd (m env (logged w h1))) = (calls w ++ h)%list
    /\ dayone_verdict env r (calls w) (fst (m env (logged w h1))) h.
Proof.
  intros Hr Hm. destruct (Hm (logged w h1)) as (h2 & Hc2 & Hv).
  exists (h1 ++ h2)%list. cbn [logged calls] in *.
  rewrite Hc2, <- app_assoc. split; [reflexivity|].
  unfold dayone_verdict in *. rewrite listing_answers_app, last_app, Hr.
  intros Hno. destruct (Hv Hno) as [Ho | (e & p & earlier & Ho & -> & Hg)];
    [left; exact Ho|].
  right. exists e, p, (h1 ++ earlier)%list.
  split; [exact Ho|]. rewrite <- !app_assoc. rewrite <- app_assoc in Hg. auto.
Qed.

Lemma dayone_after_listing_run r w :
  exists h1 r',
    DayOne.after_listing project_id r env w
    = DayOne.handle_result project_id r' env (logged w h1)
    /\ last (listing_answers (dayone_listing_at env) (calls w) h1) r = r'.
Proof.
  unfold DayOne.after_listing, bind at 1.
  destruct (is_empty_list r).
  - unfold bind at 1, DayOne.await_accounts, for_range.
    destruct (dayone_await_answers env 6 0 r w)
      as (k & h1 & step & Hk & Hrun & Hcalls & Hans).
    rewrite Hrun. cbn [ret].
    destruct Hans as [(_ & Hn & _) | (earlier & r' & Hpos & Hl & Hall & Hst & Hend)];
      [discriminate Hn|].
    exists h1, r'. rewrite Hst. split; [reflexivity|].
    rewrite Hl. apply last_last.
  - exists [], r. rewrite logged_nil. auto.
Qed.

Lemma dayone_after_listing_verdict r :
  traces env (DayOne.after_listing project_id r) (dayone_verdict env r).
Proof.
  intros w. destruct (dayone_after_listing_run r w) as (h1 & r' & -> & Hr).
  apply (dayone_verdict_after r r' w h1 _ Hr), dayone_handle_result_verdict.
Qed.

Lemma dayone_enable_and_retry_run r w :
  DayOne.enable_and_retry project_id r env w
  = match gcloud_services_enable env (calls w) project_id with
    | Ok _ =>
        (r <- DayOne.retry_listing r;; ret (fst (DayOne.loop_state r)))
          env (logged w [(GcloudServicesEnable project_id, true)])
    | Err e =>
        (match e with
         | FileNotFoundError | CalledProcessError _ => Return r
         | _ => Raised e
         end,
         logged w [(GcloudServicesEnable project_id, false)])
    end.
Proof.
  unfold DayOne.enable_and_retry, bind at 1. rewrite dayone_enable_run.
  destruct (gcloud_services_enable env (calls w) project_id) as [[] | e];
    [reflexivity|].
  destruct e; reflexivity.
Qed.

(** The main block from the first listing on. *)
Let search : M unit :=
  accounts_result <- DayOne.get_billing_accounts;;
  accounts_result <-
    (if result_is accounts_result "API_DISABLED_OR_NO_PERMISSION"
     then DayOne.enable_and_retry project_id accounts_result
     else ret accounts_result);;
  DayOne.after_listing project_id accounts_result.

Lemma dayone_search_run w :
  let r0 := dayone_listing_at env (calls w) in
  let listing := (ListBillingAccounts, is_ok (list_billing_accounts env (calls w))) in
  let enable := GcloudServicesEnable project_id in
  search env w
  = if result_is r0 "API_DISABLED_OR_NO_PERMISSION" then
      match gcloud_services_enable env (calls w ++ [listing])%list project_id with
      | Ok _ =>
          (r <- (r <- DayOne.retry_listing r0;; ret (fst (DayOne.loop_state r)));;
           DayOne.after_listing project_id r)
            env (logged w [listing; (enable, true)])
      | Err e =>
          match e with
          | FileNotFoundError | CalledProcessError _ =>
              DayOne.after_listing project_id r0 env
                (logged w [listing; (enable, false)])
          | _ => (Raised e, logged w [listing; (enable, false)])
          end
      end
    else DayOne.after_listing project_id r0 env (logged w [listing]).
Proof.
  intros r0 listing enable. unfold search, bind at 1.
  rewrite dayone_listing_at_run. fold r0 listing.
  destruct (result_is r0 "API_DISABLED_OR_NO_PERMISSION"); [|reflexivity].
  unfold bind at 1. rewrite dayone_enable_and_retry_run.
  cbn [logged calls]. fold enable.
  destruct (gcloud_services_enable env (calls w ++ [listing])%list project_id)
    as [[] | e].
  - rewrite logged_logged. reflexivity.
  - destruct e; rewrite logged_logged; reflexivity.
Qed.

Lemma dayone_search_verdict (r : listing_result) :
  traces env search (dayone_verdict env r).
Proof.
  intros w. rewrite dayone_search_run. cbn zeta.
  set (r0 := dayone_listing_at env (calls w)).
  set (listing := (ListBillingAccounts, is_ok (list_billing_accounts env (calls w)))).
  set (enable := GcloudServicesEnable project_id).
  assert (Hfirst : forall h1, listing_answers (dayone_listing_at env) (calls w)
                                (listing :: h1)
                              = r0 :: listing_answers (dayone_listing_at env)
                                        (calls w ++ [listing])%list h1)
    by reflexivity.
  destruct (result_is r0 "API_DISABLED_OR_NO_PERMISSION").
  - destruct (gcloud_services_enable env (calls w ++ [listing])%list project_id)
      as [[] | e] eqn:Hg.
    + destruct (dayone_retry_answers env 5 0 r0 (15 # 1)
                  (logged w [listing; (enable, true)]))
        as (k & h1 & step & Hk & Hrun & Hcalls & Hans).
      destruct Hans as [(_ & Hn & _) | (earlier & r' & Hpos & Hl & Hall & Hst & Hend)];
        [discriminate Hn|].
      assert (Hrun' :
          (r <- (r <- DayOne.retry_listing r0;; ret (fst (DayOne.loop_state r)));;
           DayOne.after_listing project_id r)
            env (logged w [listing; (enable, true)])
          = DayOne.after_listing project_id r' env
              (logged w ([listing; (enable, true)] ++ h1)%list)).
      { unfold bind at 1. unfold bind at 1.
        unfold DayOne.retry_listing, for_range. rewrite Hrun. cbn [ret].
        rewrite logged_logged, Hst. reflexivity. }
      rewrite Hrun'.
      apply (dayone_verdict_after r r' w ([listing; (enable, true)] ++ h1)%list
               (DayOne.after_listing project_id r'));
        [|apply dayone_after_listing_verdict].
      cbn [app]. rewrite Hfirst. cbn [listing_answers enable].
      cbn [logged calls] in Hl. rewrite <- app_assoc. cbn [app].
      rewrite Hl, last_cons. apply last_last.
    + assert (Hcaught :
          exists h,
            calls (snd (DayOne.after_listing project_id r0 env
                          (logged w [listing; (enable, false)])))
            = (calls w ++ h)%list
            /\ dayone_verdict env r (calls w)
                 (fst (DayOne.after_listing project_id r0 env
                         (logged w [listing; (enable, false)]))) h).
      { apply (dayone_verdict_after r r0 w [listing; (enable, false)]
                 (DayOne.after_listing project_id r0)); [reflexivity|].
        apply dayone_after_listing_verdict. }
      assert (Hraised :
          exists h,
            calls (snd (@Raised unit e, logged w [listing; (enable, false)]))
            = (calls w ++ h)%list
            /\ dayone_verdict env r (calls w)
                 (fst (@Raised unit e, logged w [listing; (enable, false)])) h).
      { exists [listing; (enable, false)]. cbn [fst snd logged calls].
        split; [reflexivity|]. intros _. right.
        exists e, project_id, [listing]. auto. }
      destruct e; first [exact Hcaught | exact Hraised].
  - apply (dayone_verdict_after r r0 w [listing]
             (DayOne.after_listing project_id r0)); [reflexivity|].
    apply dayone_after_listing_verdict.
Qed.

Hypothesis project_id_known : has_project_id env project_id.

Lemma dayone_main_verdict (r : listing_result) :
  traces env DayOne.main (dayone_verdict env r).
Proof.
  intros w. destruct project_id_known as (text & Hfile & Hstrip & Hid).
  assert (Hmain : DayOne.main env w = search env w).
  { unfold DayOne.main, search, bind at 1. subst project_id.
    rewrite (get_project_id_from_file_content _ _ _ Hfile Hid).
    cbn beta iota. rewrite Hid. reflexivity. }
  rewrite Hmain. apply dayone_search_verdict.
Qed.

End DayOneRun.
(** ** The exit status of the two scripts *)

Lemma new_calls_app (w w' : World) (h : history) :
  calls w' = (calls w ++ h)%list -> new_calls w w' = h.
Proof.
  intros H. unfold new_calls. rewrite H, skipn_app, skipn_all, Nat.sub_diag.
  reflexivity.
Qed.

Lemma project_id_cases (env : Env) :
  no_project_id env \/ exists project_id, has_project_id env project_id.
Proof.
  unfold no_project_id, has_project_id.
  destruct (project_file env) as [| e | text]; auto.
  destruct (Str.truthy (Str.strip text)) eqn:Hid; auto.
  right. exists (Str.strip text), text. auto.
Qed.

Lemma daytwo_script_world env w :
  snd (DayTwo.script env w) = snd (DayTwo.main env w).
Proof.
  unfold DayTwo.script, bind, sys_exit.
  destruct (DayTwo.main env w) as [[c | e | c] w']; reflexivity.
Qed.

(** Day two with a known project id: status 0 exactly when the first lookup
    reports billing as enabled or an update was accepted. *)
Lemma daytwo_status_0 env project_id w :
  has_project_id env project_id ->
  script_status (fst (DayTwo.main env w)) = 0
  <-> (reported_enabled env (calls w) project_id = true
       \/ update_accepted (new_calls w (snd (DayTwo.main env w))) = true).
Proof.
  intros Hid.
  destruct (daytwo_main_verdict env project_id Hid (Sentinel "UNEXPECTED_ERROR") w)
    as (h & Hc & Hv).
  rewrite (new_calls_app _ _ _ Hc). cbn zeta in Hv.
  destruct (reported_enabled env (calls w) project_id).
  - destruct Hv as [-> _]. cbn. tauto.
  - destruct Hv as (ok & h' & -> & [[[-> Hu] | [Ho Hu]] _]);
      cbn [update_accepted]; rewrite Hu.
    + cbn. tauto.
    + rewrite Ho. split; [discriminate | intros [H | H]; discriminate H].
Qed.

(** Day two: when the last listing of the run left no open account, the
    status is 1. *)
Lemma daytwo_status_no_open_account env w earlier r :
  listing_answers (daytwo_listing_at env) (calls w)
    (new_calls w (snd (DayTwo.main env w))) = (earlier ++ [r])%list ->
  no_open_account r ->
  script_status (fst (DayTwo.main env w)) = 1.
Proof.
  intros Hl Hno.
  destruct (project_id_cases env) as [Hnone | [project_id Hid]].
  - rewrite (daytwo_no_project_id env Hnone w). reflexivity.
  - destruct (daytwo_main_verdict env project_id Hid r w) as (h & Hc & Hv).
    rewrite (new_calls_app _ _ _ Hc) in Hl. cbn zeta in Hv.
    destruct (reported_enabled env (calls w) project_id).
    + destruct Hv as [_ ->]. cbn in Hl. destruct earlier; discriminate Hl.
    + destruct Hv as (ok & h' & -> & [_ Hlast]).
      apply Hlast. cbn [listing_answers] in Hl. rewrite Hl, last_last. exact Hno.
Qed.

(** Day one: when the last listing of the run left no open account, the
    script ends normally, unless enabling the API raised. *)
Lemma dayone_no_open_account_ends env w earlier r :
  listing_answers (dayone_listing_at env) (calls w)
    (new_calls w (snd (DayOne.main env w))) = (earlier ++ [r])%list ->
  no_open_account r ->
  fst (DayOne.main env w) = Return tt
  \/ enabling_raised env (calls w) (fst (DayOne.main env w))
       (new_calls w (snd (DayOne.main env w))).
Proof.
  intros Hl Hno.
  destruct (project_id_cases env) as [Hnone | [project_id Hid]].
  - left. apply (dayone_no_project_id env Hnone w).
  - destruct (dayone_main_verdict env project_id Hid r w) as (h & Hc & Hv).
    rewrite (new_calls_app _ _ _ Hc) in *.
    apply Hv. rewrite Hl, last_last. exact Hno.
Qed.

(** C7, as the code has it, for every run (every environment and every
    starting world).  Day two: the exit status is 0 or 1; it is 1 when
    the project id is missing or empty; with a project id it is 0 exactly
    when the first lookup reports billing as enabled or an update of the
    project's billing info was accepted during the run (so 1 after every
    failure of the listing or of the link); and it is 1
    whenever the last listing of the run left no open account to go on with
    (no account, none open, or a sentinel: the API did not become active,
    permission was denied, an unexpected error).  Day one never calls
    [sys.exit]; without a project id it ends normally, with exit status 0;
    and when the last listing of its run left no open account it ends
    normally too, with exit status 0, unless the request to enable the API
    raised an exception that the script does not catch, which was then its
    last call. *)
Theorem exit_status_by_script env w :
  let two := DayTwo.script env w in
  let one := DayOne.main env w in
  (exit_status (fst two) = 0 \/ exit_status (fst two) = 1)
  /\ (no_project_id env -> exit_status (fst two) = 1)
  /\ (forall project_id,
        has_project_id env project_id ->
        exit_status (fst two) = 0
        <-> (reported_enabled env (calls w) project_id = true
             \/ update_accepted (new_calls w (snd two)) = true))
  /\ (forall earlier r,
        listing_answers (daytwo_listing_at env) (calls w) (new_calls w (snd two))
        = (earlier ++ [r])%list ->
        no_open_account r ->
        exit_status (fst two) = 1)
  /\ does_not_exit (fst one)
  /\ (no_project_id env -> fst one = Return tt /\ exit_status (fst one) = 0)
  /\ (forall earlier r,
        listing_answers (dayone_listing_at env) (calls w) (new_calls w (snd one))
        = (earlier ++ [r])%list ->
        no_open_account r ->
        (fst one = Return tt /\ exit_status (fst one) = 0)
        \/ enabling_raised env (calls w) (fst one) (new_calls w (snd one))).
Proof.
  cbn zeta. rewrite daytwo_script_status, daytwo_script_world.
  split; [apply daytwo_main_status|].
  split; [| split; [| split; [| split; [| split]]]].
  - intros Hno. rewrite (daytwo_no_project_id env Hno w). reflexivity.
  - intros project_id Hid. apply daytwo_status_0. exact Hid.
  - apply daytwo_status_no_open_account.
  - apply dayone_main_no_exit.
  - intros Hno. rewrite (dayone_no_project_id env Hno w). split; reflexivity.
  - intros earlier r Hl Hno.
    destruct (dayone_no_open_account_ends env w earlier r Hl Hno) as [H | H];
      [left; rewrite H; split; reflexivity | right; exact H].
Qed.

Lemma exit_status_by_script_witness :
  has_project_id Scenario.links_on_update "workshop-project"
  /\ reported_enabled Scenario.links_on_update (calls Scenario.fresh_world)
       "workshop-project" = false
  /\ update_accepted
       (new_calls Scenario.fresh_world
          (snd (DayTwo.script Scenario.links_on_update Scenario.fresh_world))) = true
  /\ exit_status (fst (DayTwo.script Scenario.links_on_update Scenario.fresh_world)) = 0
  /\ listing_answers (daytwo_listing_at Scenario.no_permission)
       (calls Scenario.fresh_world)
       (new_calls Scenario.fresh_world
          (snd (DayTwo.script Scenario.no_permission Scenario.fresh_world)))
     = ([] ++ [Sentinel "PERMISSION_DENIED"])%list
  /\ no_open_account (Sentinel "PERMISSION_DENIED")
  /\ exit_status (fst (DayTwo.script Scenario.no_permission Scenario.fresh_world)) = 1
  /\ listing_answers (dayone_listing_at Scenario.no_permission)
       (calls Scenario.fresh_world)
       (new_calls Scenario.fresh_world
          (snd (DayOne.main Scenario.no_permission Scenario.fresh_world)))
     = ([] ++ [Sentinel "PERMISSION_DENIED"])%list
  /\ ((fst (DayOne.main Scenario.no_permission Scenario.fresh_world) = Return tt
       /\ exit_status (fst (DayOne.main Scenario.no_permission Scenario.fresh_world)) = 0)
      \/ enabling_raised Scenario.no_permission (calls Scenario.fresh_world)
           (fst (DayOne.main Scenario.no_permission Scenario.fresh_world))
           (new_calls Scenario.fresh_world
              (snd (DayOne.main Scenario.no_permission Scenario.fresh_world)))).
Proof.
  assert (Hid : has_project_id Scenario.links_on_update "workshop-project")
    by (exists "workshop-project"; repeat split; reflexivity).
  assert (Hu : update_accepted
                 (new_calls Scenario.fresh_world
                    (snd (DayTwo.script Scenario.links_on_update
                            Scenario.fresh_world))) = true)
    by (vm_compute; reflexivity).
  assert (Htwo : listing_answers (daytwo_listing_at Scenario.no_permission)
                   (calls Scenario.fresh_world)
                   (new_calls Scenario.fresh_world
                      (snd (DayTwo.script Scenario.no_permission
                              Scenario.fresh_world)))
                 = ([] ++ [Sentinel "PERMISSION_DENIED"])%list)
    by (vm_compute; reflexivity).
  assert (Hone : listing_answers (dayone_listing_at Scenario.no_permission)
                   (calls Scenario.fresh_world)
                   (new_calls Scenario.fresh_world
                      (snd (DayOne.main Scenario.no_permission
                              Scenario.fresh_world)))
                 = ([] ++ [Sentinel "PERMISSION_DENIED"])%list)
    by (vm_compute; reflexivity).
  split; [exact Hid|]. split; [reflexivity|]. split; [exact Hu|].
  split.
  { apply (proj2 (proj1 (proj2 (proj2
             (exit_status_by_script Scenario.links_on_update Scenario.fresh_world)))
             "workshop-project" Hid)).
    right. exact Hu. }
  split; [exact Htwo|]. split; [exact I|].
  split.
  { exact (proj1 (proj2 (proj2 (proj2
             (exit_status_by_script Scenario.no_permission Scenario.fresh_world))))
             [] (Sentinel "PERMISSION_DENIED") Htwo I). }
  split; [exact Hone|].
  exact (proj2 (proj2 (proj2 (proj2 (proj2 (proj2
           (exit_status_by_script Scenario.no_permission Scenario.fresh_world))))))
           [] (Sentinel "PERMISSION_DENIED") Hone I).
Defined.
